(** * The generic REST resource engine of [digitized]

    A shallow embedding of [pkg/rest] (resource handler, request context
    chain) and [pkg/apis/meta] (identity resolver), together with the
    properties of the specification that concern them.

    Go strings are [string]; an [error] value is a small inductive type;
    HTTP status codes are [Z].  Everything the handlers ask of their
    collaborators (the echo request and response, the serializer, the
    storage, the registered hooks) is an effect of the program monad [Prog];
    a run of a handler against an environment yields its outcome, the final
    world and the trace of those effects. *)

From Stdlib Require Import ZArith Ascii String List Bool Lia.
From stdpp Require Import base decidable option strings list countable gmap.

Local Open Scope string_scope.
Local Open Scope list_scope.

(** ** Strings *)

Module Str.

(** [contains c s]: the character [c] occurs in [s]. *)
Fixpoint contains (c : ascii) (s : string) : bool :=
  match s with
  | EmptyString => false
  | String a s' => if Ascii.eqb a c then true else contains c s'
  end.

End Str.

(** ** Messages and errors *)

(** The text of a message.  [fmt.Sprintf] is not evaluated: a formatted
    message is kept as its format and its arguments, and the [String()] of a
    [metav1.Status] as its code and message. *)
#[local] Unset Elimination Schemes.
Inductive Text : Type :=
| Lit (s : string)
| Sprintf (format : string) (args : list Text)
| Quoted (s : string)
| StatusString (code : Z) (message : Text).
#[local] Set Elimination Schemes.

(** The sentinel errors of [libgitops/pkg/storage]. *)
Inductive sentinel : Type := NotFound | AlreadyExists.

Inductive error : Type :=
| errorString (msg : Text)
| sentinelError (s : sentinel)
| wrapError (msg : Text) (inner : error)
| statusErrorImpl (Code : Z) (Message : Text).

Definition ErrNotFound : error := sentinelError NotFound.
Definition ErrAlreadyExists : error := sentinelError AlreadyExists.

(** Modelled from the spec: the texts of the storage's sentinel errors are
    declared in [libgitops], which is not part of the sources; the spec names
    the two error kinds [NotFound] and [AlreadyExists]. *)
Definition sentinelText (s : sentinel) : Text :=
  match s with
  | NotFound => Lit "NotFound"
  | AlreadyExists => Lit "AlreadyExists"
  end.

Definition Error (e : error) : Text :=
  match e with
  | errorString msg => msg
  | sentinelError s => sentinelText s
  | wrapError msg _ => msg
  | statusErrorImpl code msg => StatusString code msg
  end.

Definition sentinel_eqb (a b : sentinel) : bool :=
  match a, b with
  | NotFound, NotFound | AlreadyExists, AlreadyExists => true
  | _, _ => false
  end.

(** [errors.Is(err, target)] for a sentinel [target]: [err] is the sentinel,
    or wraps an error that is. *)
Fixpoint errors_Is (err : error) (target : sentinel) : bool :=
  match err with
  | sentinelError s => sentinel_eqb s target
  | wrapError _ inner => errors_Is inner target
  | _ => false
  end.

(** [fmt.Errorf(format, args...)], without [%w]. *)
Definition Errorf (format : string) (args : list Text) : error :=
  errorString (Sprintf format args).

Definition StatusOK : Z := 200.
Definition StatusCreated : Z := 201.
Definition StatusNoContent : Z := 204.
Definition StatusBadRequest : Z := 400.
Definition StatusNotFound : Z := 404.
Definition StatusInternalServerError : Z := 500.

Definition newStatusError (code : Z) (err : error) : error :=
  statusErrorImpl code (Error err).

Definition newStatusErrorf (code : Z) (format : string) (args : list Text) : error :=
  statusErrorImpl code (Sprintf format args).

(** An error is of the BadRequest class when it is a status error of code 400. *)
Definition isBadRequest (e : error) : bool :=
  match e with
  | statusErrorImpl code _ => Z.eqb code StatusBadRequest
  | _ => false
  end.

(** ** Kinds, keys and objects *)

Record GroupVersionKind : Type := mkGVK {
  gvkGroup : string;
  gvkVersion : string;
  gvkKind : string
}.

Record GroupVersionKindResource : Type := mkGVKR {
  gvkrGroup : string;
  gvkrVersion : string;
  gvkrKind : string;
  Resource : string;
  Namespaced : bool;
  Singleton : bool
}.

Definition GVK (gvkr : GroupVersionKindResource) : GroupVersionKind :=
  mkGVK (gvkrGroup gvkr) (gvkrVersion gvkr) (gvkrKind gvkr).

(** [storage.KindKey] and [storage.ObjectKey]; a [runtime.Identifyable] is
    its identifier string. *)
Definition KindKey : Type := GroupVersionKind.
Definition NewKindKey (gvk : GroupVersionKind) : KindKey := gvk.

Record ObjectKey : Type := NewObjectKey {
  okKind : KindKey;
  okIdentifier : string
}.

(** A libgitops [runtime.Object]: type meta, object meta and content.  Which
    of the optional interfaces of [pkg/apis/meta] the Go type implements is
    recorded with the object: [Some b] when the type has the method and it
    returns [b], [None] when a type assertion to the interface fails.  Every
    such object is a [metav1.Object]. *)
Record Object : Type := mkObject {
  objGVK : GroupVersionKind;
  objName : string;
  objNamespace : string;
  objSingleton : option bool;
  objNamespaced : option bool;
  objValidatable : bool;
  objContent : string
}.

Definition GetName (o : Object) : string := objName o.
Definition GetNamespace (o : Object) : string := objNamespace o.

Definition SetNamespace (o : Object) (ns : string) : Object :=
  mkObject (objGVK o) (objName o) ns (objSingleton o) (objNamespaced o)
           (objValidatable o) (objContent o).

(** ** pkg/apis/meta: the identity resolver *)

Definition IsSingleton (o : Object) : bool :=
  match objSingleton o with
  | Some b => b
  | None => false
  end.

Definition IsNamespaced (o : Object) : bool :=
  match objNamespaced o with
  | Some b => b
  | None => false
  end.

Definition SingletonIdentifierKey : string := "singleton".

Definition NameIdentifier (name : string) : string := name.

(** [fmt.Sprintf("%s-%s", ns, name)]; on strings [%s] prints the string as it is. *)
Definition NameNamespaceIdentifier (ns name : string) : string :=
  ns +:+ "-" +:+ name.

Definition SingletonIdentifier : string := SingletonIdentifierKey.

Definition SingletonKey (kind : KindKey) : ObjectKey :=
  NewObjectKey kind SingletonIdentifier.

Definition isEmpty (s : string) : bool :=
  match s with EmptyString => true | _ => false end.

(** [Metav1NameIdentifierFactory.Identify] on a [runtime.Object], for which
    the type switch takes its [metav1.Object] case.  [None] is Go's
    [(nil, false)]. *)
Definition Identify (o : Object) : option string :=
  if IsSingleton o then Some SingletonIdentifier
  else
    match objNamespaced o with
    | Some false => Some (NameIdentifier (GetName o))
    | _ =>
      if isEmpty (GetNamespace o) || isEmpty (GetName o) then None
      else Some (NameNamespaceIdentifier (GetNamespace o) (GetName o))
    end.

(** ** The request contexts *)

(** The contexts of [pkg/rest]; each layer embeds the one beneath.  A
    [resourceContextImpl] embeds the [storageContextImpl] that the server's
    outermost middleware builds for every request; the [echo.Context] below
    it and the storage handle are reached through effects. *)
Inductive ResourceContext : Type :=
| resourceContextImpl (gvkr : GroupVersionKindResource)
| namespacedResourceContextImpl (rc : ResourceContext) (namespace : string)
| namedResourceContextImpl (rc : ResourceContext) (name : string).

(** The [echo.Context] a handler receives. *)
Inductive Context : Type :=
| storageContextImpl
| ctx (rc : ResourceContext).

(** [rc.Resource()], promoted through the layers. *)
Fixpoint ctxResource (rc : ResourceContext) : GroupVersionKindResource :=
  match rc with
  | resourceContextImpl gvkr => gvkr
  | namespacedResourceContextImpl rc' _ => ctxResource rc'
  | namedResourceContextImpl rc' _ => ctxResource rc'
  end.

(** [rc.KindKey()]. *)
Definition ctxKindKey (rc : ResourceContext) : KindKey :=
  NewKindKey (GVK (ctxResource rc)).

(** The type assertion [rc.(NamespacedResourceContext)].  A layer promotes
    the methods of the interface it embeds and adds its own, so only a
    [namespacedResourceContextImpl] has [Namespace()]. *)
Definition asNamespacedResourceContext (rc : ResourceContext) : option string :=
  match rc with
  | namespacedResourceContextImpl _ ns => Some ns
  | _ => None
  end.

(** [namedResourceContextImpl.ObjectKey], for the context [rc] it embeds. *)
Definition ctxObjectKey (rc : ResourceContext) (name : string) : ObjectKey :=
  match asNamespacedResourceContext rc with
  | Some ns => NewObjectKey (ctxKindKey rc) (NameNamespaceIdentifier ns name)
  | None => NewObjectKey (ctxKindKey rc) (NameIdentifier name)
  end.

(** ** Hooks *)

(** A hook is a Go function value registered by a collaborator; the model
    knows it by name and calls it through an effect. *)
Record ObjectHookHandler : Type := ObjectHook { objectHookName : string }.
Record NamedResourceHookHandler : Type := NamedHook { namedHookName : string }.

(** ** Effects *)

(** What [Decoder().Decode] returns: a [kruntime.Object] that is, or is not,
    a libgitops [runtime.Object]. *)
Inductive KObject : Type :=
| kRuntimeObject (o : Object)
| kOther.

(** What [JSONIndent] encodes: an object or a [v1alpha1.List]. *)
Inductive Body : Type :=
| bodyObject (o : Object)
| bodyList (items : list Object).

Record namespaceFilter : Type := mkNamespaceFilter { filterNamespace : string }.

Inductive Eff : Type -> Type :=
(* echo.Context *)
| Param (name : string) : Eff string
| RequestHeaderGet (key : string) : Eff string
| ReadAllBody : Eff (error + string)
| ResponseHeaderAdd (key : string) (value : Text) : Eff unit
| WriteHeader (code : Z) : Eff unit
| NoContent (code : Z) : Eff (option error)
(* Storage().Serializer() *)
| Decode : Eff (error + KObject)
| DecodePartialFrames (patch : string) : Eff (error + list Object)
| Default (objs : list Object) : Eff (option error * list Object)
| EncodeForGroupVersion (obj : Body) (group version : string) : Eff (option error)
(* Storage() *)
| StorageGet (key : ObjectKey) : Eff (error + Object)
| StorageList (kind : KindKey) (filters : list namespaceFilter) : Eff (error + list Object)
| StorageCreate (obj : Object) : Eff (option error)
| StorageUpdate (obj : Object) : Eff (option error)
| StoragePatch (key : ObjectKey) (patch : string) : Eff (option error)
| StorageDelete (key : ObjectKey) : Eff (option error)
(* obj.Validate() of a Validatable object *)
| Validate (obj : Object) : Eff (option error)
(* registered hooks; an object hook may mutate the object it is given *)
| CallObjectHook (h : ObjectHookHandler) (rc : ResourceContext) (obj : Object)
    : Eff (option error * Object)
| CallNamedHook (h : NamedResourceHookHandler) (rc : ResourceContext) : Eff (option error).

(** ** Programs *)

(** A handler is a tree of effects ending in a value or in a Go panic. *)
Inductive Prog (A : Type) : Type :=
| Ret (a : A)
| Panic (msg : string)
| Call {X : Type} (e : Eff X) (k : X -> Prog A).

Arguments Ret {A} a.
Arguments Panic {A} msg.
Arguments Call {A X} e k.

Fixpoint bind {A B : Type} (p : Prog A) (f : A -> Prog B) : Prog B :=
  match p with
  | Ret a => f a
  | Panic msg => Panic msg
  | Call e k => Call e (fun x => bind (k x) f)
  end.

Definition trigger {X : Type} (e : Eff X) : Prog X := Call e Ret.

Notation "'do' x <- p ; q" := (bind p (fun x => q))
  (at level 10, x name, p at level 100, q at level 200,
   format "'[v' 'do'  x  <-  p ; '/' q ']'").

(** ** Running a program *)

Inductive Event : Type :=
| Ev {X : Type} (e : Eff X) (x : X).

Inductive Outcome (A : Type) : Type :=
| Returned (a : A)
| Panicked (msg : string).

Arguments Returned {A} a.
Arguments Panicked {A} msg.

(** An environment answers every effect and moves the world. *)
Definition Env (W : Type) : Type := forall X : Type, Eff X -> W -> X * W.

Record Run (W A : Type) : Type := mkRun {
  outcome : Outcome A;
  world : W;
  trace : list Event
}.

Arguments mkRun {W A} outcome world trace.
Arguments outcome {W A} r.
Arguments world {W A} r.
Arguments trace {W A} r.

Fixpoint run {W A : Type} (env : Env W) (p : Prog A) (w : W) : Run W A :=
  match p with
  | Ret a => mkRun (Returned a) w []
  | Panic msg => mkRun (Panicked msg) w []
  | Call e k =>
    let r := run env (k (fst (env _ e w))) (snd (env _ e w)) in
    mkRun (outcome r) (world r) (Ev e (fst (env _ e w)) :: trace r)
  end.

(** ** pkg/rest: context methods and middlewares *)

Definition HandlerFunc : Type := Context -> Prog (option error).

(** [storageContextImpl.Warnf]: a [Warning] header on the response. *)
Definition Warnf (format : string) (args : list Text) : Prog unit :=
  trigger (ResponseHeaderAdd "Warning" (Sprintf format args)).

(** [resourceContextImpl.ShouldDefault]. *)
Definition ShouldDefault : Prog bool :=
  do h <- trigger (RequestHeaderGet "default");
  Ret (Nat.eqb (String.length h) 0 || String.eqb h "true").

(** [resourceContextImpl.JSONIndent].  The defaulter works on the objects in
    place; its answer carries them as it left them. *)
Definition JSONIndent (rc : ResourceContext) (code : Z) (obj : Body) : Prog (option error) :=
  let gvk := GVK (ctxResource rc) in
  let encode (obj : Body) : Prog (option error) :=
    do _ <- trigger (WriteHeader code);
    trigger (EncodeForGroupVersion obj (gvkGroup gvk) (gvkVersion gvk)) in
  do should <- ShouldDefault;
  if should then
    let objs := match obj with bodyObject o => [o] | bodyList items => items end in
    do r <- trigger (Default objs);
    match fst r with
    | Some err => Ret (Some err)
    | None =>
      encode (match obj with
              | bodyObject o => bodyObject (List.hd o (snd r))
              | bodyList _ => bodyList (snd r)
              end)
    end
  else encode obj.

(** Every request passes [storageContextMiddleware] first, so the context
    that reaches [resourceContextMiddleware] is a [StorageContext]; the new
    layer answers [Resource()] with its own [gvkr]. *)
Definition resourceContextMiddleware (gvkr : GroupVersionKindResource)
    (next : HandlerFunc) : HandlerFunc :=
  fun c => next (ctx (resourceContextImpl gvkr)).

Definition namespacedResourceContextMiddleware (next : HandlerFunc) : HandlerFunc :=
  fun c =>
    match c with
    | storageContextImpl => Panic "interface conversion: not a ResourceContext"
    | ctx rc =>
      do namespace <- trigger (Param "namespace");
      if negb (Namespaced (ctxResource rc)) then
        Ret (Some (newStatusErrorf StatusInternalServerError
          "NamespacedResourceContext middleware requires a Namespaced resource" []))
      else if isEmpty namespace then
        Ret (Some (newStatusErrorf StatusBadRequest "namespace parameter is mandatory" []))
      else next (ctx (namespacedResourceContextImpl rc namespace))
    end.

Definition namedResourceContextMiddleware (next : HandlerFunc) : HandlerFunc :=
  fun c =>
    match c with
    | storageContextImpl => Panic "interface conversion: not a ResourceContext"
    | ctx rc =>
      do name <- trigger (Param "name");
      if isEmpty name then
        Ret (Some (newStatusErrorf StatusBadRequest "name parameter is mandatory" []))
      else next (ctx (namedResourceContextImpl rc name))
    end.

(** ** pkg/rest: the resource handler *)

(** An [echo.Group]: the path prefix and the middlewares of its routes. *)
Inductive MiddlewareName : Type :=
| mwResourceContext (gvkr : GroupVersionKindResource)
| mwNamespacedResourceContext
| mwNamedResourceContext.

Record echoGroup : Type := mkGroup {
  prefix : string;
  groupMiddleware : list MiddlewareName
}.

Record resourceHandlerImpl : Type := mkResourceHandler {
  g : echoGroup;
  gvkr : GroupVersionKindResource;
  postHooks : list ObjectHookHandler;
  putHooks : list ObjectHookHandler;
  deleteHooks : list NamedResourceHookHandler
}.

Definition RegisterPOSTHook (rh : resourceHandlerImpl) (handler : ObjectHookHandler) :=
  mkResourceHandler (g rh) (gvkr rh) (postHooks rh ++ [handler]) (putHooks rh) (deleteHooks rh).

Definition RegisterPUTHook (rh : resourceHandlerImpl) (handler : ObjectHookHandler) :=
  mkResourceHandler (g rh) (gvkr rh) (postHooks rh) (putHooks rh ++ [handler]) (deleteHooks rh).

Definition RegisterDELETEHook (rh : resourceHandlerImpl) (handler : NamedResourceHookHandler) :=
  mkResourceHandler (g rh) (gvkr rh) (postHooks rh) (putHooks rh) (deleteHooks rh ++ [handler]).

(** [meta.ValidateIfPossible]. *)
Definition ValidateIfPossible (obj : Object) : Prog (option error) :=
  if objValidatable obj then trigger (Validate obj) else Ret None.

(** The [ObjectMeta] block of [validateBody], entered for non-singletons:
    the error it returns, if any, and the object as it leaves it. *)
Definition validateObjectMeta (obj : Object) : Prog (option error * Object) :=
  if isEmpty (GetName obj) then
    Ret (Some (Errorf "name must be set" []), obj)
  else if IsNamespaced obj then
    if isEmpty (GetNamespace obj) then
      Ret (Some (Errorf ".metadata.namespace must be set for namespaced object" []), obj)
    else Ret (None, obj)
  else
    if negb (isEmpty (GetNamespace obj)) then
      do _ <- Warnf "Non-namespaced resources must not have the .metadata.namespace field set. Pruning the field" [];
      Ret (None, SetNamespace obj "")
    else Ret (None, obj).

(** [validateBody]: its error and the object, which it may have pruned. *)
Definition validateBody (rh : resourceHandlerImpl) (rc : ResourceContext) (obj : Object)
    : Prog (option error * Object) :=
  do m <- (if negb (Singleton (gvkr rh)) then validateObjectMeta obj else Ret (None, obj));
  match m with
  | (Some err, obj) => Ret (Some err, obj)
  | (None, obj) =>
    let validate := do v <- ValidateIfPossible obj; Ret (v, obj) in
    match asNamespacedResourceContext rc with
    | Some ns =>
      if negb (String.eqb ns (GetNamespace obj)) then
        Ret (Some (Errorf "Object namespace in body: %q doesn't match namespace in path: %q"
                     [Quoted (GetNamespace obj); Quoted ns]), obj)
      else validate
    | None => validate
    end
  end.

Definition returnFromStorage (rc : ResourceContext) (key : ObjectKey) : Prog (option error) :=
  do r <- trigger (StorageGet key);
  match r with
  | inl err =>
    if errors_Is err NotFound then Ret (Some (newStatusError StatusNotFound ErrNotFound))
    else Ret (Some err)
  | inr obj => JSONIndent rc StatusOK (bodyObject obj)
  end.

Definition list_ (rh : resourceHandlerImpl) : HandlerFunc :=
  fun c =>
    match c with
    | storageContextImpl => Panic "interface conversion: not a ResourceContext"
    | ctx rc =>
      let filters :=
        match asNamespacedResourceContext rc with
        | Some ns => [mkNamespaceFilter ns]
        | None => []
        end in
      do r <- trigger (StorageList (ctxKindKey rc) filters);
      match r with
      | inl err => Ret (Some err)
      | inr items => JSONIndent rc StatusOK (bodyList items)
      end
    end.

Definition decodeObject (rh : resourceHandlerImpl) (rc : ResourceContext)
    : Prog (error + Object) :=
  do r <- trigger Decode;
  match r with
  | inl err => Ret (inl (newStatusError StatusBadRequest err))
  | inr kOther =>
    Ret (inl (newStatusErrorf StatusInternalServerError
                "couldn't cast decoded object to runtime.Object" []))
  | inr (kRuntimeObject obj) =>
    do v <- validateBody rh rc obj;
    match v with
    | (Some err, _) => Ret (inl (newStatusError StatusBadRequest err))
    | (None, obj) => Ret (inr obj)
    end
  end.

(** The loop [for _, hook := range hooks] of [create] and [update]: the
    first error stops it; the object is the one the hooks have worked on. *)
Fixpoint runObjectHooks (hooks : list ObjectHookHandler) (rc : ResourceContext)
    (obj : Object) : Prog (option error * Object) :=
  match hooks with
  | [] => Ret (None, obj)
  | hook :: rest =>
    do r <- trigger (CallObjectHook hook rc obj);
    match fst r with
    | Some err => Ret (Some err, snd r)
    | None => runObjectHooks rest rc (snd r)
    end
  end.

(** The loop over the delete hooks. *)
Fixpoint runNamedHooks (hooks : list NamedResourceHookHandler) (rc : ResourceContext)
    : Prog (option error) :=
  match hooks with
  | [] => Ret None
  | hook :: rest =>
    do r <- trigger (CallNamedHook hook rc);
    match r with
    | Some err => Ret (Some err)
    | None => runNamedHooks rest rc
    end
  end.

Definition create (rh : resourceHandlerImpl) : HandlerFunc :=
  fun c =>
    match c with
    | storageContextImpl => Panic "interface conversion: not a ResourceContext"
    | ctx rc =>
      do d <- decodeObject rh rc;
      match d with
      | inl err => Ret (Some err)
      | inr obj =>
        do h <- runObjectHooks (postHooks rh) rc obj;
        match h with
        | (Some err, _) => Ret (Some err)
        | (None, obj) =>
          do w <- trigger (StorageCreate obj);
          match w with
          | Some err =>
            if errors_Is err AlreadyExists then
              Ret (Some (newStatusError StatusBadRequest ErrAlreadyExists))
            else Ret (Some (newStatusError StatusInternalServerError err))
          | None => JSONIndent rc StatusCreated (bodyObject obj)
          end
        end
      end
    end.

Definition update (rh : resourceHandlerImpl) : HandlerFunc :=
  fun c =>
    match c with
    | storageContextImpl => Panic "interface conversion: not a ResourceContext"
    | ctx rc =>
      do d <- decodeObject rh rc;
      match d with
      | inl err => Ret (Some err)
      | inr obj =>
        do h <- runObjectHooks (putHooks rh) rc obj;
        match h with
        | (Some err, _) => Ret (Some err)
        | (None, obj) =>
          do w <- trigger (StorageUpdate obj);
          match w with
          | Some err => Ret (Some err)
          | None => JSONIndent rc StatusOK (bodyObject obj)
          end
        end
      end
    end.

Definition get (rh : resourceHandlerImpl) : HandlerFunc :=
  fun c =>
    match c with
    | ctx (namedResourceContextImpl rc name) =>
      returnFromStorage (namedResourceContextImpl rc name) (ctxObjectKey rc name)
    | _ => Panic "interface conversion: not a NamedResourceContext"
    end.

Definition getSingleton (rh : resourceHandlerImpl) : HandlerFunc :=
  fun c =>
    match c with
    | storageContextImpl => Panic "interface conversion: not a ResourceContext"
    | ctx rc => returnFromStorage rc (SingletonKey (ctxKindKey rc))
    end.

Definition delete_ (rh : resourceHandlerImpl) : HandlerFunc :=
  fun c =>
    match c with
    | ctx (namedResourceContextImpl rc name) =>
      do h <- runNamedHooks (deleteHooks rh) (namedResourceContextImpl rc name);
      match h with
      | Some err => Ret (Some err)
      | None =>
        do d <- trigger (StorageDelete (ctxObjectKey rc name));
        match d with
        | Some err => Ret (Some err)
        | None => trigger (NoContent StatusNoContent)
        end
      end
    | _ => Panic "interface conversion: not a NamedResourceContext"
    end.

(** [customPartialObject]: the decoded partial object with [IsNamespaced]
    and [IsSingleton] answered from the two fields set by the handler. *)
Definition customPartialObject (po : Object) (namespaced singleton : bool) : Object :=
  mkObject (objGVK po) (objName po) (objNamespace po) (Some singleton) (Some namespaced)
           (objValidatable po) (objContent po).

(** Modelled from the spec: [storage.DecodePartialObjects] is libgitops code
    and not part of the sources.  The spec has the patch body decoded "only
    as a Partial Object (must yield exactly one object -- reject bodies that
    decode to zero or multiple)", and [patch] passes [allowMultiple = false],
    which "guarantees that len(objs)==1 when err==nil".  The frames of the
    body are read through the effect [DecodePartialFrames]. *)
Definition DecodePartialObjects (patch : string) (allowMultiple : bool)
    : Prog (error + list Object) :=
  do r <- trigger (DecodePartialFrames patch);
  match r with
  | inl err => Ret (inl err)
  | inr objs =>
    if negb allowMultiple && negb (Nat.eqb (List.length objs) 1) then
      Ret (inl (Errorf "DecodePartialObjects: unexpected number of frames" []))
    else Ret (inr objs)
  end.

(** Modelled from the spec: [Storage.ObjectKeyFor] is libgitops code and not
    part of the sources.  By the spec an ObjectKey is "{kindDescriptor,
    identifier} where identifier is an opaque string computed by the
    Identity Resolver"; [main] installs [Metav1NameIdentifierFactory] as the
    storage's only identifier factory. *)
Definition ObjectKeyFor (obj : Object) : error + ObjectKey :=
  match Identify obj with
  | Some id => inr (NewObjectKey (NewKindKey (objGVK obj)) id)
  | None => inl (Errorf "couldn't identify object" [])
  end.

Definition patch (rh : resourceHandlerImpl) : HandlerFunc :=
  fun c =>
    match c with
    | storageContextImpl => Panic "interface conversion: not a ResourceContext"
    | ctx rc =>
      do b <- trigger ReadAllBody;
      match b with
      | inl err => Ret (Some err)
      | inr patch =>
        do d <- DecodePartialObjects patch false;
        match d with
        | inl err =>
          Ret (Some (newStatusErrorf StatusBadRequest "couldn't decode patch: %v" [Error err]))
        | inr [] => Panic "index out of range [0] with length 0"
        | inr (po :: _) =>
          let patchObj := customPartialObject po (Namespaced (gvkr rh)) (Singleton (gvkr rh)) in
          match ObjectKeyFor patchObj with
          | inl err => Ret (Some err)
          | inr key =>
            do w <- trigger (StoragePatch key patch);
            match w with
            | Some err => Ret (Some err)
            | None => returnFromStorage rc key
            end
          end
        end
      end
    end.

(** ** pkg/rest: the routes of a resource *)

Inductive HandlerName : Type :=
| hList | hCreate | hPatch | hUpdate | hGet | hGetSingleton | hDelete.

(** A route as [echo] records it: method, full path, the handler and the
    middlewares in front of it (those of the group, then its own). *)
Record Route : Type := mkRoute {
  method : string;
  path : string;
  handler : HandlerName;
  middleware : list MiddlewareName
}.

(** [parent.Group(prefix, m...)]. *)
Definition Group (parent : echoGroup) (pfx : string) (m : list MiddlewareName) : echoGroup :=
  mkGroup (prefix parent +:+ pfx) (groupMiddleware parent ++ m).

(** [g.Add(method, path, handler, m...)], the route that [g.GET], [g.POST],
    ... register. *)
Definition Add (grp : echoGroup) (meth p : string) (h : HandlerName)
    (m : list MiddlewareName) : Route :=
  mkRoute meth (prefix grp +:+ p) h (groupMiddleware grp ++ m).

Definition nameParamPath : string := "/:name/".

(** [newResourceHandler]: the handler and the routes it registers, in the
    order of registration. *)
Definition newResourceHandler (parent : echoGroup) (gvkr : GroupVersionKindResource)
    : resourceHandlerImpl * list Route :=
  let resourcePath := "/" +:+ Resource gvkr in
  let '(grp, listAll) :=
    if Namespaced gvkr then
      (Group parent ("/namespaces/:namespace" +:+ resourcePath)
             [mwResourceContext gvkr; mwNamespacedResourceContext],
       [Add parent "GET" (resourcePath +:+ "/") hList [mwResourceContext gvkr]])
    else
      (Group parent resourcePath [mwResourceContext gvkr], []) in
  let rh := mkResourceHandler grp gvkr [] [] [] in
  (rh,
   listAll ++
   [Add grp "POST" "/" hCreate [];
    Add grp "PATCH" "/" hPatch [];
    Add grp "PUT" "/" hUpdate []] ++
   (if Singleton gvkr then
      [Add grp "GET" "/" hGetSingleton []]
    else
      [Add grp "GET" "/" hList [];
       Add grp "GET" nameParamPath hGet [mwNamedResourceContext];
       Add grp "DELETE" nameParamPath hDelete [mwNamedResourceContext]])).

(** The function behind a handler name and a middleware name. *)
Definition handlerFunc (rh : resourceHandlerImpl) (h : HandlerName) : HandlerFunc :=
  match h with
  | hList => list_ rh
  | hCreate => create rh
  | hPatch => patch rh
  | hUpdate => update rh
  | hGet => get rh
  | hGetSingleton => getSingleton rh
  | hDelete => delete_ rh
  end.

Definition middlewareFunc (m : MiddlewareName) : HandlerFunc -> HandlerFunc :=
  match m with
  | mwResourceContext gvkr => resourceContextMiddleware gvkr
  | mwNamespacedResourceContext => namespacedResourceContextMiddleware
  | mwNamedResourceContext => namedResourceContextMiddleware
  end.

(** What [echo] runs for a route: the handler behind its middlewares, the
    first middleware outermost. *)
Definition serve (rh : resourceHandlerImpl) (r : Route) : HandlerFunc :=
  List.fold_right middlewareFunc (handlerFunc rh (handler r)) (middleware r).

(** ** A reference environment *)

(** An executable environment on which the handlers can be run: the request
    is a record of what the collaborators make of it, the storage a finite
    map from object keys to objects. *)

Global Instance GroupVersionKind_eq_dec : EqDecision GroupVersionKind.
Proof. solve_decision. Defined.

Global Instance ObjectKey_eq_dec : EqDecision ObjectKey.
Proof. solve_decision. Defined.

Global Instance ObjectKey_countable : Countable ObjectKey.
Proof.
  refine (inj_countable'
    (fun k => (gvkGroup (okKind k), gvkVersion (okKind k), gvkKind (okKind k), okIdentifier k))
    (fun t => match t with (gr, v, k, i) => NewObjectKey (mkGVK gr v k) i end) _).
  intros [[gr v k] i]. reflexivity.
Defined.

Module Ref.

Record World : Type := mkWorld {
  params : list (string * string);
  requestHeaders : list (string * string);
  body : error + string;
  decoded : error + KObject;
  frames : error + list Object;
  store : gmap ObjectKey Object;
  responseHeaders : list (string * Text);
  status : option Z;
  written : list Body
}.

Definition withStore (w : World) (s : gmap ObjectKey Object) : World :=
  mkWorld (params w) (requestHeaders w) (body w) (decoded w) (frames w) s
          (responseHeaders w) (status w) (written w).

Definition withHeader (w : World) (k : string) (v : Text) : World :=
  mkWorld (params w) (requestHeaders w) (body w) (decoded w) (frames w) (store w)
          (responseHeaders w ++ [(k, v)]) (status w) (written w).

Definition withStatus (w : World) (code : Z) : World :=
  mkWorld (params w) (requestHeaders w) (body w) (decoded w) (frames w) (store w)
          (responseHeaders w) (Some code) (written w).

Definition withWritten (w : World) (b : Body) : World :=
  mkWorld (params w) (requestHeaders w) (body w) (decoded w) (frames w) (store w)
          (responseHeaders w) (status w) (written w ++ [b]).

Fixpoint assoc (k : string) (l : list (string * string)) : string :=
  match l with
  | [] => ""
  | (k', v) :: l' => if String.eqb k k' then v else assoc k l'
  end.

(** Modelled from the spec: the Object Store is libgitops code and not part
    of the sources.  By the spec it is "a capability providing get(key),
    list(kindKey, filters), create/update/delete(obj), patch(key, rawPatch),
    each returning domain objects or a NotFound/AlreadyExists error kind",
    addressed by ObjectKey alone. *)
Definition storeGet (key : ObjectKey) (s : gmap ObjectKey Object) : error + Object :=
  match s !! key with
  | Some obj => inr obj
  | None => inl ErrNotFound
  end.

Definition storeCreate (obj : Object) (s : gmap ObjectKey Object)
    : option error * gmap ObjectKey Object :=
  match ObjectKeyFor obj with
  | inl err => (Some err, s)
  | inr key =>
    match s !! key with
    | Some _ => (Some ErrAlreadyExists, s)
    | None => (None, <[key := obj]> s)
    end
  end.

Definition storeUpdate (obj : Object) (s : gmap ObjectKey Object)
    : option error * gmap ObjectKey Object :=
  match ObjectKeyFor obj with
  | inl err => (Some err, s)
  | inr key => (None, <[key := obj]> s)
  end.

Definition storeDelete (key : ObjectKey) (s : gmap ObjectKey Object)
    : option error * gmap ObjectKey Object :=
  match s !! key with
  | Some _ => (None, delete key s)
  | None => (Some ErrNotFound, s)
  end.

(** The patch of the reference store replaces the content of the record. *)
Definition storePatch (key : ObjectKey) (patch : string) (s : gmap ObjectKey Object)
    : option error * gmap ObjectKey Object :=
  match s !! key with
  | Some obj =>
    (None, <[key := mkObject (objGVK obj) (objName obj) (objNamespace obj) (objSingleton obj)
                             (objNamespaced obj) (objValidatable obj) patch]> s)
  | None => (Some ErrNotFound, s)
  end.

Definition storeList (kind : KindKey) (filters : list namespaceFilter)
    (s : gmap ObjectKey Object) : list Object :=
  List.map snd
    (List.filter
       (fun kv => bool_decide (okKind (fst kv) = kind) &&
                  forallb (fun f => String.eqb (filterNamespace f) (objNamespace (snd kv))) filters)
       (map_to_list s)).

Section WithCallbacks.

(** The behaviour of the registered hooks and of [Validate]. *)
Variable objectHook : ObjectHookHandler -> Object -> option error * Object.
Variable namedHook : NamedResourceHookHandler -> option error.
Variable validator : Object -> option error.

Definition env : Env World :=
  fun X e =>
    match e in Eff X return World -> X * World with
    | Param name => fun w => (assoc name (params w), w)
    | RequestHeaderGet key => fun w => (assoc key (requestHeaders w), w)
    | ReadAllBody => fun w => (body w, w)
    | ResponseHeaderAdd key value => fun w => (tt, withHeader w key value)
    | WriteHeader code => fun w => (tt, withStatus w code)
    | NoContent code => fun w => (None, withStatus w code)
    | Decode => fun w => (decoded w, w)
    | DecodePartialFrames _ => fun w => (frames w, w)
    | Default objs => fun w => ((None, objs), w)
    | EncodeForGroupVersion obj _ _ => fun w => (None, withWritten w obj)
    | StorageGet key => fun w => (storeGet key (store w), w)
    | StorageList kind filters => fun w => (inr (storeList kind filters (store w)), w)
    | StorageCreate obj => fun w =>
        (fst (storeCreate obj (store w)), withStore w (snd (storeCreate obj (store w))))
    | StorageUpdate obj => fun w =>
        (fst (storeUpdate obj (store w)), withStore w (snd (storeUpdate obj (store w))))
    | StoragePatch key p => fun w =>
        (fst (storePatch key p (store w)), withStore w (snd (storePatch key p (store w))))
    | StorageDelete key => fun w =>
        (fst (storeDelete key (store w)), withStore w (snd (storeDelete key (store w))))
    | Validate obj => fun w => (validator obj, w)
    | CallObjectHook h _ obj => fun w => (objectHook h obj, w)
    | CallNamedHook h _ => fun w => (namedHook h, w)
    end.

End WithCallbacks.

(** The environment whose hooks and validators all succeed, and a world for
    a request that has not been answered yet. *)
Definition plain : Env World := env (fun _ o => (None, o)) (fun _ => None) (fun _ => None).

Definition request (ps hs : list (string * string)) (b : error + string)
    (d : error + KObject) (fs : error + list Object) (s : gmap ObjectKey Object) : World :=
  mkWorld ps hs b d fs s [] None [].

End Ref.

(** ** Reading traces *)

Definition isStorageEff {X : Type} (e : Eff X) : bool :=
  match e with
  | StorageGet _ | StorageList _ _ | StorageCreate _ | StorageUpdate _
  | StoragePatch _ _ | StorageDelete _ => true
  | _ => false
  end.

(** The storage calls that write: create, update, patch and delete. *)
Definition isStorageWriteEff {X : Type} (e : Eff X) : bool :=
  match e with
  | StorageCreate _ | StorageUpdate _ | StoragePatch _ _ | StorageDelete _ => true
  | _ => false
  end.

Definition isHookEff {X : Type} (e : Eff X) : bool :=
  match e with
  | CallObjectHook _ _ _ | CallNamedHook _ _ => true
  | _ => false
  end.

Definition isStorageEvent (ev : Event) : bool := match ev with Ev e _ => isStorageEff e end.
Definition isStorageWrite (ev : Event) : bool := match ev with Ev e _ => isStorageWriteEff e end.
Definition isHookEvent (ev : Event) : bool := match ev with Ev e _ => isHookEff e end.

Definition storageEvents (tr : list Event) : list Event := List.filter isStorageEvent tr.
Definition storageWrites (tr : list Event) : list Event := List.filter isStorageWrite tr.

(** The hooks called in a trace, in the order of the calls. *)
Inductive HookRef : Type :=
| refObjectHook (h : ObjectHookHandler)
| refNamedHook (h : NamedResourceHookHandler).

Definition hookOf (ev : Event) : option HookRef :=
  match ev with
  | Ev e _ =>
    match e with
    | CallObjectHook h _ _ => Some (refObjectHook h)
    | CallNamedHook h _ => Some (refNamedHook h)
    | _ => None
    end
  end.

Fixpoint hooksCalled (tr : list Event) : list HookRef :=
  match tr with
  | [] => []
  | ev :: tr' =>
    match hookOf ev with
    | Some h => h :: hooksCalled tr'
    | None => hooksCalled tr'
    end
  end.

(** The error a hook call answered with, if the event is a hook call. *)
Definition hookError (ev : Event) : option error :=
  match ev with
  | Ev e x =>
    match e in Eff X return X -> option error with
    | CallObjectHook _ _ _ => fun x => fst x
    | CallNamedHook _ _ => fun x => x
    | _ => fun _ => None
    end x
  end.

(** A run followed by a continuation. *)
Definition andThen {W A B : Type} (r : Run W A) (f : A -> W -> Run W B) : Run W B :=
  match outcome r with
  | Returned a =>
    mkRun (outcome (f a (world r))) (world (f a (world r))) (trace r ++ trace (f a (world r)))
  | Panicked msg => mkRun (Panicked msg) (world r) (trace r)
  end.

Module Sample.

Definition widgetGVK : GroupVersionKind := mkGVK "g" "v1" "Widget".

(** A namespaced, non-singleton kind; a cluster-scoped one; a cluster-scoped
    singleton. *)
Definition widgets : GroupVersionKindResource := mkGVKR "g" "v1" "Widget" "widgets" true false.
Definition projects : GroupVersionKindResource := mkGVKR "g" "v1" "Project" "projects" false false.
Definition settings : GroupVersionKindResource := mkGVKR "g" "v1" "Settings" "settings" false true.


Definition widget (ns name : string) : Object :=
  mkObject widgetGVK name ns None (Some true) false "".

(** A widget payload that reports itself a cluster-scoped singleton. *)
Definition boastfulWidget (ns name : string) : Object :=
  mkObject widgetGVK name ns (Some true) (Some false) false "".

Definition project (ns name : string) : Object :=
  mkObject (mkGVK "g" "v1" "Project") name ns None (Some false) false "".

Definition setting (ns name : string) : Object :=
  mkObject (mkGVK "g" "v1" "Settings") name ns (Some true) (Some false) false "".

Definition withContent (o : Object) (content : string) : Object :=
  mkObject (objGVK o) (objName o) (objNamespace o) (objSingleton o) (objNamespaced o)
           (objValidatable o) content.

(** The group under which the sample kinds are served, their handlers as
    [newResourceHandler] makes them, and request contexts for them. *)
Definition apiGroup : echoGroup := mkGroup "/apis/g/v1" [].

Definition widgetsHandler : resourceHandlerImpl := fst (newResourceHandler apiGroup widgets).
Definition projectsHandler : resourceHandlerImpl := fst (newResourceHandler apiGroup projects).
Definition settingsHandler : resourceHandlerImpl := fst (newResourceHandler apiGroup settings).

Definition widgetsIn (ns : string) : ResourceContext :=
  namespacedResourceContextImpl (resourceContextImpl widgets) ns.

(** A storage that holds the widget [a] of namespace [ns1]. *)
Definition widgetKey : ObjectKey := NewObjectKey widgetGVK "ns1-a".

Definition oneWidget : gmap ObjectKey Object :=
  {[ widgetKey := withContent (widget "ns1" "a") "old" ]}.

(** A request whose body the decoder reads as [obj], on the storage [s]. *)
Definition posting (obj : Object) (s : gmap ObjectKey Object) : Ref.World :=
  Ref.request [] [] (inl ErrNotFound) (inr (kRuntimeObject obj)) (inl ErrNotFound) s.

(** A request without a body, on the storage [s]. *)
Definition asking (s : gmap ObjectKey Object) : Ref.World :=
  Ref.request [] [] (inl ErrNotFound) (inl ErrNotFound) (inl ErrNotFound) s.

(** The widgets handler with three hooks registered for create, and an
    environment in which the hook named [second] refuses. *)
Definition hookedWidgetsHandler : resourceHandlerImpl :=
  RegisterPOSTHook (RegisterPOSTHook (RegisterPOSTHook widgetsHandler
    (ObjectHook "first")) (ObjectHook "second")) (ObjectHook "third").

(** The widgets handler with two hooks registered for update, and with two
    registered for delete. *)
Definition hookedWidgetsUpdater : resourceHandlerImpl :=
  RegisterPUTHook (RegisterPUTHook widgetsHandler (ObjectHook "first")) (ObjectHook "second").

Definition hookedWidgetsDeleter : resourceHandlerImpl :=
  RegisterDELETEHook (RegisterDELETEHook widgetsHandler (NamedHook "first"))
                     (NamedHook "second").

Definition secondRefuses : Env Ref.World :=
  Ref.env (fun h o => if String.eqb (objectHookName h) "second"
                      then (Some (Errorf "refused" []), o) else (None, o))
          (fun _ => None) (fun _ => None).

End Sample.

(** An object of a namespaced, non-singleton kind, as [Identify] sees it:
    not a singleton, and not opted out of namespacing. *)
Definition ofNamespacedKind (o : Object) : Prop :=
  IsSingleton o = false /\ objNamespaced o <> Some false.

(** A predicate on events that holds of no event of a trace. *)
Definition noneOf (P : Event -> bool) (tr : list Event) : Prop := List.filter P tr = [].

(** A run with one more event in front. *)
Definition after {W A : Type} (ev : Event) (r : Run W A) : Run W A :=
  mkRun (outcome r) (world r) (ev :: trace r).

(** The storage call an operation with hooks is there to make. *)
Definition isCreateCall (ev : Event) : bool :=
  match ev with Ev e _ => match e with StorageCreate _ => true | _ => false end end.

Definition isUpdateCall (ev : Event) : bool :=
  match ev with Ev e _ => match e with StorageUpdate _ => true | _ => false end end.

Definition isDeleteCall (ev : Event) : bool :=
  match ev with Ev e _ => match e with StorageDelete _ => true | _ => false end end.

(** The part of a trace from the first hook on, read against the hooks that
    are still to run: a hook call is the call of the next hook; when it
    answers without an error the rest follows; when it answers with an
    error the trace ends there and the error is the outcome; once no hook is
    left, the storage write of the operation follows, and after it neither a
    hook nor a second write.  No trace is empty: the hooks are called, and
    after the last of them the write is made. *)
Inductive HooksThenWrite (theWrite : Event -> bool) (out : Outcome (option error))
    : list HookRef -> list Event -> Prop :=
| hooks_next (h : HookRef) (hooks : list HookRef) (ev : Event) (tr : list Event) :
    hookOf ev = Some h -> hookError ev = None ->
    HooksThenWrite theWrite out hooks tr ->
    HooksThenWrite theWrite out (h :: hooks) (ev :: tr)
| hooks_abort (h : HookRef) (hooks : list HookRef) (ev : Event) (e : error) :
    hookOf ev = Some h -> hookError ev = Some e ->
    out = Returned (Some e) ->
    HooksThenWrite theWrite out (h :: hooks) [ev]
| hooks_write (ev : Event) (tr : list Event) :
    theWrite ev = true -> isStorageWrite ev = true ->
    noneOf isHookEvent tr -> noneOf isStorageWrite tr ->
    HooksThenWrite theWrite out [] (ev :: tr).

(** How [create] and [update] end when [decodeObject] gives them no object:
    with its error, as it is.  [None] when it gives them one. *)
Definition refusalOf {W : Type} (r : Run W (error + Object))
    : option (Outcome (option error)) :=
  match outcome r with
  | Returned (inl e) => Some (Returned (Some e))
  | Returned (inr _) => None
  | Panicked msg => Some (Panicked msg)
  end.

(** The discipline of an operation with hooks.  The trace starts with [pre],
    what the operation does before its hooks, which holds no hook call and
    no storage write.  When that part refused the request, nothing follows
    and the refusal is the outcome; otherwise the hooks and the write
    follow, as [HooksThenWrite] has them. *)
Definition Disciplined (theWrite : Event -> bool) (hooks : list HookRef)
    (refusal : option (Outcome (option error))) (pre : list Event)
    (out : Outcome (option error)) (tr : list Event) : Prop :=
  exists rest : list Event,
    tr = pre ++ rest /\
    noneOf isHookEvent pre /\ noneOf isStorageWrite pre /\
    match refusal with
    | Some o => rest = [] /\ out = o
    | None => HooksThenWrite theWrite out hooks rest
    end.

(** What the discipline says in terms of the whole trace: the hooks called
    are an initial stretch of the registered hooks; if the operation writes
    to the storage, every registered hook has been called; a hook call
    that answers with an error is the last event, its error is the outcome
    of the operation, and the operation writes nothing; a request that was
    not refused and none of whose hook calls answers with an error has
    every registered hook called and then the one write of the operation;
    and a refused request ends with the refusal, without a hook call or a
    write. *)
Definition hookLaws (theWrite : Event -> bool) (hooks : list HookRef)
    (refusal : option (Outcome (option error)))
    (out : Outcome (option error)) (tr : list Event) : Prop :=
  (exists n, hooksCalled tr = take n hooks) /\
  (storageWrites tr <> [] -> hooksCalled tr = hooks) /\
  (forall ev e, In ev tr -> hookError ev = Some e ->
     out = Returned (Some e) /\ List.last tr ev = ev /\ storageWrites tr = []) /\
  (refusal = None -> (forall ev, In ev tr -> hookError ev = None) ->
     hooksCalled tr = hooks /\
     exists ev, theWrite ev = true /\ storageWrites tr = [ev]) /\
  (forall o, refusal = Some o ->
     out = o /\ hooksCalled tr = [] /\ storageWrites tr = []).

Definition isReadBody (ev : Event) : bool :=
  match ev with Ev e _ => match e with ReadAllBody => true | _ => false end end.

(** A decode of the body as a full object. *)
Definition isFullDecode (ev : Event) : bool :=
  match ev with Ev e _ => match e with Decode => true | _ => false end end.

(** The calls of the storage's patch in a trace: key and payload. *)
Fixpoint patchCalls (tr : list Event) : list (ObjectKey * string) :=
  match tr with
  | [] => []
  | Ev e _ :: tr' =>
    match e with
    | StoragePatch key p => (key, p) :: patchCalls tr'
    | _ => patchCalls tr'
    end
  end.




(** ** Further readings of runs and traces *)

(** A run that ends in a value, not in a panic. *)
Definition returns {W A : Type} (r : Run W A) : Prop := exists a, outcome r = Returned a.

Definition isValidateEvent (ev : Event) : bool :=
  match ev with Ev e _ => match e with Validate _ => true | _ => false end end.

Definition isWarningEvent (ev : Event) : bool :=
  match ev with Ev e _ => match e with ResponseHeaderAdd _ _ => true | _ => false end end.

Definition isDefaultEvent (ev : Event) : bool :=
  match ev with Ev e _ => match e with Default _ => true | _ => false end end.

(** An event that writes the response: status line or body. *)
Definition isResponseWrite (ev : Event) : bool :=
  match ev with
  | Ev e _ =>
    match e with
    | WriteHeader _ | EncodeForGroupVersion _ _ _ | NoContent _ => true
    | _ => false
    end
  end.

(** The calls of the storage's list in a trace: kind and filters. *)
Fixpoint listCalls (tr : list Event) : list (KindKey * list namespaceFilter) :=
  match tr with
  | [] => []
  | Ev e _ :: tr' =>
    match e with
    | StorageList kind filters => (kind, filters) :: listCalls tr'
    | _ => listCalls tr'
    end
  end.

(** The object hooks of a loop that all answered without an error: each is
    given the object as the hook before it left it. *)
Inductive HookChain (rc : ResourceContext)
    : list ObjectHookHandler -> Object -> list Event -> Object -> Prop :=
| chain_nil (o : Object) : HookChain rc [] o [] o
| chain_cons (h : ObjectHookHandler) (hs : list ObjectHookHandler) (o o1 o' : Object)
    (tr : list Event) :
    HookChain rc hs o1 tr o' ->
    HookChain rc (h :: hs) o (Ev (CallObjectHook h rc o) (None, o1) :: tr) o'.

(** ** More sample objects *)

Module More.

(** An object of a Go type that does not implement [Namespaced]. *)
Definition gadget (ns name : string) : Object :=
  mkObject (mkGVK "g" "v1" "Gadget") name ns None None false "".

End More.

(** ** pkg/rest: the namespace filter *)

(** [namespaceFilter.Filter], Go's [(bool, error)].  The error wraps
    [filter.ErrInvalidFilterParams], a sentinel of libgitops that is given
    here as an argument. *)
Definition Filter (ErrInvalidFilterParams : error) (f : namespaceFilter) (obj : Object)
    : bool * option error :=
  if Nat.eqb (String.length (filterNamespace f)) 0 then
    (false,
     Some (wrapError
             (Sprintf "the namespaceFilter.Namespace field must not be empty: %w"
                      [Error ErrInvalidFilterParams])
             ErrInvalidFilterParams))
  else (String.eqb (filterNamespace f) (GetNamespace obj), None).

(** ** pkg/apis/digitized.luxaslabs.com/v1alpha1: validation and defaults *)

Module V1alpha1.

(** The value of a decimal digit, as [strconv.ParseUint] reads a byte. *)
Definition digit (c : ascii) : option N :=
  let n := N_of_ascii c in
  if (48 <=? n)%N && (n <=? 57)%N then Some (n - 48)%N else None.

(** The loop of [strconv.ParseUint(s, 10, bitSize)] of the Go standard
    library over the bytes of [s], from the value [n] read so far: a byte
    that is not a decimal digit is a syntax error, a value beyond [maxVal]
    (or beyond 64 bits) a range error; [None] stands for either. *)
Fixpoint parseDigits (maxVal : N) (s : string) (n : N) : option N :=
  match s with
  | EmptyString => Some n
  | String c s' =>
    match digit c with
    | None => None
    | Some d =>
      if (2 ^ 64 / 10 + 1 <=? n)%N then None
      else
        let n1 := ((n * 10 + d) mod 2 ^ 64)%N in
        if (n1 <? n * 10)%N || (maxVal <? n1)%N then None
        else parseDigits maxVal s' n1
    end
  end.

(** [strconv.ParseUint(s, 10, bitSize)]: the empty string is a syntax
    error. *)
Definition ParseUint (s : string) (bitSize : N) : option N :=
  match s with
  | EmptyString => None
  | _ => parseDigits (2 ^ bitSize - 1)%N s 0%N
  end.

(** [strings.Split(s, sep)] of the Go standard library for a separator
    of one byte: the pieces of [s] between the separators; one piece, [s]
    itself, when [s] holds no separator, also when [s] is empty. *)
Fixpoint Split (s : string) (sep : ascii) : list string :=
  match s with
  | EmptyString => [EmptyString]
  | String c s' =>
    if Ascii.eqb c sep then EmptyString :: Split s' sep
    else
      match Split s' sep with
      | [] => [String c EmptyString]
      | piece :: pieces => String c piece :: pieces
      end
  end.

Definition isValidCassetteName (idx : string) : bool :=
  if negb (Nat.eqb (String.length idx) 3) then false
  else match ParseUint idx 16 with Some _ => true | None => false end.

Definition isValidClipName (name : string) : bool :=
  match Split name "-" with
  | [cassette; clip] => isValidCassetteName cassette && isValidCassetteName clip
  | _ => false
  end.

Definition RecorderActionNone : string := "None".
Definition RecorderActionPreview : string := "Preview".
Definition RecorderActionRecord : string := "Record".

Definition isValidRecorderAction (ra : string) : bool :=
  String.eqb ra RecorderActionNone || String.eqb ra RecorderActionPreview
  || String.eqb ra RecorderActionRecord.

Definition CassetteTypeVideo8 : string := "Video8".
Definition CassetteTypeHi8 : string := "Hi8".
Definition CassetteTypeVHS : string := "VHS".
Definition CassetteTypeVHSC : string := "VHS-C".

Definition isValidCassetteType (ct : string) : bool :=
  String.eqb ct CassetteTypeVideo8 || String.eqb ct CassetteTypeHi8
  || String.eqb ct CassetteTypeVHS || String.eqb ct CassetteTypeVHSC.

(** What a [validation.Validator] of go-git-providers collects: the fields
    reported invalid, with their value, or required.  Its [Error()] is [nil]
    exactly when nothing was reported. *)
Inductive FieldError : Type :=
| Invalid (value : string) (fieldPaths : list string)
| Required (fieldPaths : list string).

Definition report (failed : bool) (e : FieldError) : list FieldError :=
  if failed then [e] else [].

Record RecorderSpec : Type := mkRecorderSpec {
  Action : string;
  rsCassette : string
}.

(** [Recorder.Validate]: the field errors it reports, in order. *)
Definition Recorder_Validate (spec : RecorderSpec) : list FieldError :=
  report (negb (isValidRecorderAction (Action spec)))
         (Invalid (Action spec) ["spec"; "action"]) ++
  report (negb (String.eqb (rsCassette spec) "") && negb (isValidCassetteName (rsCassette spec)))
         (Invalid (rsCassette spec) ["spec"; "cassette"]) ++
  report ((String.eqb (Action spec) RecorderActionPreview
           || String.eqb (Action spec) RecorderActionRecord)
          && String.eqb (rsCassette spec) "")
         (Required ["spec"; "cassette"]).

(** [SetDefaults_RecorderSpec]. *)
Definition SetDefaults_RecorderSpec (obj : RecorderSpec) : RecorderSpec :=
  if String.eqb (Action obj) "" then mkRecorderSpec RecorderActionNone (rsCassette obj)
  else obj.

(** The fields of a [Cassette] that its [Validate] reads; [MaxPlayTime] is
    a [uint16]. *)
Record Cassette : Type := mkCassette {
  cassetteName : string;
  Description : string;
  CassetteType : string;
  MaxPlayTime : N
}.

(** [Cassette.Validate]. *)
Definition Cassette_Validate (c : Cassette) : list FieldError :=
  report (negb (isValidCassetteName (cassetteName c)))
         (Invalid (cassetteName c) ["metadata"; "name"]) ++
  report (String.eqb (Description c) "") (Required ["spec"; "description"]) ++
  report (N.eqb (MaxPlayTime c) 0) (Required ["spec"; "maxPlayTime"]) ++
  report (negb (isValidCassetteType (CassetteType c)))
         (Invalid (CassetteType c) ["spec"; "type"]).

(** [Clip.Validate], of the name of the clip. *)
Definition Clip_Validate (name : string) : list FieldError :=
  report (negb (isValidClipName name)) (Invalid name ["metadata"; "name"]).

End V1alpha1.

(** * Properties *)

(** ** Strings *)

Module StrFacts.

Lemma to_list_app (s t : string) :
  list_ascii_of_string (s +:+ t) = list_ascii_of_string s ++ list_ascii_of_string t.
Proof. induction s as [|a s IH]; simpl; [reflexivity | now rewrite <- IH]. Qed.

Lemma to_list_inj (s t : string) :
  list_ascii_of_string s = list_ascii_of_string t -> s = t.
Proof.
  intros H. rewrite <- (string_of_list_ascii_of_string s).
  rewrite <- (string_of_list_ascii_of_string t). now rewrite H.
Qed.

Lemma app_inv_tail (s1 s2 t : string) : s1 +:+ t = s2 +:+ t -> s1 = s2.
Proof.
  intros H. apply to_list_inj. apply (f_equal list_ascii_of_string) in H.
  rewrite !to_list_app in H. now apply List.app_inv_tail in H.
Qed.

Lemma app_inv_head (s t1 t2 : string) : s +:+ t1 = s +:+ t2 -> t1 = t2.
Proof. induction s; simpl; intros H; [assumption | injection H; auto]. Qed.

Lemma length_app (s t : string) :
  String.length (s +:+ t) = String.length s + String.length t.
Proof. induction s; simpl; [reflexivity | now f_equal]. Qed.


(** Splitting at the first occurrence of a separator is unambiguous. *)
Lemma split_first_unique (c : ascii) (s1 s2 t1 t2 : string) :
  Str.contains c s1 = false -> Str.contains c s2 = false ->
  s1 +:+ String c t1 = s2 +:+ String c t2 -> s1 = s2 /\ t1 = t2.
Proof.
  revert s2. induction s1 as [|a s1 IH]; intros [|b s2]; simpl; intros H1 H2 E.
  - injection E; auto.
  - injection E as Ec _. subst b. rewrite Ascii.eqb_refl in H2. discriminate.
  - injection E as Ec _. subst a. rewrite Ascii.eqb_refl in H1. discriminate.
  - injection E as Ea E. subst b.
    destruct (Ascii.eqb a c); [discriminate|].
    destruct (IH s2 H1 H2 E) as [-> ->]. auto.
Qed.

End StrFacts.

(** ** Laws of [run] *)

Lemma run_bind {W A B : Type} (env : Env W) (p : Prog A) (f : A -> Prog B) (w : W) :
  run env (bind p f) w = andThen (run env p w) (fun a w' => run env (f a) w').
Proof.
  revert w. induction p as [a | msg | X e k IH]; intros w; simpl.
  - unfold andThen; simpl. now destruct (run env (f a) w).
  - reflexivity.
  - rewrite IH. unfold andThen; simpl.
    now destruct (outcome (run env (k (fst (env X e w))) (snd (env X e w)))).
Qed.

Lemma run_call {W A X : Type} (env : Env W) (e : Eff X) (k : X -> Prog A) (w : W) :
  run env (Call e k) w =
  mkRun (outcome (run env (k (fst (env X e w))) (snd (env X e w))))
        (world (run env (k (fst (env X e w))) (snd (env X e w))))
        (Ev e (fst (env X e w)) :: trace (run env (k (fst (env X e w))) (snd (env X e w)))).
Proof. reflexivity. Qed.

(** ** The identity resolver *)

Lemma isEmpty_false (s : string) : s <> "" -> isEmpty s = false.
Proof. destruct s; [congruence | reflexivity]. Qed.

Lemma NameNamespaceIdentifier_length (ns name : string) :
  String.length (NameNamespaceIdentifier ns name) = String.length ns + S (String.length name).
Proof. unfold NameNamespaceIdentifier. now rewrite StrFacts.length_app. Qed.

Lemma NameNamespaceIdentifier_inj_namespace (ns1 ns2 name : string) :
  NameNamespaceIdentifier ns1 name = NameNamespaceIdentifier ns2 name -> ns1 = ns2.
Proof. unfold NameNamespaceIdentifier. apply StrFacts.app_inv_tail. Qed.

Lemma NameNamespaceIdentifier_inj_name (ns name1 name2 : string) :
  NameNamespaceIdentifier ns name1 = NameNamespaceIdentifier ns name2 -> name1 = name2.
Proof.
  unfold NameNamespaceIdentifier. intros H. apply StrFacts.app_inv_head in H.
  now injection H.
Qed.

Lemma NameNamespaceIdentifier_not_name (ns name : string) :
  NameNamespaceIdentifier ns name <> NameIdentifier name.
Proof.
  intros H. apply (f_equal String.length) in H.
  rewrite NameNamespaceIdentifier_length in H. unfold NameIdentifier in H. lia.
Qed.

Lemma Identify_namespaced (o : Object) :
  ofNamespacedKind o -> GetNamespace o <> "" -> GetName o <> "" ->
  Identify o = Some (NameNamespaceIdentifier (GetNamespace o) (GetName o)).
Proof.
  intros (Hs & Hn) Hns Hname. unfold Identify. rewrite Hs.
  rewrite (isEmpty_false _ Hns), (isEmpty_false _ Hname). simpl.
  destruct (objNamespaced o) as [[|]|]; congruence.
Qed.

(** C1, as the claim states it, fails: the identifier joins namespace and
    name with a dash, so two distinct pairs of non-empty namespace and name
    can share an identifier, and the identifier of a pair can be the
    cluster-scoped identifier of another name. *)
Lemma namespaced_identifier_collides :
  ofNamespacedKind (Sample.widget "a-b" "c") /\
  ofNamespacedKind (Sample.widget "a" "b-c") /\
  ("a-b", "c") <> ("a", "b-c") /\
  Identify (Sample.widget "a-b" "c") = Identify (Sample.widget "a" "b-c") /\
  okIdentifier (ctxObjectKey (namespacedResourceContextImpl (resourceContextImpl Sample.widgets) "a-b") "c")
  = okIdentifier (ctxObjectKey (namespacedResourceContextImpl (resourceContextImpl Sample.widgets) "a") "b-c") /\
  Identify (Sample.widget "a" "b") = Some (NameIdentifier "a-b").
Proof.
  unfold ofNamespacedKind. simpl.
  repeat split; try reflexivity; try discriminate.
Qed.

(** C1, amended: for objects of a namespaced, non-singleton kind with
    non-empty namespace and name, the identifier is the namespace, a dash and
    the name, on the object path ([Identify]) and on the request path
    ([ObjectKey] of a named context under a namespaced one) alike.  For one
    name, distinct namespaces give distinct identifiers; for one namespace,
    distinct names give distinct identifiers; when neither namespace holds a
    dash, equal identifiers come from equal pairs; and the identifier is
    never the cluster-scoped identifier of the same name. *)
Theorem namespaced_identifier (o1 o2 : Object) (rc : ResourceContext) :
  ofNamespacedKind o1 -> ofNamespacedKind o2 ->
  GetNamespace o1 <> "" -> GetName o1 <> "" ->
  GetNamespace o2 <> "" -> GetName o2 <> "" ->
  Identify o1 = Some (NameNamespaceIdentifier (GetNamespace o1) (GetName o1)) /\
  ctxObjectKey (namespacedResourceContextImpl rc (GetNamespace o1)) (GetName o1)
  = NewObjectKey (ctxKindKey rc) (NameNamespaceIdentifier (GetNamespace o1) (GetName o1)) /\
  (GetName o1 = GetName o2 -> GetNamespace o1 <> GetNamespace o2 ->
   Identify o1 <> Identify o2) /\
  (GetNamespace o1 = GetNamespace o2 -> GetName o1 <> GetName o2 ->
   Identify o1 <> Identify o2) /\
  (Str.contains "-" (GetNamespace o1) = false ->
   Str.contains "-" (GetNamespace o2) = false ->
   Identify o1 = Identify o2 ->
   GetNamespace o1 = GetNamespace o2 /\ GetName o1 = GetName o2) /\
  Identify o1 <> Some (NameIdentifier (GetName o1)).
Proof.
  intros K1 K2 Hns1 Hn1 Hns2 Hn2.
  rewrite (Identify_namespaced o1 K1 Hns1 Hn1), (Identify_namespaced o2 K2 Hns2 Hn2).
  repeat split.
  - intros En Hns E. injection E as E. rewrite En in E.
    now apply NameNamespaceIdentifier_inj_namespace in E.
  - intros Ens Hn E. injection E as E. rewrite Ens in E.
    now apply NameNamespaceIdentifier_inj_name in E.
  - injection H1 as E. unfold NameNamespaceIdentifier in E.
    now destruct (StrFacts.split_first_unique _ _ _ _ _ H H0 E).
  - injection H1 as E. unfold NameNamespaceIdentifier in E.
    now destruct (StrFacts.split_first_unique _ _ _ _ _ H H0 E).
  - intros E. injection E as E. now apply NameNamespaceIdentifier_not_name in E.
Qed.

Lemma namespaced_identifier_witness :
  Identify (Sample.widget "ns1" "a") = Some "ns1-a" /\
  Identify (Sample.widget "ns1" "a") <> Identify (Sample.widget "ns2" "a").
Proof.
  assert (K : forall ns n, ofNamespacedKind (Sample.widget ns n)).
  { intros ns n. unfold ofNamespacedKind. simpl. repeat split; congruence. }
  destruct (namespaced_identifier (Sample.widget "ns1" "a") (Sample.widget "ns2" "a")
              (resourceContextImpl Sample.widgets) (K _ _) (K _ _))
    as (H1 & _ & H3 & _); simpl; try discriminate.
  split; [exact H1 | apply H3; [reflexivity | discriminate]].
Defined.

(** ** Quiet stretches of a trace *)

Lemma noneOf_nil (P : Event -> bool) : noneOf P [].
Proof. reflexivity. Qed.

Lemma noneOf_cons (P : Event -> bool) (ev : Event) (tr : list Event) :
  P ev = false -> noneOf P tr -> noneOf P (ev :: tr).
Proof. unfold noneOf. simpl. now intros ->. Qed.

Lemma noneOf_app (P : Event -> bool) (tr1 tr2 : list Event) :
  noneOf P tr1 -> noneOf P tr2 -> noneOf P (tr1 ++ tr2).
Proof. unfold noneOf. rewrite List.filter_app. now intros -> ->. Qed.

Create HintDb traces.
#[local] Hint Resolve noneOf_nil noneOf_cons noneOf_app : traces.

(** [JSONIndent] calls neither the storage nor a hook. *)
Lemma JSONIndent_quiet {W : Type} (env : Env W) (w : W) (rc : ResourceContext)
    (code : Z) (obj : Body) :
  noneOf isStorageEvent (trace (run env (JSONIndent rc code obj) w)) /\
  noneOf isHookEvent (trace (run env (JSONIndent rc code obj) w)).
Proof.
  unfold JSONIndent, ShouldDefault. simpl.
  destruct (_ || _); simpl.
  - destruct (fst (fst (env _ (Default _) _))); simpl; split; auto with traces.
  - split; auto with traces.
Qed.

(** [returnFromStorage] asks the storage once, for the key it was given. *)
Lemma returnFromStorage_storage {W : Type} (env : Env W) (w : W)
    (rc : ResourceContext) (key : ObjectKey) :
  storageEvents (trace (run env (returnFromStorage rc key) w))
  = [Ev (StorageGet key) (fst (env _ (StorageGet key) w))].
Proof.
  unfold returnFromStorage, storageEvents. simpl. f_equal.
  destruct (fst (env _ (StorageGet key) w)) as [err | obj].
  - now destruct (errors_Is err NotFound).
  - apply JSONIndent_quiet.
Qed.

(** ** Singletons *)



(** ** Reading an object *)



(** ** Hooks *)

Lemma hookOf_not_write (ev : Event) (h : HookRef) : hookOf ev = Some h -> isStorageWrite ev = false.
Proof. destruct ev as [X e x]. now destruct e. Qed.

Lemma hookOf_none (ev : Event) : isHookEvent ev = false -> hookOf ev = None.
Proof. destruct ev as [X e x]. now destruct e. Qed.

Lemma hookError_hook (ev : Event) (e : error) : hookError ev = Some e -> isHookEvent ev = true.
Proof. destruct ev as [X e0 x]. now destruct e0. Qed.

Lemma isStorageWrite_not_hook (ev : Event) : isStorageWrite ev = true -> isHookEvent ev = false.
Proof. destruct ev as [X e x]. now destruct e. Qed.

Lemma hooksCalled_quiet (tr : list Event) : noneOf isHookEvent tr -> hooksCalled tr = [].
Proof.
  unfold noneOf. induction tr as [|ev tr IH]; simpl; [reflexivity|].
  destruct (isHookEvent ev) eqn:E; [discriminate|].
  intros H. now rewrite (hookOf_none ev E), IH.
Qed.

Lemma hooksCalled_app (tr1 tr2 : list Event) :
  hooksCalled (tr1 ++ tr2) = hooksCalled tr1 ++ hooksCalled tr2.
Proof.
  induction tr1 as [|ev tr1 IH]; simpl; [reflexivity|].
  destruct (hookOf ev); simpl; now rewrite IH.
Qed.

(** Under the discipline the hooks called are an initial stretch of the
    registered hooks, in their order. *)
Lemma HooksThenWrite_prefix theWrite out hooks tr :
  HooksThenWrite theWrite out hooks tr -> exists n, hooksCalled tr = take n hooks.
Proof.
  induction 1 as [h hooks ev tr Hh He _ [n IH] | h hooks ev e Hh He _ | ev tr _ Hw Hq _].
  - exists (S n). simpl. now rewrite Hh, IH.
  - exists 1. simpl. rewrite Hh. now destruct hooks.
  - exists 0. simpl.
    rewrite (hookOf_none ev (isStorageWrite_not_hook ev Hw)).
    now apply hooksCalled_quiet.
Qed.

(** Under the discipline a write comes after every registered hook. *)
Lemma HooksThenWrite_write theWrite out hooks tr :
  HooksThenWrite theWrite out hooks tr -> storageWrites tr <> [] -> hooksCalled tr = hooks.
Proof.
  induction 1 as [h hooks ev tr Hh He _ IH | h hooks ev e Hh He _ | ev tr _ Hw Hq _];
    intros Hne.
  - unfold storageWrites in *. simpl in *.
    rewrite (hookOf_not_write ev h Hh) in Hne. rewrite Hh. f_equal. now apply IH.
  - unfold storageWrites in Hne. simpl in Hne.
    now rewrite (hookOf_not_write ev h Hh) in Hne.
  - simpl.
    rewrite (hookOf_none ev (isStorageWrite_not_hook ev Hw)).
    now apply hooksCalled_quiet.
Qed.

(** Under the discipline a hook that answers with an error ends the trace,
    its error is the outcome, and nothing is written. *)
Lemma HooksThenWrite_error theWrite out hooks tr ev e :
  HooksThenWrite theWrite out hooks tr -> In ev tr -> hookError ev = Some e ->
  out = Returned (Some e) /\ List.last tr ev = ev /\ storageWrites tr = [].
Proof.
  induction 1 as [h hooks ev' tr Hh He _ IH | h hooks ev' e' Hh He Ho | ev' tr _ Hw Hq Hs];
    intros Hin Herr.
  - destruct Hin as [-> | Hin]; [congruence|].
    destruct (IH Hin Herr) as (Ho & Hl & Hs). repeat split; [exact Ho | |].
    + destruct tr; [contradiction | exact Hl].
    + unfold storageWrites in *. simpl. now rewrite (hookOf_not_write ev' h Hh).
  - destruct Hin as [-> | []]. repeat split.
    + congruence.
    + unfold storageWrites. simpl. now rewrite (hookOf_not_write ev h Hh).
  - destruct Hin as [-> | Hin].
    + apply hookError_hook in Herr. rewrite (isStorageWrite_not_hook ev Hw) in Herr.
      discriminate.
    + apply hookError_hook in Herr. unfold noneOf in Hq.
      assert (In ev (List.filter isHookEvent tr)) as Hf by (apply List.filter_In; auto).
      rewrite Hq in Hf. contradiction.
Qed.

(** Under the discipline, when no hook call answers with an error, every
    registered hook is called and the one write of the operation is made. *)
Lemma HooksThenWrite_complete theWrite out hooks tr :
  HooksThenWrite theWrite out hooks tr ->
  (forall ev, In ev tr -> hookError ev = None) ->
  hooksCalled tr = hooks /\ exists ev, theWrite ev = true /\ storageWrites tr = [ev].
Proof.
  induction 1 as [h hooks ev tr Hh He _ IH | h hooks ev e Hh He _ | ev tr Ht Hw Hq Hs];
    intros Hok.
  - destruct IH as [Hc (ev' & Ht & Hs)]; [intros ev' Hin; apply Hok; now right|].
    split; [simpl; now rewrite Hh, Hc|].
    exists ev'. split; [exact Ht|]. unfold storageWrites in *. simpl.
    now rewrite (hookOf_not_write ev h Hh).
  - rewrite (Hok ev) in He; [discriminate | now left].
  - split.
    + simpl. rewrite (hookOf_none ev (isStorageWrite_not_hook ev Hw)).
      now apply hooksCalled_quiet.
    + exists ev. split; [exact Ht|]. unfold storageWrites. simpl. rewrite Hw.
      f_equal. exact Hs.
Qed.

(** [validateBody] and [decodeObject] call neither a hook nor the storage. *)
Lemma validateBody_quiet {W : Type} (env : Env W) (w : W) (rh : resourceHandlerImpl)
    (rc : ResourceContext) (obj : Object) :
  noneOf isHookEvent (trace (run env (validateBody rh rc obj) w)) /\
  noneOf isStorageEvent (trace (run env (validateBody rh rc obj) w)).
Proof.
  unfold validateBody, validateObjectMeta, ValidateIfPossible, Warnf.
  destruct (Singleton (gvkr rh)); simpl.
  - destruct (asNamespacedResourceContext rc) as [ns|]; [destruct (negb _)|];
      destruct (objValidatable obj); simpl; split; auto with traces.
  - destruct (isEmpty (GetName obj)); simpl; [split; auto with traces|].
    destruct (IsNamespaced obj); [| destruct (negb (isEmpty (GetNamespace obj)))];
      [destruct (isEmpty (GetNamespace obj)); simpl; [split; auto with traces|] | |]; simpl;
      (destruct (asNamespacedResourceContext rc) as [ns|]; [destruct (negb _)|];
       destruct (objValidatable obj); simpl; split; auto with traces).
Qed.

Lemma decodeObject_quiet {W : Type} (env : Env W) (w : W) (rh : resourceHandlerImpl)
    (rc : ResourceContext) :
  noneOf isHookEvent (trace (run env (decodeObject rh rc) w)) /\
  noneOf isStorageEvent (trace (run env (decodeObject rh rc) w)).
Proof.
  unfold decodeObject. cbn [bind trigger]. rewrite run_call.
  destruct (fst (env _ Decode w)) as [err | [obj |]]; cbn [run trace];
    [split; auto with traces | | split; auto with traces].
  rewrite run_bind. unfold andThen.
  destruct (validateBody_quiet env (snd (env _ Decode w)) rh rc obj) as [Hh Hs].
  destruct (outcome (run env (validateBody rh rc obj) (snd (env _ Decode w)))) as [[[e|] o]|];
    simpl; split; auto with traces.
Qed.

Lemma storage_quiet_no_write (tr : list Event) :
  noneOf isStorageEvent tr -> noneOf isStorageWrite tr.
Proof.
  unfold noneOf. induction tr as [|[X e x] tr IH]; simpl; [reflexivity|].
  destruct (isStorageEff e) eqn:E; [discriminate|]. intros H.
  assert (isStorageWriteEff e = false) as -> by (destruct e; simpl in *; congruence).
  now apply IH.
Qed.

#[local] Hint Resolve storage_quiet_no_write : traces.

(** The loop over the object hooks, followed by a continuation that returns
    the error of a failed hook as it is and otherwise goes on to the write. *)
Lemma runObjectHooks_then {W : Type} (env : Env W) (rc : ResourceContext)
    (theWrite : Event -> bool) (K : option error * Object -> Prog (option error)) :
  (forall e o, K (Some e, o) = Ret (Some e)) ->
  (forall o w, HooksThenWrite theWrite (outcome (run env (K (None, o)) w)) []
                              (trace (run env (K (None, o)) w))) ->
  forall hooks obj w,
    HooksThenWrite theWrite (outcome (run env (bind (runObjectHooks hooks rc obj) K) w))
                   (List.map refObjectHook hooks)
                   (trace (run env (bind (runObjectHooks hooks rc obj) K) w)).
Proof.
  intros Kerr Kok. induction hooks as [|h hooks IH]; intros obj w.
  - simpl. apply Kok.
  - simpl.
    destruct (env _ (CallObjectHook h rc obj) w) as [[[e|] o] w'] eqn:E; simpl.
    + rewrite Kerr. simpl. eapply hooks_abort; reflexivity.
    + apply hooks_next; [reflexivity | reflexivity | apply IH].
Qed.

Lemma runNamedHooks_then {W : Type} (env : Env W) (rc : ResourceContext)
    (theWrite : Event -> bool) (K : option error -> Prog (option error)) :
  (forall e, K (Some e) = Ret (Some e)) ->
  (forall w, HooksThenWrite theWrite (outcome (run env (K None) w)) []
                            (trace (run env (K None) w))) ->
  forall hooks w,
    HooksThenWrite theWrite (outcome (run env (bind (runNamedHooks hooks rc) K) w))
                   (List.map refNamedHook hooks)
                   (trace (run env (bind (runNamedHooks hooks rc) K) w)).
Proof.
  intros Kerr Kok. induction hooks as [|h hooks IH]; intros w.
  - simpl. apply Kok.
  - simpl.
    destruct (env _ (CallNamedHook h rc) w) as [[e|] w'] eqn:E; simpl.
    + rewrite Kerr. simpl. eapply hooks_abort; reflexivity.
    + apply hooks_next; [reflexivity | reflexivity | apply IH].
Qed.

Lemma noneOf_In (P : Event -> bool) (tr : list Event) (ev : Event) :
  noneOf P tr -> In ev tr -> P ev = false.
Proof.
  unfold noneOf. intros Hn Hin. destruct (P ev) eqn:E; [|reflexivity].
  assert (In ev (List.filter P tr)) as Hf by (apply List.filter_In; auto).
  rewrite Hn in Hf. contradiction.
Qed.

Lemma last_app_nonempty (tr1 tr2 : list Event) (d : Event) :
  tr2 <> [] -> List.last (tr1 ++ tr2) d = List.last tr2 d.
Proof.
  intros Hne. induction tr1 as [|ev tr1 IH]; simpl; [reflexivity|].
  destruct (tr1 ++ tr2) eqn:E; [|exact IH].
  apply List.app_eq_nil in E. destruct E. contradiction.
Qed.

Lemma Disciplined_hookLaws theWrite hooks refusal pre out tr :
  Disciplined theWrite hooks refusal pre out tr -> hookLaws theWrite hooks refusal out tr.
Proof.
  intros (rest & -> & Hh & Hw & Hrest).
  assert (Hc : hooksCalled (pre ++ rest) = hooksCalled rest)
    by (now rewrite hooksCalled_app, (hooksCalled_quiet pre Hh)).
  assert (Hs : storageWrites (pre ++ rest) = storageWrites rest)
    by (unfold storageWrites; rewrite List.filter_app; now rewrite Hw).
  assert (Hpre : forall ev e, In ev pre -> hookError ev = Some e -> False).
  { intros ev e Hin Herr. apply hookError_hook in Herr.
    now rewrite (noneOf_In _ _ _ Hh Hin) in Herr. }
  unfold hookLaws. rewrite Hc, Hs.
  destruct refusal as [o|].
  - destruct Hrest as [-> ->]. cbn [hooksCalled storageWrites List.filter].
    split; [now exists 0|].
    split; [intros Hne; now contradiction Hne|].
    split.
    { intros ev e Hin Herr. rewrite List.app_nil_r in Hin. destruct (Hpre ev e Hin Herr). }
    split; [discriminate|].
    intros o' Ho. inversion Ho; subst. repeat split; reflexivity.
  - split; [now apply (HooksThenWrite_prefix theWrite out)|].
    split; [now apply (HooksThenWrite_write theWrite out)|].
    split.
    { intros ev e Hin Herr.
      assert (Hin' : In ev rest).
      { apply List.in_app_or in Hin. destruct Hin as [Hin|Hin]; [|exact Hin].
        destruct (Hpre ev e Hin Herr). }
      destruct (HooksThenWrite_error theWrite out hooks rest ev e Hrest Hin' Herr)
        as (Ho & Hl & Hn).
      repeat split; [exact Ho | | exact Hn].
      rewrite last_app_nonempty; [exact Hl|]. now destruct rest. }
    split; [|discriminate].
    intros _ Hok. apply (HooksThenWrite_complete theWrite out); [exact Hrest|].
    intros ev Hin. apply Hok. apply List.in_or_app. now right.
Qed.

Lemma create_disciplined {W : Type} (env : Env W) (w : W) (rh : resourceHandlerImpl)
    (rc : ResourceContext) :
  Disciplined isCreateCall (List.map refObjectHook (postHooks rh))
              (refusalOf (run env (decodeObject rh rc) w))
              (trace (run env (decodeObject rh rc) w))
              (outcome (run env (create rh (ctx rc)) w))
              (trace (run env (create rh (ctx rc)) w)).
Proof.
  unfold create, refusalOf. rewrite run_bind. unfold andThen.
  destruct (decodeObject_quiet env w rh rc) as [Hh Hs].
  destruct (outcome (run env (decodeObject rh rc) w)) as [[err | obj] | msg]; cbn [outcome trace].
  - exists []. simpl. auto with traces.
  - eexists. split; [reflexivity|]. split; [exact Hh|]. split; [auto with traces|].
    apply runObjectHooks_then.
    + reflexivity.
    + intros o w'. cbn [bind trigger]. rewrite run_call. cbn [outcome trace].
      apply hooks_write; [reflexivity | reflexivity | |];
        destruct (fst (env _ (StorageCreate o) w')) as [e|]; simpl;
        try (destruct (errors_Is e AlreadyExists)); simpl; auto with traces;
        destruct (JSONIndent_quiet env (snd (env _ (StorageCreate o) w')) rc StatusCreated
                    (bodyObject o)); auto with traces.
  - exists []. rewrite List.app_nil_r. auto with traces.
Qed.

Lemma update_disciplined {W : Type} (env : Env W) (w : W) (rh : resourceHandlerImpl)
    (rc : ResourceContext) :
  Disciplined isUpdateCall (List.map refObjectHook (putHooks rh))
              (refusalOf (run env (decodeObject rh rc) w))
              (trace (run env (decodeObject rh rc) w))
              (outcome (run env (update rh (ctx rc)) w))
              (trace (run env (update rh (ctx rc)) w)).
Proof.
  unfold update, refusalOf. rewrite run_bind. unfold andThen.
  destruct (decodeObject_quiet env w rh rc) as [Hh Hs].
  destruct (outcome (run env (decodeObject rh rc) w)) as [[err | obj] | msg]; cbn [outcome trace].
  - exists []. simpl. auto with traces.
  - eexists. split; [reflexivity|]. split; [exact Hh|]. split; [auto with traces|].
    apply runObjectHooks_then.
    + reflexivity.
    + intros o w'. cbn [bind trigger]. rewrite run_call. cbn [outcome trace].
      apply hooks_write; [reflexivity | reflexivity | |];
        destruct (fst (env _ (StorageUpdate o) w')) as [e|]; simpl; auto with traces;
        destruct (JSONIndent_quiet env (snd (env _ (StorageUpdate o) w')) rc StatusOK
                    (bodyObject o)); auto with traces.
  - exists []. rewrite List.app_nil_r. auto with traces.
Qed.

Lemma delete_disciplined {W : Type} (env : Env W) (w : W) (rh : resourceHandlerImpl)
    (rc : ResourceContext) (name : string) :
  Disciplined isDeleteCall (List.map refNamedHook (deleteHooks rh)) None []
              (outcome (run env (delete_ rh (ctx (namedResourceContextImpl rc name))) w))
              (trace (run env (delete_ rh (ctx (namedResourceContextImpl rc name))) w)).
Proof.
  unfold delete_. eexists. split; [reflexivity|].
  split; [auto with traces|]. split; [auto with traces|].
  apply runNamedHooks_then.
  - reflexivity.
  - intros w'. cbn [bind trigger]. rewrite run_call. cbn [outcome trace].
    apply hooks_write; [reflexivity | reflexivity | |];
      destruct (fst (env _ (StorageDelete (ctxObjectKey rc name)) w')) as [e|]; simpl;
      auto with traces.
Qed.

(** C4: registering a hook appends it to the hooks of its event; and in
    every run of [create], [update] and [delete], against any environment,
    the trace keeps the discipline of the hooks registered for that event.
    [create] and [update] first decode the body, without a hook call or a
    storage write; when that refuses the request they end with its error and
    do nothing more; [delete] starts with its hooks.  Then the registered
    hooks are called in the order of registration, each after the one before
    it has answered without an error, and after the last of them the storage
    call of the operation is made; a hook that answers with an error ends
    the operation, the error is returned as it is, no later hook is called
    and nothing is written to or deleted from the storage. *)
Theorem hooks_run_in_order_and_abort {W : Type} (env : Env W) (w : W)
    (rh : resourceHandlerImpl) (rc : ResourceContext) (name : string)
    (oh : ObjectHookHandler) (nh : NamedResourceHookHandler) :
  postHooks (RegisterPOSTHook rh oh) = postHooks rh ++ [oh] /\
  putHooks (RegisterPUTHook rh oh) = putHooks rh ++ [oh] /\
  deleteHooks (RegisterDELETEHook rh nh) = deleteHooks rh ++ [nh] /\
  (Disciplined isCreateCall (List.map refObjectHook (postHooks rh))
               (refusalOf (run env (decodeObject rh rc) w))
               (trace (run env (decodeObject rh rc) w))
               (outcome (run env (create rh (ctx rc)) w))
               (trace (run env (create rh (ctx rc)) w)) /\
   hookLaws isCreateCall (List.map refObjectHook (postHooks rh))
            (refusalOf (run env (decodeObject rh rc) w))
            (outcome (run env (create rh (ctx rc)) w))
            (trace (run env (create rh (ctx rc)) w))) /\
  (Disciplined isUpdateCall (List.map refObjectHook (putHooks rh))
               (refusalOf (run env (decodeObject rh rc) w))
               (trace (run env (decodeObject rh rc) w))
               (outcome (run env (update rh (ctx rc)) w))
               (trace (run env (update rh (ctx rc)) w)) /\
   hookLaws isUpdateCall (List.map refObjectHook (putHooks rh))
            (refusalOf (run env (decodeObject rh rc) w))
            (outcome (run env (update rh (ctx rc)) w))
            (trace (run env (update rh (ctx rc)) w))) /\
  (Disciplined isDeleteCall (List.map refNamedHook (deleteHooks rh)) None []
               (outcome (run env (delete_ rh (ctx (namedResourceContextImpl rc name))) w))
               (trace (run env (delete_ rh (ctx (namedResourceContextImpl rc name))) w)) /\
   hookLaws isDeleteCall (List.map refNamedHook (deleteHooks rh)) None
            (outcome (run env (delete_ rh (ctx (namedResourceContextImpl rc name))) w))
            (trace (run env (delete_ rh (ctx (namedResourceContextImpl rc name))) w))).
Proof.
  split; [reflexivity|]. split; [reflexivity|]. split; [reflexivity|].
  pose proof (create_disciplined env w rh rc) as Hc.
  pose proof (update_disciplined env w rh rc) as Hu.
  pose proof (delete_disciplined env w rh rc name) as Hd.
  split; [split; [exact Hc | exact (Disciplined_hookLaws _ _ _ _ _ _ Hc)]|].
  split; [split; [exact Hu | exact (Disciplined_hookLaws _ _ _ _ _ _ Hu)]|].
  split; [exact Hd | exact (Disciplined_hookLaws _ _ _ _ _ _ Hd)].
Qed.

Lemma hooks_run_in_order_and_abort_witness :
  (outcome (run Sample.secondRefuses
              (create Sample.hookedWidgetsHandler (ctx (Sample.widgetsIn "ns1")))
              (Sample.posting (Sample.widget "ns1" "a") ∅))
   = Returned (Some (Errorf "refused" [])) /\
   hooksCalled (trace (run Sample.secondRefuses
              (create Sample.hookedWidgetsHandler (ctx (Sample.widgetsIn "ns1")))
              (Sample.posting (Sample.widget "ns1" "a") ∅)))
   = [refObjectHook (ObjectHook "first"); refObjectHook (ObjectHook "second")] /\
   storageWrites (trace (run Sample.secondRefuses
              (create Sample.hookedWidgetsHandler (ctx (Sample.widgetsIn "ns1")))
              (Sample.posting (Sample.widget "ns1" "a") ∅)))
   = [] /\
   Ref.store (world (run Sample.secondRefuses
              (create Sample.hookedWidgetsHandler (ctx (Sample.widgetsIn "ns1")))
              (Sample.posting (Sample.widget "ns1" "a") ∅)))
   = ∅) /\
  (hooksCalled (trace (run Ref.plain
              (update Sample.hookedWidgetsUpdater (ctx (Sample.widgetsIn "ns1")))
              (Sample.posting (Sample.widget "ns1" "a") Sample.oneWidget)))
   = [refObjectHook (ObjectHook "first"); refObjectHook (ObjectHook "second")] /\
   exists ev, isUpdateCall ev = true /\
     storageWrites (trace (run Ref.plain
              (update Sample.hookedWidgetsUpdater (ctx (Sample.widgetsIn "ns1")))
              (Sample.posting (Sample.widget "ns1" "a") Sample.oneWidget)))
     = [ev]) /\
  (hooksCalled (trace (run Ref.plain
              (delete_ Sample.hookedWidgetsDeleter
                 (ctx (namedResourceContextImpl (Sample.widgetsIn "ns1") "a")))
              (Sample.asking Sample.oneWidget)))
   = [refNamedHook (NamedHook "first"); refNamedHook (NamedHook "second")] /\
   exists ev, isDeleteCall ev = true /\
     storageWrites (trace (run Ref.plain
              (delete_ Sample.hookedWidgetsDeleter
                 (ctx (namedResourceContextImpl (Sample.widgetsIn "ns1") "a")))
              (Sample.asking Sample.oneWidget)))
     = [ev]).
Proof.
  split; [|split].
  - destruct (hooks_run_in_order_and_abort Sample.secondRefuses
                (Sample.posting (Sample.widget "ns1" "a") ∅)
                Sample.hookedWidgetsHandler (Sample.widgetsIn "ns1") "a"
                (ObjectHook "fourth") (NamedHook "other"))
      as (_ & _ & _ & (_ & _ & _ & Habort & _) & _).
    destruct (Habort
      (Ev (CallObjectHook (ObjectHook "second") (Sample.widgetsIn "ns1")
             (Sample.widget "ns1" "a"))
          (Some (Errorf "refused" []), Sample.widget "ns1" "a"))
      (Errorf "refused" [])) as (Hout & _ & Hnone).
    + simpl. right. right. left. reflexivity.
    + reflexivity.
    + split; [exact Hout|]. split; [reflexivity|]. split; [exact Hnone | reflexivity].
  - destruct (hooks_run_in_order_and_abort Ref.plain
                (Sample.posting (Sample.widget "ns1" "a") Sample.oneWidget)
                Sample.hookedWidgetsUpdater (Sample.widgetsIn "ns1") "a"
                (ObjectHook "fourth") (NamedHook "other"))
      as (_ & _ & _ & _ & (_ & _ & _ & _ & Hall & _) & _).
    apply Hall; [reflexivity|].
    intros ev Hin. simpl in Hin.
    repeat (destruct Hin as [<- | Hin]; [reflexivity|]). contradiction.
  - destruct (hooks_run_in_order_and_abort Ref.plain
                (Sample.asking Sample.oneWidget)
                Sample.hookedWidgetsDeleter (Sample.widgetsIn "ns1") "a"
                (ObjectHook "fourth") (NamedHook "other"))
      as (_ & _ & _ & _ & _ & _ & _ & _ & _ & Hall & _).
    apply Hall; [reflexivity|].
    intros ev Hin. simpl in Hin.
    repeat (destruct Hin as [<- | Hin]; [reflexivity|]). contradiction.
Defined.

(** ** Creating an object that exists *)

(** The reference storage refuses to create under a key that is taken, and
    stays as it was. *)
Lemma storeCreate_exists (obj old : Object) (key : ObjectKey) (s : gmap ObjectKey Object) :
  ObjectKeyFor obj = inr key -> s !! key = Some old ->
  Ref.storeCreate obj s = (Some ErrAlreadyExists, s).
Proof. intros Hk Hs. unfold Ref.storeCreate. now rewrite Hk, Hs. Qed.

(** C5: when the body has been decoded and validated, the hooks have passed
    and the storage answers the create with an error that is
    [ErrAlreadyExists], [create] returns the status error 400 made from
    [ErrAlreadyExists]; the failed create is the last thing the handler does,
    so the world is as the storage left it.  The reference storage leaves
    itself unchanged when the key is taken: the record stored under the key
    is the one that was there. *)
Theorem create_already_exists {W : Type} (env : Env W) (w w1 w2 : W)
    (rh : resourceHandlerImpl) (rc : ResourceContext) (obj obj' : Object)
    (tr1 tr2 : list Event) (err : error)
    (old : Object) (key : ObjectKey) (s : gmap ObjectKey Object) :
  run env (decodeObject rh rc) w = mkRun (Returned (inr obj)) w1 tr1 ->
  run env (runObjectHooks (postHooks rh) rc obj) w1 = mkRun (Returned (None, obj')) w2 tr2 ->
  fst (env _ (StorageCreate obj') w2) = Some err ->
  errors_Is err AlreadyExists = true ->
  ObjectKeyFor obj' = inr key -> s !! key = Some old ->
  run env (create rh (ctx rc)) w
  = mkRun (Returned (Some (statusErrorImpl 400 (Error ErrAlreadyExists))))
          (snd (env _ (StorageCreate obj') w2))
          (tr1 ++ tr2 ++ [Ev (StorageCreate obj') (Some err)]) /\
  isBadRequest (statusErrorImpl 400 (Error ErrAlreadyExists)) = true /\
  fst (Ref.storeCreate obj' s) = Some ErrAlreadyExists /\
  snd (Ref.storeCreate obj' s) = s /\
  snd (Ref.storeCreate obj' s) !! key = Some old.
Proof.
  intros Hdec Hhooks Hcreate His Hkey Hs.
  split; [|rewrite (storeCreate_exists obj' old key s Hkey Hs); simpl; auto].
  unfold create. rewrite run_bind, Hdec. unfold andThen. cbn [outcome world trace].
  rewrite run_bind, Hhooks. unfold andThen. cbn [outcome world trace].
  cbn [bind trigger]. rewrite run_call. rewrite Hcreate, His. reflexivity.
Qed.

Lemma create_already_exists_witness :
  run Ref.plain (create Sample.widgetsHandler (ctx (Sample.widgetsIn "ns1")))
      (Sample.posting (Sample.withContent (Sample.widget "ns1" "a") "new") Sample.oneWidget)
  = mkRun (Returned (Some (statusErrorImpl 400 (Lit "AlreadyExists"))))
          (Sample.posting (Sample.withContent (Sample.widget "ns1" "a") "new") Sample.oneWidget)
          [Ev Decode (inr (kRuntimeObject (Sample.withContent (Sample.widget "ns1" "a") "new")));
           Ev (StorageCreate (Sample.withContent (Sample.widget "ns1" "a") "new"))
              (Some ErrAlreadyExists)] /\
  snd (Ref.storeCreate (Sample.withContent (Sample.widget "ns1" "a") "new") Sample.oneWidget)
    !! Sample.widgetKey
  = Some (Sample.withContent (Sample.widget "ns1" "a") "old").
Proof.
  destruct (create_already_exists Ref.plain
    (Sample.posting (Sample.withContent (Sample.widget "ns1" "a") "new") Sample.oneWidget)
    (Sample.posting (Sample.withContent (Sample.widget "ns1" "a") "new") Sample.oneWidget)
    (Sample.posting (Sample.withContent (Sample.widget "ns1" "a") "new") Sample.oneWidget)
    Sample.widgetsHandler (Sample.widgetsIn "ns1")
    (Sample.withContent (Sample.widget "ns1" "a") "new")
    (Sample.withContent (Sample.widget "ns1" "a") "new")
    [Ev Decode (inr (kRuntimeObject (Sample.withContent (Sample.widget "ns1" "a") "new")))]
    [] ErrAlreadyExists
    (Sample.withContent (Sample.widget "ns1" "a") "old") Sample.widgetKey Sample.oneWidget
    eq_refl eq_refl eq_refl eq_refl eq_refl eq_refl) as (Hrun & _ & _ & _ & Hold).
  split; [exact Hrun | exact Hold].
Defined.

(** ** Patching *)

Lemma returnFromStorage_after_patch {W : Type} (env : Env W) (w : W)
    (rc : ResourceContext) (key : ObjectKey) :
  noneOf isReadBody (trace (run env (returnFromStorage rc key) w)) /\
  noneOf isFullDecode (trace (run env (returnFromStorage rc key) w)) /\
  patchCalls (trace (run env (returnFromStorage rc key) w)) = [].
Proof.
  unfold returnFromStorage, JSONIndent, ShouldDefault, noneOf. simpl.
  destruct (fst (env _ (StorageGet key) w)) as [err | obj]; simpl.
  - now destruct (errors_Is err NotFound).
  - destruct (_ || _); simpl; [|auto].
    now destruct (fst (fst (env _ (Default _) _))).
Qed.

(** Closes a case in which exactly one partial object was decoded although
    the number of decoded objects is supposed to differ from one. *)
Ltac one_object :=
  match goal with
  | E : inr _ = inr _, Hd : _ = inr [_], Hn : match _ with inl _ => True | inr _ => _ end |- _ =>
    injection E as <-; rewrite Hd in Hn; now contradiction Hn
  end.

(** C6: in every run of [patch] the body is read once and never decoded as
    a full object.  When the body has been read and its decoding as partial
    objects fails, or yields a number of objects other than one, [patch]
    returns a status error 400 and calls the storage not at all. *)
Theorem patch_rejects_unless_one_partial_object {W : Type} (env : Env W) (w : W)
    (rh : resourceHandlerImpl) (rc : ResourceContext) (body : string) :
  List.length (List.filter isReadBody (trace (run env (patch rh (ctx rc)) w))) = 1 /\
  noneOf isFullDecode (trace (run env (patch rh (ctx rc)) w)) /\
  (fst (env _ ReadAllBody w) = inr body ->
   match fst (env _ (DecodePartialFrames body) (snd (env _ ReadAllBody w))) with
   | inl _ => True
   | inr objs => List.length objs <> 1
   end ->
   (exists msg, outcome (run env (patch rh (ctx rc)) w)
                = Returned (Some (statusErrorImpl 400 msg))) /\
   noneOf isStorageEvent (trace (run env (patch rh (ctx rc)) w)) /\
   patchCalls (trace (run env (patch rh (ctx rc)) w)) = []).
Proof.
  unfold patch, DecodePartialObjects. cbn [bind trigger]. rewrite run_call.
  cbn [outcome trace].
  destruct (fst (env _ ReadAllBody w)) as [err | p] eqn:Hb.
  { simpl. repeat split; try reflexivity. discriminate. }
  rewrite run_call. cbn [outcome trace].
  destruct (fst (env _ (DecodePartialFrames p) (snd (env _ ReadAllBody w))))
    as [err | objs] eqn:Hd.
  { simpl. repeat split; try reflexivity.
    - eexists; reflexivity. }
  destruct objs as [|po [|po' objs]]; cbn [negb andb List.length Nat.eqb bind run outcome trace].
  - repeat split; try reflexivity. eexists; reflexivity.
  - destruct (ObjectKeyFor _) as [err | key].
    + simpl. repeat split; try reflexivity.
      all: one_object.
    + cbn [bind trigger]. rewrite run_call. cbn [outcome trace].
      destruct (returnFromStorage_after_patch env
                  (snd (env _ (StoragePatch key p) (snd (env _ (DecodePartialFrames p)
                     (snd (env _ ReadAllBody w)))))) rc key) as (Hr & Hf & Hp).
      destruct (fst (env _ (StoragePatch key p) _)) as [err|].
      * simpl. repeat split; try reflexivity.
        all: one_object.
      * revert Hr Hf Hp. generalize (run env (returnFromStorage rc key)
          (snd (env _ (StoragePatch key p) (snd (env _ (DecodePartialFrames p)
             (snd (env _ ReadAllBody w))))))).
        intros r Hr Hf Hp. unfold noneOf in *. simpl. rewrite Hr, Hf.
        repeat split; try reflexivity.
        all: one_object.
  - repeat split; try reflexivity. eexists; reflexivity.
Qed.

Lemma patch_rejects_unless_one_partial_object_witness :
  outcome (run Ref.plain (patch Sample.widgetsHandler (ctx (Sample.widgetsIn "ns1")))
             (Ref.request [] [] (inr "two-documents") (inl ErrNotFound)
                (inr [Sample.widget "ns1" "a"; Sample.widget "ns1" "b"]) Sample.oneWidget))
  = Returned (Some (statusErrorImpl 400
      (Sprintf "couldn't decode patch: %v"
         [Sprintf "DecodePartialObjects: unexpected number of frames" []]))) /\
  patchCalls (trace (run Ref.plain (patch Sample.widgetsHandler (ctx (Sample.widgetsIn "ns1")))
             (Ref.request [] [] (inr "two-documents") (inl ErrNotFound)
                (inr [Sample.widget "ns1" "a"; Sample.widget "ns1" "b"]) Sample.oneWidget)))
  = [].
Proof.
  destruct (patch_rejects_unless_one_partial_object Ref.plain
    (Ref.request [] [] (inr "two-documents") (inl ErrNotFound)
       (inr [Sample.widget "ns1" "a"; Sample.widget "ns1" "b"]) Sample.oneWidget)
    Sample.widgetsHandler (Sample.widgetsIn "ns1") "two-documents") as (_ & _ & H).
  destruct H as (_ & _ & Hp); [reflexivity | simpl; lia |].
  split; [reflexivity | exact Hp].
Defined.

(** C7: the calls of the storage's patch in a run of [patch] are none, or
    the one whose payload is the string that reading the body gave and whose
    key is [ObjectKeyFor] of the single decoded partial object wrapped with
    the handler's [Namespaced] and [Singleton].  The wrapped object answers
    [IsNamespaced] and [IsSingleton] with these two flags, whatever the
    decoded object carried, so its key is made of the kind, name and
    namespace of the partial object and of the flags of the handler alone. *)
Theorem patch_key_and_payload {W : Type} (env : Env W) (w : W)
    (rh : resourceHandlerImpl) (rc : ResourceContext)
    (po po' : Object) (namespaced singleton : bool) :
  patchCalls (trace (run env (patch rh (ctx rc)) w))
  = match fst (env _ ReadAllBody w) with
    | inl _ => []
    | inr body =>
      match fst (env _ (DecodePartialFrames body) (snd (env _ ReadAllBody w))) with
      | inr [obj] =>
        match ObjectKeyFor (customPartialObject obj (Namespaced (gvkr rh)) (Singleton (gvkr rh))) with
        | inr key => [(key, body)]
        | inl _ => []
        end
      | _ => []
      end
    end /\
  IsNamespaced (customPartialObject po namespaced singleton) = namespaced /\
  IsSingleton (customPartialObject po namespaced singleton) = singleton /\
  ObjectKeyFor (customPartialObject po namespaced singleton)
  = match (if singleton then Some SingletonIdentifierKey
           else if negb namespaced then Some (objName po)
           else if isEmpty (objNamespace po) || isEmpty (objName po) then None
           else Some (NameNamespaceIdentifier (objNamespace po) (objName po))) with
    | Some id => inr (NewObjectKey (objGVK po) id)
    | None => inl (Errorf "couldn't identify object" [])
    end /\
  (objGVK po = objGVK po' -> objName po = objName po' -> objNamespace po = objNamespace po' ->
   ObjectKeyFor (customPartialObject po namespaced singleton)
   = ObjectKeyFor (customPartialObject po' namespaced singleton)).
Proof.
  split; [|repeat split].
  - unfold patch, DecodePartialObjects. cbn [bind trigger]. rewrite run_call.
    cbn [outcome trace patchCalls].
    destruct (fst (env _ ReadAllBody w)) as [err | p]; [reflexivity|].
    rewrite run_call. cbn [outcome trace patchCalls].
    destruct (fst (env _ (DecodePartialFrames p) (snd (env _ ReadAllBody w))))
      as [err | [|obj [|obj' objs]]]; try reflexivity.
    cbn [negb andb List.length Nat.eqb bind run outcome trace].
    destruct (ObjectKeyFor _) as [err | key]; [reflexivity|].
    cbn [bind trigger]. rewrite run_call. cbn [outcome trace patchCalls]. f_equal.
    destruct (fst (env _ (StoragePatch key p) _)) as [err|]; [reflexivity|].
    apply returnFromStorage_after_patch.
  - unfold ObjectKeyFor, Identify, IsSingleton. simpl.
    destruct singleton; [reflexivity|]. now destruct namespaced.
  - intros Hk Hn Hns. unfold ObjectKeyFor, Identify, IsSingleton, GetName, GetNamespace. simpl.
    now rewrite Hk, Hn, Hns.
Qed.

Lemma patch_key_and_payload_witness :
  patchCalls (trace (run Ref.plain (patch Sample.widgetsHandler (ctx (Sample.widgetsIn "ns1")))
    (Ref.request [] [] (inr "{x: 1}") (inl ErrNotFound)
       (inr [Sample.boastfulWidget "ns1" "a"]) Sample.oneWidget)))
  = [(Sample.widgetKey, "{x: 1}")] /\
  ObjectKeyFor (customPartialObject (Sample.widget "ns1" "a") true false)
  = ObjectKeyFor (customPartialObject (Sample.boastfulWidget "ns1" "a") true false) /\
  ObjectKeyFor (customPartialObject (Sample.widget "ns1" "a") true false)
  = inr Sample.widgetKey.
Proof.
  destruct (patch_key_and_payload Ref.plain
    (Ref.request [] [] (inr "{x: 1}") (inl ErrNotFound)
       (inr [Sample.boastfulWidget "ns1" "a"]) Sample.oneWidget)
    Sample.widgetsHandler (Sample.widgetsIn "ns1")
    (Sample.widget "ns1" "a") (Sample.boastfulWidget "ns1" "a")
    true false) as (Hcalls & _ & _ & Hk & Hsame).
  split; [exact Hcalls|].
  split; [apply Hsame; reflexivity | exact Hk].
Defined.

(** ** Validating a body *)

(** [create] and [update] return the error of [decodeObject] as it is, and
    do nothing more. *)
Lemma create_decode_error {W : Type} (env : Env W) (w : W) (rh : resourceHandlerImpl)
    (rc : ResourceContext) (e : error) :
  outcome (run env (decodeObject rh rc) w) = Returned (inl e) ->
  run env (create rh (ctx rc)) w
  = mkRun (Returned (Some e)) (world (run env (decodeObject rh rc) w))
          (trace (run env (decodeObject rh rc) w)).
Proof.
  intros H. unfold create. rewrite run_bind. unfold andThen. rewrite H. simpl.
  now rewrite List.app_nil_r.
Qed.

Lemma update_decode_error {W : Type} (env : Env W) (w : W) (rh : resourceHandlerImpl)
    (rc : ResourceContext) (e : error) :
  outcome (run env (decodeObject rh rc) w) = Returned (inl e) ->
  run env (update rh (ctx rc)) w
  = mkRun (Returned (Some e)) (world (run env (decodeObject rh rc) w))
          (trace (run env (decodeObject rh rc) w)).
Proof.
  intros H. unfold update. rewrite run_bind. unfold andThen. rewrite H. simpl.
  now rewrite List.app_nil_r.
Qed.

Lemma isEmpty_spec (s : string) : isEmpty s = false -> s <> "".
Proof. now destruct s. Qed.

(** C8, as the claim states it, fails on singleton kinds: [validateBody]
    leaves the object meta of a singleton alone, so a cluster-scoped
    singleton that arrives with a namespace keeps it, no warning header is
    added, and the object is stored with the namespace. *)
Lemma singleton_namespace_not_pruned :
  Singleton Sample.settings = true /\
  IsNamespaced (Sample.setting "foo" "x") = false /\
  GetNamespace (Sample.setting "foo" "x") = "foo" /\
  outcome (run Ref.plain (decodeObject Sample.settingsHandler (resourceContextImpl Sample.settings))
             (Sample.posting (Sample.setting "foo" "x") ∅))
  = Returned (inr (Sample.setting "foo" "x")) /\
  Ref.responseHeaders
    (world (run Ref.plain (create Sample.settingsHandler (ctx (resourceContextImpl Sample.settings)))
              (Sample.posting (Sample.setting "foo" "x") ∅)))
  = [] /\
  Ref.store
    (world (run Ref.plain (create Sample.settingsHandler (ctx (resourceContextImpl Sample.settings)))
              (Sample.posting (Sample.setting "foo" "x") ∅)))
    !! NewObjectKey (mkGVK "g" "v1" "Settings") "singleton"
  = Some (Sample.setting "foo" "x").
Proof. repeat split. Qed.

(** C8, amended: on a handler of a non-singleton kind, a decoded object
    with an empty name is refused with a status error 400; a namespaced
    object with an empty namespace is refused with a status error 400; and
    a non-namespaced object with a namespace, on a request that did not come
    through a namespaced route, is not refused: one [Warning] header is
    added, the namespace is emptied, and the body goes on to the optional
    [Validate] of the object, whose answer decides; an object that is not
    validatable leaves [decodeObject] pruned.  [create] and [update] return
    a refusal of [decodeObject] as it is.  On a handler of a singleton kind
    the object meta is left alone: no [Warning] header is added in any run,
    an object that [decodeObject] lets through is the decoded object as it
    came, whatever its name and namespace; an object that is not validatable
    is let through whenever its namespace is that of the path, if the
    request has one; and the only refusals are the mismatch with the
    namespace of the path and the error of the object's own [Validate]. *)
Theorem validateBody_identity_checks {W : Type} (env : Env W) (w : W)
    (rh : resourceHandlerImpl) (rc : ResourceContext) (obj : Object) :
  fst (env _ Decode w) = inr (kRuntimeObject obj) ->
  (Singleton (gvkr rh) = false ->
   (GetName obj = "" ->
    outcome (run env (decodeObject rh rc) w)
    = Returned (inl (statusErrorImpl 400 (Sprintf "name must be set" []))) /\
    outcome (run env (create rh (ctx rc)) w)
    = Returned (Some (statusErrorImpl 400 (Sprintf "name must be set" []))) /\
    outcome (run env (update rh (ctx rc)) w)
    = Returned (Some (statusErrorImpl 400 (Sprintf "name must be set" [])))) /\
   (GetName obj <> "" -> IsNamespaced obj = true -> GetNamespace obj = "" ->
    outcome (run env (decodeObject rh rc) w)
    = Returned (inl (statusErrorImpl 400
        (Sprintf ".metadata.namespace must be set for namespaced object" []))) /\
    outcome (run env (create rh (ctx rc)) w)
    = Returned (Some (statusErrorImpl 400
        (Sprintf ".metadata.namespace must be set for namespaced object" []))) /\
    outcome (run env (update rh (ctx rc)) w)
    = Returned (Some (statusErrorImpl 400
        (Sprintf ".metadata.namespace must be set for namespaced object" [])))) /\
   (GetName obj <> "" -> IsNamespaced obj = false -> GetNamespace obj <> "" ->
    asNamespacedResourceContext rc = None ->
    run env (validateBody rh rc obj) (snd (env _ Decode w))
    = after (Ev (ResponseHeaderAdd "Warning"
                   (Sprintf "Non-namespaced resources must not have the .metadata.namespace field set. Pruning the field" []))
                tt)
            (run env (do v <- ValidateIfPossible (SetNamespace obj ""); Ret (v, SetNamespace obj ""))
                 (snd (env _ (ResponseHeaderAdd "Warning"
                   (Sprintf "Non-namespaced resources must not have the .metadata.namespace field set. Pruning the field" []))
                   (snd (env _ Decode w))))) /\
    (objValidatable obj = false ->
     outcome (run env (decodeObject rh rc) w) = Returned (inr (SetNamespace obj "")) /\
     GetNamespace (SetNamespace obj "") = ""))) /\
  (Singleton (gvkr rh) = true ->
   noneOf isWarningEvent (trace (run env (decodeObject rh rc) w)) /\
   (forall o, outcome (run env (decodeObject rh rc) w) = Returned (inr o) -> o = obj) /\
   (match asNamespacedResourceContext rc with
    | Some ns => ns = GetNamespace obj
    | None => True
    end ->
    objValidatable obj = false ->
    outcome (run env (decodeObject rh rc) w) = Returned (inr obj)) /\
   (forall e, outcome (run env (decodeObject rh rc) w) = Returned (inl e) ->
      (exists ns, asNamespacedResourceContext rc = Some ns /\ ns <> GetNamespace obj /\
         e = newStatusError StatusBadRequest
               (Errorf "Object namespace in body: %q doesn't match namespace in path: %q"
                       [Quoted (GetNamespace obj); Quoted ns])) \/
      (objValidatable obj = true /\
       exists err, fst (env _ (Validate obj) (snd (env _ Decode w))) = Some err /\
                   e = newStatusError StatusBadRequest err))).
Proof.
  intros Hdec.
  assert (Hrun : run env (decodeObject rh rc) w
    = after (Ev Decode (inr (kRuntimeObject obj)))
        (run env (do v <- validateBody rh rc obj;
                  match v with
                  | (Some err, _) => Ret (inl (newStatusError StatusBadRequest err))
                  | (None, obj0) => Ret (inr obj0)
                  end) (snd (env _ Decode w)))).
  { unfold decodeObject. cbn [bind trigger]. rewrite run_call, Hdec. reflexivity. }
  split.
  { intros Hsing. split; [|split].
  - intros Hname.
    assert (H : outcome (run env (decodeObject rh rc) w)
                = Returned (inl (statusErrorImpl 400 (Sprintf "name must be set" [])))).
    { rewrite Hrun. unfold validateBody, validateObjectMeta. rewrite Hsing, Hname. reflexivity. }
    split; [exact H|]. split.
    + now rewrite (create_decode_error env w rh rc _ H).
    + now rewrite (update_decode_error env w rh rc _ H).
  - intros Hname Hns Hempty.
    assert (H : outcome (run env (decodeObject rh rc) w)
                = Returned (inl (statusErrorImpl 400
                    (Sprintf ".metadata.namespace must be set for namespaced object" [])))).
    { rewrite Hrun. unfold validateBody, validateObjectMeta.
      rewrite Hsing, (isEmpty_false _ Hname), Hns, Hempty. reflexivity. }
    split; [exact H|]. split.
    + now rewrite (create_decode_error env w rh rc _ H).
    + now rewrite (update_decode_error env w rh rc _ H).
  - intros Hname Hns Hnonempty Hctx.
    assert (Hv : run env (validateBody rh rc obj) (snd (env _ Decode w))
      = after (Ev (ResponseHeaderAdd "Warning"
                  (Sprintf "Non-namespaced resources must not have the .metadata.namespace field set. Pruning the field" []))
               tt)
           (run env (do v <- ValidateIfPossible (SetNamespace obj ""); Ret (v, SetNamespace obj ""))
                (snd (env _ (ResponseHeaderAdd "Warning"
                  (Sprintf "Non-namespaced resources must not have the .metadata.namespace field set. Pruning the field" []))
                  (snd (env _ Decode w)))))).
    { unfold validateBody, validateObjectMeta, Warnf.
      rewrite Hsing, (isEmpty_false _ Hname), Hns, (isEmpty_false _ Hnonempty), Hctx.
      cbn [negb bind trigger]. rewrite run_call. unfold after. f_equal.
      now destruct (fst (env _ (ResponseHeaderAdd _ _) _)). }
    split; [exact Hv|].
    intros Hval. split; [|reflexivity].
    rewrite Hrun. unfold after. cbn [outcome]. rewrite run_bind, Hv. unfold andThen, after.
    cbn [outcome]. unfold ValidateIfPossible. simpl. rewrite Hval. reflexivity. }
  intros Hsing. rewrite Hrun. unfold after. cbn [outcome trace].
  unfold validateBody, ValidateIfPossible. rewrite Hsing. cbn [negb bind].
  destruct (asNamespacedResourceContext rc) as [ns|] eqn:Hctx.
  - destruct (String.eqb_spec ns (GetNamespace obj)) as [Heq | Hneq]; cbn [negb].
    + destruct (objValidatable obj) eqn:Hval; cbn [bind trigger].
      * rewrite run_call. cbn [outcome trace].
        destruct (fst (env _ (Validate obj) (snd (env _ Decode w)))) as [err|] eqn:Herr;
          cbn [run outcome trace].
        -- split; [reflexivity|]. split; [discriminate|]. split; [discriminate|].
           intros e He. inversion He; subst. right. split; [reflexivity|].
           exists err. now split.
        -- split; [reflexivity|]. split; [intros o Ho; now inversion Ho|].
           split; [discriminate|]. discriminate.
      * cbn [run outcome trace]. split; [reflexivity|].
        split; [intros o Ho; now inversion Ho|]. split; [reflexivity|]. discriminate.
    + cbn [run outcome trace]. split; [reflexivity|]. split; [discriminate|].
      split; [intros Heq; contradiction|].
      intros e He. inversion He; subst. left. exists ns. now repeat split.
  - destruct (objValidatable obj) eqn:Hval; cbn [bind trigger].
    + rewrite run_call. cbn [outcome trace].
      destruct (fst (env _ (Validate obj) (snd (env _ Decode w)))) as [err|] eqn:Herr;
        cbn [run outcome trace].
      * split; [reflexivity|]. split; [discriminate|]. split; [discriminate|].
        intros e He. inversion He; subst. right. split; [reflexivity|].
        exists err. now split.
      * split; [reflexivity|]. split; [intros o Ho; now inversion Ho|].
        split; [discriminate|]. discriminate.
    + cbn [run outcome trace]. split; [reflexivity|].
      split; [intros o Ho; now inversion Ho|]. split; [reflexivity|]. discriminate.
Qed.

Lemma validateBody_identity_checks_witness :
  (outcome (run Ref.plain (decodeObject Sample.projectsHandler (resourceContextImpl Sample.projects))
              (Sample.posting (Sample.project "foo" "p") ∅))
   = Returned (inr (Sample.project "" "p")) /\
   Ref.responseHeaders
     (world (run Ref.plain (create Sample.projectsHandler (ctx (resourceContextImpl Sample.projects)))
               (Sample.posting (Sample.project "foo" "p") ∅)))
   = [("Warning",
       Sprintf "Non-namespaced resources must not have the .metadata.namespace field set. Pruning the field" [])] /\
   Ref.status
     (world (run Ref.plain (create Sample.projectsHandler (ctx (resourceContextImpl Sample.projects)))
               (Sample.posting (Sample.project "foo" "p") ∅)))
   = Some 201%Z) /\
  (outcome (run Ref.plain (decodeObject Sample.settingsHandler (resourceContextImpl Sample.settings))
              (Sample.posting (Sample.setting "foo" "") ∅))
   = Returned (inr (Sample.setting "foo" "")) /\
   noneOf isWarningEvent
     (trace (run Ref.plain
               (decodeObject Sample.settingsHandler (resourceContextImpl Sample.settings))
               (Sample.posting (Sample.setting "foo" "") ∅)))).
Proof.
  split.
  - destruct (validateBody_identity_checks Ref.plain
      (Sample.posting (Sample.project "foo" "p") ∅)
      Sample.projectsHandler (resourceContextImpl Sample.projects) (Sample.project "foo" "p")
      eq_refl) as ((_ & _ & Hprune) & _); [reflexivity|].
    destruct Hprune as (_ & Hout); [discriminate | reflexivity | discriminate | reflexivity |].
    destruct (Hout eq_refl) as [Ho _].
    split; [exact Ho | split; reflexivity].
  - destruct (validateBody_identity_checks Ref.plain
      (Sample.posting (Sample.setting "foo" "") ∅)
      Sample.settingsHandler (resourceContextImpl Sample.settings) (Sample.setting "foo" "")
      eq_refl) as (_ & Hsingle).
    destruct (Hsingle eq_refl) as (Hquiet & _ & Hpass & _).
    split; [apply Hpass; [exact I | reflexivity] | exact Hquiet].
Defined.

(** ** The namespace of the body and of the path *)

Lemma decodeObject_namespace_mismatch {W : Type} (env : Env W) (w : W)
    (rh : resourceHandlerImpl) (rc : ResourceContext) (ns : string) (obj : Object) :
  ns <> "" ->
  fst (env _ Decode w) = inr (kRuntimeObject obj) ->
  GetNamespace obj <> ns ->
  exists msg, outcome (run env (decodeObject rh (namespacedResourceContextImpl rc ns)) w)
              = Returned (inl (statusErrorImpl 400 msg)).
Proof.
  intros Hns Hdec Hneq.
  assert (Hmis : String.eqb ns (GetNamespace obj) = false)
    by (apply String.eqb_neq; congruence).
  assert (Hmis' : String.eqb ns "" = false) by (now apply String.eqb_neq).
  unfold decodeObject. cbn [bind trigger]. rewrite run_call, Hdec. cbn [outcome].
  unfold validateBody, validateObjectMeta, Warnf.
  destruct (Singleton (gvkr rh)); cbn [negb bind].
  - cbn [asNamespacedResourceContext]. rewrite Hmis. simpl. eexists; reflexivity.
  - destruct (isEmpty (GetName obj)); [simpl; eexists; reflexivity|].
    destruct (IsNamespaced obj).
    + destruct (isEmpty (GetNamespace obj)); [simpl; eexists; reflexivity|].
      cbn [bind asNamespacedResourceContext]. rewrite Hmis. simpl. eexists; reflexivity.
    + destruct (isEmpty (GetNamespace obj)) eqn:He; cbn [negb bind trigger].
      * cbn [asNamespacedResourceContext]. rewrite Hmis. simpl. eexists; reflexivity.
      * rewrite run_call. cbn [outcome bind asNamespacedResourceContext].
        replace (GetNamespace (SetNamespace obj "")) with "" by reflexivity.
        rewrite Hmis'. simpl. eexists; reflexivity.
Qed.

(** The create and update routes of a namespaced kind run their handler
    behind the resource and the namespace middlewares. *)
Lemma namespaced_write_routes (parent : echoGroup) (gvkr0 : GroupVersionKindResource)
    (rh : resourceHandlerImpl) (r : Route) :
  Namespaced gvkr0 = true -> groupMiddleware parent = [] ->
  In r (snd (newResourceHandler parent gvkr0)) ->
  handler r = hCreate \/ handler r = hUpdate ->
  serve rh r
  = resourceContextMiddleware gvkr0
      (namespacedResourceContextMiddleware (handlerFunc rh (handler r))).
Proof.
  intros Hns Hmw Hin Hh. unfold newResourceHandler in Hin. rewrite Hns in Hin.
  unfold serve.
  destruct (Singleton gvkr0); simpl in Hin;
    repeat (destruct Hin as [<- | Hin];
            [try (destruct Hh as [Hh | Hh]; discriminate Hh);
             simpl; rewrite Hmw; reflexivity|]);
    contradiction.
Qed.

(** C10: on the create and update routes of a namespaced kind, as
    [newResourceHandler] registers them, a body that decodes to an object
    whose namespace is not the [namespace] parameter of the path ends the
    request with a status error 400; no hook is called and the storage is
    not called. *)
Theorem namespace_mismatch_rejected {W : Type} (env : Env W) (w : W)
    (parent : echoGroup) (gvkr0 : GroupVersionKindResource)
    (rh : resourceHandlerImpl) (r : Route) (obj : Object) :
  Namespaced gvkr0 = true -> groupMiddleware parent = [] ->
  In r (snd (newResourceHandler parent gvkr0)) ->
  handler r = hCreate \/ handler r = hUpdate ->
  fst (env _ Decode (snd (env _ (Param "namespace") w))) = inr (kRuntimeObject obj) ->
  GetNamespace obj <> fst (env _ (Param "namespace") w) ->
  (exists msg, outcome (run env (serve rh r storageContextImpl) w)
               = Returned (Some (statusErrorImpl 400 msg))) /\
  noneOf isHookEvent (trace (run env (serve rh r storageContextImpl) w)) /\
  noneOf isStorageEvent (trace (run env (serve rh r storageContextImpl) w)).
Proof.
  intros Hns Hmw Hin Hh Hdec Hneq.
  rewrite (namespaced_write_routes parent gvkr0 rh r Hns Hmw Hin Hh).
  unfold resourceContextMiddleware, namespacedResourceContextMiddleware.
  cbn [bind trigger ctxResource]. rewrite run_call, Hns. cbn [negb outcome trace].
  destruct (isEmpty (fst (env _ (Param "namespace") w))) eqn:He.
  { simpl. repeat split; auto with traces. eexists; reflexivity. }
  apply isEmpty_spec in He.
  destruct (decodeObject_namespace_mismatch env (snd (env _ (Param "namespace") w)) rh
              (resourceContextImpl gvkr0) _ obj He Hdec Hneq) as [msg Hmsg].
  destruct (decodeObject_quiet env (snd (env _ (Param "namespace") w)) rh
              (namespacedResourceContextImpl (resourceContextImpl gvkr0)
                 (fst (env _ (Param "namespace") w)))) as [Hq1 Hq2].
  destruct Hh as [Hh | Hh]; rewrite Hh; cbn [handlerFunc].
  - rewrite (create_decode_error env _ rh _ _ Hmsg). cbn [outcome trace].
    repeat split; auto with traces. eexists; reflexivity.
  - rewrite (update_decode_error env _ rh _ _ Hmsg). cbn [outcome trace].
    repeat split; auto with traces. eexists; reflexivity.
Qed.

Lemma namespace_mismatch_rejected_witness :
  outcome (run Ref.plain
             (serve Sample.widgetsHandler
                (mkRoute "POST" "/apis/g/v1/namespaces/:namespace/widgets/" hCreate
                   [mwResourceContext Sample.widgets; mwNamespacedResourceContext])
                storageContextImpl)
             (Ref.request [("namespace", "ns1")] [] (inl ErrNotFound)
                (inr (kRuntimeObject (Sample.widget "ns2" "a"))) (inl ErrNotFound) ∅))
  = Returned (Some (statusErrorImpl 400
      (Sprintf "Object namespace in body: %q doesn't match namespace in path: %q"
         [Quoted "ns2"; Quoted "ns1"]))) /\
  noneOf isStorageEvent
    (trace (run Ref.plain
             (serve Sample.widgetsHandler
                (mkRoute "POST" "/apis/g/v1/namespaces/:namespace/widgets/" hCreate
                   [mwResourceContext Sample.widgets; mwNamespacedResourceContext])
                storageContextImpl)
             (Ref.request [("namespace", "ns1")] [] (inl ErrNotFound)
                (inr (kRuntimeObject (Sample.widget "ns2" "a"))) (inl ErrNotFound) ∅))).
Proof.
  destruct (namespace_mismatch_rejected Ref.plain
    (Ref.request [("namespace", "ns1")] [] (inl ErrNotFound)
       (inr (kRuntimeObject (Sample.widget "ns2" "a"))) (inl ErrNotFound) ∅)
    Sample.apiGroup Sample.widgets Sample.widgetsHandler
    (mkRoute "POST" "/apis/g/v1/namespaces/:namespace/widgets/" hCreate
       [mwResourceContext Sample.widgets; mwNamespacedResourceContext])
    (Sample.widget "ns2" "a")) as (_ & _ & Hs).
  - reflexivity.
  - reflexivity.
  - simpl. right. left. reflexivity.
  - left. reflexivity.
  - reflexivity.
  - simpl. discriminate.
  - split; [reflexivity | exact Hs].
Defined.

(** ** Routes *)





(** * Further properties *)

(** ** Runs that return *)

Lemma returns_bind {W A B : Type} (env : Env W) (p : Prog A) (f : A -> Prog B) (w : W) :
  returns (run env p w) -> (forall a w', returns (run env (f a) w')) ->
  returns (run env (bind p f) w).
Proof.
  intros [a Ha] Hf. rewrite run_bind. unfold andThen. rewrite Ha.
  destruct (Hf a (world (run env p w))) as [b Hb]. now exists b.
Qed.

Lemma returns_call {W A X : Type} (env : Env W) (e : Eff X) (k : X -> Prog A) (w : W) :
  (forall x w', returns (run env (k x) w')) -> returns (run env (Call e k) w).
Proof. intros Hk. destruct (Hk (fst (env X e w)) (snd (env X e w))) as [a Ha]. now exists a. Qed.

Lemma returns_ret {W A : Type} (env : Env W) (a : A) (w : W) : returns (run env (Ret a) w).
Proof. now exists a. Qed.

#[local] Hint Resolve returns_ret : traces.

Lemma JSONIndent_returns {W : Type} (env : Env W) (w : W) (rc : ResourceContext)
    (code : Z) (obj : Body) :
  returns (run env (JSONIndent rc code obj) w).
Proof.
  unfold JSONIndent, ShouldDefault. cbn [bind trigger]. apply returns_call. intros h w1.
  destruct (_ || _).
  - cbn [bind trigger]. apply returns_call. intros r w2. destruct (fst r).
    + apply returns_ret.
    + cbn [bind trigger]. apply returns_call. intros ? ?. apply returns_call. intros ? ?.
      apply returns_ret.
  - cbn [bind trigger]. apply returns_call. intros ? ?. apply returns_call. intros ? ?.
    apply returns_ret.
Qed.

Lemma validateBody_returns {W : Type} (env : Env W) (w : W) (rh : resourceHandlerImpl)
    (rc : ResourceContext) (obj : Object) :
  returns (run env (validateBody rh rc obj) w).
Proof.
  assert (Hv : forall o w', returns (run env (do v <- ValidateIfPossible o; Ret (v, o)) w')).
  { intros o w'. unfold ValidateIfPossible. destruct (objValidatable o).
    - cbn [bind trigger]. apply returns_call. intros ? ?. apply returns_ret.
    - apply returns_ret. }
  unfold validateBody. apply returns_bind.
  - destruct (negb _); [|apply returns_ret]. unfold validateObjectMeta, Warnf.
    destruct (isEmpty (GetName obj)); [apply returns_ret|].
    destruct (IsNamespaced obj).
    + destruct (isEmpty _); apply returns_ret.
    + destruct (negb _); [|apply returns_ret].
      cbn [bind trigger]. apply returns_call. intros ? ?. apply returns_ret.
  - intros [[e|] o] w'; [apply returns_ret|].
    destruct (asNamespacedResourceContext rc) as [ns|]; [|apply Hv].
    destruct (negb _); [apply returns_ret | apply Hv].
Qed.

Lemma decodeObject_returns {W : Type} (env : Env W) (w : W) (rh : resourceHandlerImpl)
    (rc : ResourceContext) :
  returns (run env (decodeObject rh rc) w).
Proof.
  unfold decodeObject. cbn [bind trigger]. apply returns_call. intros [err | [obj |]] w'.
  - apply returns_ret.
  - apply returns_bind; [apply validateBody_returns|].
    intros [[e|] o] w''; apply returns_ret.
  - apply returns_ret.
Qed.

(** ** What validation lets through *)

Lemma IsNamespaced_SetNamespace (o : Object) (ns : string) :
  IsNamespaced (SetNamespace o ns) = IsNamespaced o.
Proof. reflexivity. Qed.

Lemma validateBody_accepts {W : Type} (env : Env W) (w : W) (rh : resourceHandlerImpl)
    (rc : ResourceContext) (obj o : Object) :
  outcome (run env (validateBody rh rc obj) w) = Returned (None, o) ->
  (o = obj \/
   (o = SetNamespace obj "" /\ Singleton (gvkr rh) = false /\
    IsNamespaced obj = false /\ GetNamespace obj <> "")) /\
  (forall ns, asNamespacedResourceContext rc = Some ns -> GetNamespace o = ns) /\
  (Singleton (gvkr rh) = false ->
   GetName o <> "" /\
   (IsNamespaced o = true -> GetNamespace o <> "") /\
   (IsNamespaced o = false -> GetNamespace o = "")).
Proof.
  unfold validateBody, validateObjectMeta, Warnf, ValidateIfPossible.
  destruct (Singleton (gvkr rh)) eqn:Hs; cbn [negb].
  - cbn [bind]. destruct (asNamespacedResourceContext rc) as [ns|] eqn:Hc.
    + destruct (String.eqb ns (GetNamespace obj)) eqn:Heq; cbn [negb].
      * apply String.eqb_eq in Heq.
        destruct (objValidatable obj); simpl; intros H; inversion H; subst; clear H;
          (split; [now left|]); (split; [|discriminate]); intros ? [= <-]; now symmetry.
      * simpl. discriminate.
    + destruct (objValidatable obj); simpl; intros H; inversion H; subst; clear H;
        (split; [now left|]); (split; [|discriminate]); discriminate.
  - destruct (isEmpty (GetName obj)) eqn:Hn; [simpl; discriminate|].
    apply isEmpty_spec in Hn.
    destruct (IsNamespaced obj) eqn:Hns.
    + destruct (isEmpty (GetNamespace obj)) eqn:He; [simpl; discriminate|].
      apply isEmpty_spec in He. cbn [bind].
      destruct (asNamespacedResourceContext rc) as [ns|] eqn:Hc.
      * destruct (String.eqb ns (GetNamespace obj)) eqn:Heq; cbn [negb]; [|simpl; discriminate].
        apply String.eqb_eq in Heq.
        destruct (objValidatable obj); simpl; intros H; inversion H; subst; clear H;
          (split; [now left|]); (split; [intros ? [= <-]; now symmetry|]);
          intros _; repeat split; auto; congruence.
      * destruct (objValidatable obj); simpl; intros H; inversion H; subst; clear H;
          (split; [now left|]); (split; [discriminate|]);
          intros _; repeat split; auto; congruence.
    + destruct (isEmpty (GetNamespace obj)) eqn:He; cbn [negb bind trigger].
      * assert (Hempty : GetNamespace obj = "") by (now destruct (GetNamespace obj)).
        destruct (asNamespacedResourceContext rc) as [ns|] eqn:Hc.
        -- destruct (String.eqb ns (GetNamespace obj)) eqn:Heq; cbn [negb]; [|simpl; discriminate].
           apply String.eqb_eq in Heq.
           destruct (objValidatable obj); simpl; intros H; inversion H; subst; clear H;
             (split; [now left|]); (split; [intros ? [= <-]; now symmetry|]);
             intros _; repeat split; auto; congruence.
        -- destruct (objValidatable obj); simpl; intros H; inversion H; subst; clear H;
             (split; [now left|]); (split; [discriminate|]);
             intros _; repeat split; auto; congruence.
      * apply isEmpty_spec in He. rewrite run_call. cbn [outcome bind].
        destruct (asNamespacedResourceContext rc) as [ns|] eqn:Hc.
        -- destruct (String.eqb ns (GetNamespace (SetNamespace obj ""))) eqn:Heq; cbn [negb];
             [|simpl; discriminate].
           apply String.eqb_eq in Heq.
           destruct (objValidatable (SetNamespace obj "")); simpl; intros H; inversion H; subst; clear H;
             (split; [right; auto|]); (split; [intros ? [= <-]; now symmetry|]);
             intros _; repeat split; auto; rewrite IsNamespaced_SetNamespace; congruence.
        -- destruct (objValidatable (SetNamespace obj "")); simpl; intros H; inversion H; subst; clear H;
             (split; [right; auto|]); (split; [discriminate|]);
             intros _; repeat split; auto; rewrite IsNamespaced_SetNamespace; congruence.
Qed.

Lemma decodeObject_inversion {W : Type} (env : Env W) (w : W) (rh : resourceHandlerImpl)
    (rc : ResourceContext) (o : Object) :
  outcome (run env (decodeObject rh rc) w) = Returned (inr o) ->
  exists obj, fst (env _ Decode w) = inr (kRuntimeObject obj) /\
    outcome (run env (validateBody rh rc obj) (snd (env _ Decode w))) = Returned (None, o).
Proof.
  unfold decodeObject. cbn [bind trigger]. rewrite run_call. cbn [outcome].
  destruct (fst (env _ Decode w)) as [err | [obj |]]; [simpl; discriminate | | simpl; discriminate].
  rewrite run_bind. unfold andThen.
  destruct (outcome (run env (validateBody rh rc obj) (snd (env _ Decode w))))
    as [[[e|] o'] | msg] eqn:E; simpl; [discriminate | | discriminate].
  intros [= <-]. exists obj. now split.
Qed.

(** X1: an object that [decodeObject] lets through is the decoded object,
    or that object with its namespace emptied (only when it is not
    namespaced and arrived with a namespace).  On a namespaced request
    context its namespace is the namespace of the context.  On a handler of
    a non-singleton kind its name is not empty, and its namespace is empty
    exactly when the object is not namespaced.  These hold of every object
    the hooks and the storage of [create] and [update] are given. *)
Theorem decodeObject_validated {W : Type} (env : Env W) (w : W) (rh : resourceHandlerImpl)
    (rc : ResourceContext) (o : Object) :
  outcome (run env (decodeObject rh rc) w) = Returned (inr o) ->
  (exists obj, fst (env _ Decode w) = inr (kRuntimeObject obj) /\
     (o = obj \/
      (o = SetNamespace obj "" /\ IsNamespaced obj = false /\ GetNamespace obj <> ""))) /\
  (forall ns, asNamespacedResourceContext rc = Some ns -> GetNamespace o = ns) /\
  (Singleton (gvkr rh) = false ->
   GetName o <> "" /\
   (IsNamespaced o = true -> GetNamespace o <> "") /\
   (IsNamespaced o = false -> GetNamespace o = "")).
Proof.
  intros H. destruct (decodeObject_inversion env w rh rc o H) as (obj & Hd & Hv).
  destruct (validateBody_accepts env _ rh rc obj o Hv) as (Ho & Hns & Hmeta).
  split; [|split; assumption].
  exists obj. split; [exact Hd|]. destruct Ho as [-> | (-> & _ & Hn & He)]; auto.
Qed.

Lemma decodeObject_validated_witness :
  outcome (run Ref.plain (decodeObject Sample.widgetsHandler (Sample.widgetsIn "ns1"))
             (Sample.posting (Sample.widget "ns1" "a") ∅))
  = Returned (inr (Sample.widget "ns1" "a")) /\
  GetNamespace (Sample.widget "ns1" "a") = "ns1" /\
  GetName (Sample.widget "ns1" "a") <> "".
Proof.
  assert (H : outcome (run Ref.plain (decodeObject Sample.widgetsHandler (Sample.widgetsIn "ns1"))
                         (Sample.posting (Sample.widget "ns1" "a") ∅))
              = Returned (inr (Sample.widget "ns1" "a"))) by reflexivity.
  destruct (decodeObject_validated Ref.plain _ Sample.widgetsHandler (Sample.widgetsIn "ns1")
              (Sample.widget "ns1" "a") H) as (_ & Hns & Hmeta).
  split; [exact H|]. split; [apply Hns; reflexivity|].
  destruct (Hmeta eq_refl) as (Hname & _). exact Hname.
Defined.

(** X2: [decodeObject] never panics, and every error it returns is a status
    error: of code 500 exactly when the decoder answered with an object that
    is not a [runtime.Object], and of code 400 otherwise (a decoder error or
    a refusal of [validateBody]). *)
Theorem decodeObject_errors_are_status {W : Type} (env : Env W) (w : W)
    (rh : resourceHandlerImpl) (rc : ResourceContext) (e : error) :
  returns (run env (decodeObject rh rc) w) /\
  (outcome (run env (decodeObject rh rc) w) = Returned (inl e) ->
   (fst (env _ Decode w) = inr kOther /\
    e = statusErrorImpl 500 (Sprintf "couldn't cast decoded object to runtime.Object" [])) \/
   (fst (env _ Decode w) <> inr kOther /\ exists msg, e = statusErrorImpl 400 msg)).
Proof.
  split; [apply decodeObject_returns|].
  unfold decodeObject. cbn [bind trigger]. rewrite run_call. cbn [outcome].
  destruct (fst (env _ Decode w)) as [err | [obj |]].
  - simpl. intros [= <-]. right. split; [discriminate|]. eexists; reflexivity.
  - rewrite run_bind. unfold andThen.
    destruct (outcome (run env (validateBody rh rc obj) (snd (env _ Decode w))))
      as [[[e'|] o'] | msg]; simpl; [| discriminate | discriminate].
    intros [= <-]. right. split; [discriminate|]. eexists; reflexivity.
  - simpl. intros [= <-]. left. split; reflexivity.
Qed.

Lemma decodeObject_errors_are_status_witness :
  outcome (run Ref.plain (decodeObject Sample.widgetsHandler (Sample.widgetsIn "ns1"))
             (Sample.posting (Sample.widget "ns1" "") ∅))
  = Returned (inl (statusErrorImpl 400 (Sprintf "name must be set" []))) /\
  exists msg, statusErrorImpl 400 (Sprintf "name must be set" []) = statusErrorImpl 400 msg.
Proof.
  destruct (decodeObject_errors_are_status Ref.plain
              (Sample.posting (Sample.widget "ns1" "") ∅)
              Sample.widgetsHandler (Sample.widgetsIn "ns1")
              (statusErrorImpl 400 (Sprintf "name must be set" []))) as (_ & H).
  destruct (H eq_refl) as [[Hk _] | [_ Hm]]; [discriminate Hk|].
  split; [reflexivity | exact Hm].
Defined.

(** ** The hook loops *)

Lemma runObjectHooks_returns {W : Type} (env : Env W) (rc : ResourceContext)
    (hooks : list ObjectHookHandler) (obj : Object) (w : W) :
  returns (run env (runObjectHooks hooks rc obj) w).
Proof.
  revert obj w. induction hooks as [|h hooks IH]; intros obj w; [apply returns_ret|].
  cbn [runObjectHooks bind trigger]. apply returns_call. intros r w'.
  destruct (fst r); [apply returns_ret | apply IH].
Qed.

Lemma runNamedHooks_returns {W : Type} (env : Env W) (rc : ResourceContext)
    (hooks : list NamedResourceHookHandler) (w : W) :
  returns (run env (runNamedHooks hooks rc) w).
Proof.
  revert w. induction hooks as [|h hooks IH]; intros w; [apply returns_ret|].
  cbn [runNamedHooks bind trigger]. apply returns_call. intros r w'.
  destruct r; [apply returns_ret | apply IH].
Qed.

(** The trace of a hook loop holds hook calls only. *)
Lemma runObjectHooks_only_hooks {W : Type} (env : Env W) (rc : ResourceContext)
    (hooks : list ObjectHookHandler) (obj : Object) (w : W) :
  List.filter isHookEvent (trace (run env (runObjectHooks hooks rc obj) w))
  = trace (run env (runObjectHooks hooks rc obj) w) /\
  noneOf isStorageEvent (trace (run env (runObjectHooks hooks rc obj) w)) /\
  noneOf isResponseWrite (trace (run env (runObjectHooks hooks rc obj) w)).
Proof.
  revert obj w. induction hooks as [|h hooks IH]; intros obj w; [now repeat split|].
  cbn [runObjectHooks bind trigger]. rewrite run_call. cbn [trace].
  destruct (fst (fst (env _ (CallObjectHook h rc obj) w))) as [e|].
  - now repeat split.
  - destruct (IH (snd (fst (env _ (CallObjectHook h rc obj) w)))
                 (snd (env _ (CallObjectHook h rc obj) w))) as (H1 & H2 & H3).
    unfold noneOf in *. cbn [List.filter isHookEvent isHookEff isStorageEvent isStorageEff
                             isResponseWrite].
    now rewrite H1, H2, H3.
Qed.

Lemma runNamedHooks_only_hooks {W : Type} (env : Env W) (rc : ResourceContext)
    (hooks : list NamedResourceHookHandler) (w : W) :
  noneOf isStorageEvent (trace (run env (runNamedHooks hooks rc) w)) /\
  noneOf isResponseWrite (trace (run env (runNamedHooks hooks rc) w)).
Proof.
  revert w. induction hooks as [|h hooks IH]; intros w; [now split|].
  cbn [runNamedHooks bind trigger]. rewrite run_call. cbn [trace].
  destruct (fst (env _ (CallNamedHook h rc) w)) as [e|].
  - now split.
  - destruct (IH (snd (env _ (CallNamedHook h rc) w))) as (H2 & H3).
    unfold noneOf in *. cbn [List.filter isStorageEvent isStorageEff isResponseWrite].
    now rewrite H2, H3.
Qed.

(** A loop whose hooks all passed has called every hook, each on the object
    as the hook before it left it. *)
Lemma runObjectHooks_chain {W : Type} (env : Env W) (rc : ResourceContext)
    (hooks : list ObjectHookHandler) (obj obj' : Object) (w : W) :
  outcome (run env (runObjectHooks hooks rc obj) w) = Returned (None, obj') ->
  HookChain rc hooks obj (trace (run env (runObjectHooks hooks rc obj) w)) obj' /\
  hooksCalled (trace (run env (runObjectHooks hooks rc obj) w)) = List.map refObjectHook hooks.
Proof.
  revert obj w. induction hooks as [|h hooks IH]; intros obj w.
  - simpl. intros [= <-]. split; [constructor | reflexivity].
  - cbn [runObjectHooks bind trigger]. rewrite run_call. cbn [outcome trace].
    destruct (env _ (CallObjectHook h rc obj) w) as [[[e|] o1] w1] eqn:E; cbn [fst snd].
    + simpl. discriminate.
    + intros H. destruct (IH o1 w1 H) as [Hc Hh]. split.
      * now constructor.
      * cbn [hooksCalled hookOf]. cbn [List.map]. now rewrite Hh.
Qed.

Lemma runNamedHooks_all_called {W : Type} (env : Env W) (rc : ResourceContext)
    (hooks : list NamedResourceHookHandler) (w : W) :
  outcome (run env (runNamedHooks hooks rc) w) = Returned None ->
  hooksCalled (trace (run env (runNamedHooks hooks rc) w)) = List.map refNamedHook hooks.
Proof.
  revert w. induction hooks as [|h hooks IH]; intros w; [reflexivity|].
  cbn [runNamedHooks bind trigger]. rewrite run_call. cbn [outcome trace].
  destruct (env _ (CallNamedHook h rc) w) as [[e|] w1] eqn:E; cbn [fst snd].
  - simpl. discriminate.
  - intros H. cbn [hooksCalled hookOf List.map]. now rewrite (IH w1 H).
Qed.

(** ** Outcomes of create, update and delete *)

(** Decoding and validating write neither a status nor a body. *)
Lemma decodeObject_writes_nothing {W : Type} (env : Env W) (w : W) (rh : resourceHandlerImpl)
    (rc : ResourceContext) :
  noneOf isResponseWrite (trace (run env (decodeObject rh rc) w)).
Proof.
  assert (Hv : forall o w', noneOf isResponseWrite (trace (run env (validateBody rh rc o) w'))).
  { intros o w'. unfold validateBody, validateObjectMeta, ValidateIfPossible, Warnf, noneOf.
    destruct (Singleton (gvkr rh)); simpl.
    - destruct (asNamespacedResourceContext rc) as [ns|]; [destruct (negb _)|];
        destruct (objValidatable o); reflexivity.
    - destruct (isEmpty (GetName o)); simpl; [reflexivity|].
      destruct (IsNamespaced o); [| destruct (negb (isEmpty (GetNamespace o)))];
        [destruct (isEmpty (GetNamespace o)); simpl; [reflexivity|] | |]; simpl;
        (destruct (asNamespacedResourceContext rc) as [ns|]; [destruct (negb _)|];
         destruct (objValidatable o); reflexivity). }
  unfold decodeObject. cbn [bind trigger]. rewrite run_call.
  destruct (fst (env _ Decode w)) as [e | [o |]]; cbn [run trace]; [reflexivity | | reflexivity].
  rewrite run_bind. unfold andThen. specialize (Hv o (snd (env _ Decode w))).
  destruct (outcome (run env (validateBody rh rc o) (snd (env _ Decode w)))) as [[[e|] o'']|];
    cbn [trace outcome world]; unfold noneOf in *; cbn [List.filter isResponseWrite];
    try rewrite List.filter_app; rewrite Hv; reflexivity.
Qed.

(** X3: when the body has been decoded and validated and the hooks have
    passed, and the storage answers the create with an error that is not
    [ErrAlreadyExists], [create] returns the status error 500 with the text
    of that error; the failed create is its last step, and neither a status
    nor a body is written to the response. *)
Theorem create_store_failure_is_500 {W : Type} (env : Env W) (w w1 w2 : W)
    (rh : resourceHandlerImpl) (rc : ResourceContext) (obj obj' : Object)
    (tr1 tr2 : list Event) (err : error) :
  run env (decodeObject rh rc) w = mkRun (Returned (inr obj)) w1 tr1 ->
  run env (runObjectHooks (postHooks rh) rc obj) w1 = mkRun (Returned (None, obj')) w2 tr2 ->
  fst (env _ (StorageCreate obj') w2) = Some err ->
  errors_Is err AlreadyExists = false ->
  run env (create rh (ctx rc)) w
  = mkRun (Returned (Some (statusErrorImpl 500 (Error err))))
          (snd (env _ (StorageCreate obj') w2))
          (tr1 ++ tr2 ++ [Ev (StorageCreate obj') (Some err)]) /\
  noneOf isResponseWrite (trace (run env (create rh (ctx rc)) w)).
Proof.
  intros Hdec Hhooks Hcreate His.
  assert (Hrun : run env (create rh (ctx rc)) w
    = mkRun (Returned (Some (statusErrorImpl 500 (Error err))))
          (snd (env _ (StorageCreate obj') w2))
          (tr1 ++ tr2 ++ [Ev (StorageCreate obj') (Some err)])).
  { unfold create. rewrite run_bind, Hdec. unfold andThen. cbn [outcome world trace].
    rewrite run_bind, Hhooks. unfold andThen. cbn [outcome world trace].
    cbn [bind trigger]. rewrite run_call. rewrite Hcreate, His. reflexivity. }
  split; [exact Hrun|]. rewrite Hrun. cbn [trace].
  destruct (runObjectHooks_only_hooks env rc (postHooks rh) obj w1) as (_ & _ & Hq).
  rewrite Hhooks in Hq. cbn [trace] in Hq.
  pose proof (decodeObject_writes_nothing env w rh rc) as Hd.
  rewrite Hdec in Hd. cbn [trace] in Hd.
  apply noneOf_app; [exact Hd|]. apply noneOf_app; [exact Hq | reflexivity].
Qed.

Lemma create_store_failure_is_500_witness :
  outcome (run Ref.plain
             (create Sample.projectsHandler (ctx (resourceContextImpl Sample.projects)))
             (Sample.posting (More.gadget "" "a") ∅))
  = Returned (Some (statusErrorImpl 500 (Sprintf "couldn't identify object" []))).
Proof.
  destruct (create_store_failure_is_500 Ref.plain
    (Sample.posting (More.gadget "" "a") ∅)
    (Sample.posting (More.gadget "" "a") ∅)
    (Sample.posting (More.gadget "" "a") ∅)
    Sample.projectsHandler (resourceContextImpl Sample.projects)
    (More.gadget "" "a") (More.gadget "" "a")
    [Ev Decode (inr (kRuntimeObject (More.gadget "" "a")))] []
    (Errorf "couldn't identify object" [])) as [Hrun _].
  - reflexivity.
  - reflexivity.
  - reflexivity.
  - reflexivity.
  - now rewrite Hrun.
Defined.

(** X4: [create] returns without an error only when the body was decoded
    and validated to an object, every create hook was called in turn, each
    on the object as the hook before it left it, the storage accepted the
    object as the last hook left it, and that object was then handed to
    [JSONIndent] with status 201, which also returned without an error.
    The create of that object is the only storage call of the request. *)
Theorem create_success_means_stored {W : Type} (env : Env W) (w : W)
    (rh : resourceHandlerImpl) (rc : ResourceContext) :
  outcome (run env (create rh (ctx rc)) w) = Returned None ->
  exists (obj obj' : Object) (thooks : list Event) (w2 : W),
    outcome (run env (decodeObject rh rc) w) = Returned (inr obj) /\
    HookChain rc (postHooks rh) obj thooks obj' /\
    fst (env _ (StorageCreate obj') w2) = None /\
    trace (run env (create rh (ctx rc)) w)
    = trace (run env (decodeObject rh rc) w) ++ thooks ++
      Ev (StorageCreate obj') None
      :: trace (run env (JSONIndent rc StatusCreated (bodyObject obj'))
                    (snd (env _ (StorageCreate obj') w2))) /\
    outcome (run env (JSONIndent rc StatusCreated (bodyObject obj'))
                 (snd (env _ (StorageCreate obj') w2))) = Returned None /\
    storageEvents (trace (run env (create rh (ctx rc)) w)) = [Ev (StorageCreate obj') None].
Proof.
  unfold create. rewrite run_bind. unfold andThen.
  destruct (decodeObject_quiet env w rh rc) as [_ Hdq].
  destruct (outcome (run env (decodeObject rh rc) w)) as [[err | obj] | msg] eqn:Hdec;
    cbn [outcome trace]; [simpl; discriminate | | discriminate].
  rewrite run_bind. unfold andThen.
  pose proof (runObjectHooks_chain env rc (postHooks rh) obj) as Hchain.
  destruct (runObjectHooks_only_hooks env rc (postHooks rh) obj
              (world (run env (decodeObject rh rc) w))) as (_ & Hhq & _).
  destruct (outcome (run env (runObjectHooks (postHooks rh) rc obj)
                         (world (run env (decodeObject rh rc) w))))
    as [[[e|] obj'] | msg] eqn:Hh; cbn [outcome trace]; [simpl; discriminate | | discriminate].
  cbn [bind trigger]. rewrite run_call. cbn [outcome trace].
  destruct (fst (env _ (StorageCreate obj') _)) as [e|] eqn:Hc.
  { destruct (errors_Is e AlreadyExists); simpl; discriminate. }
  intros Hjson.
  exists obj, obj', (trace (run env (runObjectHooks (postHooks rh) rc obj)
                               (world (run env (decodeObject rh rc) w)))),
    (world (run env (runObjectHooks (postHooks rh) rc obj)
              (world (run env (decodeObject rh rc) w)))).
  destruct (Hchain obj' _ Hh) as [Hch _].
  split; [reflexivity|]. split; [exact Hch|]. split; [exact Hc|].
  split; [reflexivity|]. split; [exact Hjson|].
  unfold storageEvents, noneOf in *. rewrite !List.filter_app, Hdq, Hhq.
  cbn [List.app List.filter isStorageEvent isStorageEff]. f_equal.
  apply JSONIndent_quiet.
Qed.

Lemma create_success_means_stored_witness :
  exists obj' : Object,
    storageEvents
      (trace (run Ref.plain (create Sample.widgetsHandler (ctx (Sample.widgetsIn "ns1")))
                (Sample.posting (Sample.widget "ns1" "b") Sample.oneWidget)))
    = [Ev (StorageCreate obj') None].
Proof.
  destruct (create_success_means_stored Ref.plain
              (Sample.posting (Sample.widget "ns1" "b") Sample.oneWidget)
              Sample.widgetsHandler (Sample.widgetsIn "ns1") eq_refl)
    as (obj & obj' & thooks & w2 & _ & _ & _ & _ & _ & Hs).
  exists obj'. exact Hs.
Defined.

(** X5: [update] returns the error of the storage's update as it is, not
    wrapped in a status error, and writes neither status nor body then; and
    it returns without an error only when the storage accepted the object as
    the last update hook left it, that update being the only storage call of
    the request, and the object was handed to [JSONIndent] with status 200. *)
Theorem update_outcomes {W : Type} (env : Env W) (w w1 w2 : W)
    (rh : resourceHandlerImpl) (rc : ResourceContext) (obj obj' : Object)
    (tr1 tr2 : list Event) :
  run env (decodeObject rh rc) w = mkRun (Returned (inr obj)) w1 tr1 ->
  run env (runObjectHooks (putHooks rh) rc obj) w1 = mkRun (Returned (None, obj')) w2 tr2 ->
  (forall err, fst (env _ (StorageUpdate obj') w2) = Some err ->
     run env (update rh (ctx rc)) w
     = mkRun (Returned (Some err)) (snd (env _ (StorageUpdate obj') w2))
             (tr1 ++ tr2 ++ [Ev (StorageUpdate obj') (Some err)]) /\
     noneOf isResponseWrite (trace (run env (update rh (ctx rc)) w))) /\
  (fst (env _ (StorageUpdate obj') w2) = None ->
     trace (run env (update rh (ctx rc)) w)
     = tr1 ++ tr2 ++ Ev (StorageUpdate obj') None
       :: trace (run env (JSONIndent rc StatusOK (bodyObject obj'))
                     (snd (env _ (StorageUpdate obj') w2))) /\
     outcome (run env (update rh (ctx rc)) w)
     = outcome (run env (JSONIndent rc StatusOK (bodyObject obj'))
                    (snd (env _ (StorageUpdate obj') w2))) /\
     storageEvents (trace (run env (update rh (ctx rc)) w)) = [Ev (StorageUpdate obj') None]).
Proof.
  intros Hdec Hhooks.
  destruct (runObjectHooks_only_hooks env rc (putHooks rh) obj w1) as (_ & Hhs & Hhq).
  rewrite Hhooks in Hhq, Hhs. cbn [trace] in Hhq, Hhs.
  pose proof (decodeObject_writes_nothing env w rh rc) as Hd.
  destruct (decodeObject_quiet env w rh rc) as [_ Hds].
  rewrite Hdec in Hd, Hds. cbn [trace] in Hd, Hds.
  assert (Hrun : run env (update rh (ctx rc)) w
    = andThen (mkRun (Returned tt) w2 (tr1 ++ tr2))
        (fun _ w' => run env (do u <- trigger (StorageUpdate obj');
                              match u with
                              | Some err => Ret (Some err)
                              | None => JSONIndent rc StatusOK (bodyObject obj')
                              end) w')).
  { unfold update. rewrite run_bind, Hdec. unfold andThen. cbn [outcome world trace].
    rewrite run_bind, Hhooks. unfold andThen. cbn [outcome world trace].
    now rewrite List.app_assoc. }
  split.
  - intros err Hu.
    assert (Hrun' : run env (update rh (ctx rc)) w
      = mkRun (Returned (Some err)) (snd (env _ (StorageUpdate obj') w2))
              (tr1 ++ tr2 ++ [Ev (StorageUpdate obj') (Some err)])).
    { rewrite Hrun. unfold andThen. cbn [outcome world trace bind trigger].
      rewrite run_call, Hu. cbn [run outcome world trace]. now rewrite <- List.app_assoc. }
    split; [exact Hrun'|]. rewrite Hrun'. cbn [trace].
    apply noneOf_app; [exact Hd|]. apply noneOf_app; [exact Hhq | reflexivity].
  - intros Hu. rewrite Hrun. unfold andThen. cbn [outcome world trace bind trigger].
    rewrite run_call, Hu. cbn [outcome world trace]. rewrite <- List.app_assoc.
    split; [reflexivity|]. split; [reflexivity|].
    unfold storageEvents, noneOf in *. rewrite !List.filter_app, Hds, Hhs.
    cbn [List.app List.filter isStorageEvent isStorageEff]. f_equal.
    apply JSONIndent_quiet.
Qed.

Lemma update_outcomes_witness :
  outcome (run Ref.plain (update Sample.projectsHandler (ctx (resourceContextImpl Sample.projects)))
             (Sample.posting (More.gadget "" "a") ∅))
  = Returned (Some (Errorf "couldn't identify object" [])) /\
  storageEvents
    (trace (run Ref.plain (update Sample.widgetsHandler (ctx (Sample.widgetsIn "ns1")))
              (Sample.posting (Sample.widget "ns1" "a") Sample.oneWidget)))
  = [Ev (StorageUpdate (Sample.widget "ns1" "a")) None].
Proof.
  destruct (update_outcomes Ref.plain
    (Sample.posting (More.gadget "" "a") ∅) (Sample.posting (More.gadget "" "a") ∅)
    (Sample.posting (More.gadget "" "a") ∅)
    Sample.projectsHandler (resourceContextImpl Sample.projects)
    (More.gadget "" "a") (More.gadget "" "a")
    [Ev Decode (inr (kRuntimeObject (More.gadget "" "a")))] [] eq_refl eq_refl) as [Hfail _].
  destruct (update_outcomes Ref.plain
    (Sample.posting (Sample.widget "ns1" "a") Sample.oneWidget)
    (Sample.posting (Sample.widget "ns1" "a") Sample.oneWidget)
    (Sample.posting (Sample.widget "ns1" "a") Sample.oneWidget)
    Sample.widgetsHandler (Sample.widgetsIn "ns1")
    (Sample.widget "ns1" "a") (Sample.widget "ns1" "a")
    [Ev Decode (inr (kRuntimeObject (Sample.widget "ns1" "a")))] [] eq_refl eq_refl) as [_ Hok].
  destruct (Hfail (Errorf "couldn't identify object" []) eq_refl) as [Hrun _].
  destruct (Hok eq_refl) as (_ & _ & Hs).
  split; [now rewrite Hrun | exact Hs].
Defined.

(** X6: when the delete hooks have all passed -- every registered one has
    then been called -- [delete] asks the storage to delete the key of the
    named context.  An error of that delete, [ErrNotFound] included, is
    returned as it is, not as a status error 404, and no status is written;
    without an error the request ends with [NoContent(204)]. *)
Theorem delete_outcomes {W : Type} (env : Env W) (w w1 : W)
    (rh : resourceHandlerImpl) (rc : ResourceContext) (name : string) (tr1 : list Event) :
  run env (runNamedHooks (deleteHooks rh) (namedResourceContextImpl rc name)) w
  = mkRun (Returned None) w1 tr1 ->
  hooksCalled tr1 = List.map refNamedHook (deleteHooks rh) /\
  (forall err, fst (env _ (StorageDelete (ctxObjectKey rc name)) w1) = Some err ->
     run env (delete_ rh (ctx (namedResourceContextImpl rc name))) w
     = mkRun (Returned (Some err)) (snd (env _ (StorageDelete (ctxObjectKey rc name)) w1))
             (tr1 ++ [Ev (StorageDelete (ctxObjectKey rc name)) (Some err)]) /\
     noneOf isResponseWrite
       (trace (run env (delete_ rh (ctx (namedResourceContextImpl rc name))) w))) /\
  (fst (env _ (StorageDelete (ctxObjectKey rc name)) w1) = None ->
     run env (delete_ rh (ctx (namedResourceContextImpl rc name))) w
     = mkRun (Returned (fst (env _ (NoContent StatusNoContent)
                               (snd (env _ (StorageDelete (ctxObjectKey rc name)) w1)))))
             (snd (env _ (NoContent StatusNoContent)
                     (snd (env _ (StorageDelete (ctxObjectKey rc name)) w1))))
             (tr1 ++ [Ev (StorageDelete (ctxObjectKey rc name)) None;
                      Ev (NoContent StatusNoContent)
                         (fst (env _ (NoContent StatusNoContent)
                                 (snd (env _ (StorageDelete (ctxObjectKey rc name)) w1))))])).
Proof.
  intros Hhooks.
  split.
  { pose proof (runNamedHooks_all_called env (namedResourceContextImpl rc name)
                  (deleteHooks rh) w) as H.
    rewrite Hhooks in H. now apply H. }
  destruct (runNamedHooks_only_hooks env (namedResourceContextImpl rc name)
              (deleteHooks rh) w) as [_ Hq].
  rewrite Hhooks in Hq. cbn [trace] in Hq.
  split.
  - intros err Hd.
    assert (Hrun : run env (delete_ rh (ctx (namedResourceContextImpl rc name))) w
      = mkRun (Returned (Some err)) (snd (env _ (StorageDelete (ctxObjectKey rc name)) w1))
              (tr1 ++ [Ev (StorageDelete (ctxObjectKey rc name)) (Some err)])).
    { unfold delete_. rewrite run_bind, Hhooks. unfold andThen. cbn [outcome world trace].
      cbn [bind trigger]. rewrite run_call, Hd. reflexivity. }
    split; [exact Hrun|]. rewrite Hrun. cbn [trace]. apply noneOf_app; [exact Hq | reflexivity].
  - intros Hd. unfold delete_. rewrite run_bind, Hhooks. unfold andThen.
    cbn [outcome world trace]. cbn [bind trigger]. rewrite run_call, Hd. reflexivity.
Qed.

Lemma delete_outcomes_witness :
  outcome (run Ref.plain
             (delete_ Sample.widgetsHandler
                (ctx (namedResourceContextImpl (Sample.widgetsIn "ns1") "missing")))
             (Sample.asking Sample.oneWidget))
  = Returned (Some ErrNotFound) /\
  Ref.store (world (run Ref.plain
             (delete_ Sample.widgetsHandler
                (ctx (namedResourceContextImpl (Sample.widgetsIn "ns1") "a")))
             (Sample.asking Sample.oneWidget)))
  = ∅.
Proof.
  destruct (delete_outcomes Ref.plain (Sample.asking Sample.oneWidget)
              (Sample.asking Sample.oneWidget) Sample.widgetsHandler
              (Sample.widgetsIn "ns1") "missing" [] eq_refl) as (_ & Hmiss & _).
  destruct (delete_outcomes Ref.plain (Sample.asking Sample.oneWidget)
              (Sample.asking Sample.oneWidget) Sample.widgetsHandler
              (Sample.widgetsIn "ns1") "a" [] eq_refl) as (_ & _ & Hhit).
  destruct (Hmiss ErrNotFound eq_refl) as [-> _].
  rewrite (Hhit eq_refl). split; reflexivity.
Defined.

(** ** More on patching *)

Lemma returnFromStorage_no_validation {W : Type} (env : Env W) (w : W)
    (rc : ResourceContext) (key : ObjectKey) :
  noneOf isHookEvent (trace (run env (returnFromStorage rc key) w)) /\
  noneOf isValidateEvent (trace (run env (returnFromStorage rc key) w)) /\
  noneOf isWarningEvent (trace (run env (returnFromStorage rc key) w)).
Proof.
  unfold returnFromStorage, JSONIndent, ShouldDefault, noneOf. simpl.
  destruct (fst (env _ (StorageGet key) w)) as [err | obj]; simpl.
  - now destruct (errors_Is err NotFound).
  - destruct (_ || _); simpl; [|auto].
    now destruct (fst (fst (env _ (Default _) _))).
Qed.

(** X7: [patch] goes around validation and hooks: in no run does it call a
    hook or the [Validate] of an object, or add a [Warning] header. *)
Theorem patch_skips_hooks_and_validation {W : Type} (env : Env W) (w : W)
    (rh : resourceHandlerImpl) (rc : ResourceContext) :
  noneOf isHookEvent (trace (run env (patch rh (ctx rc)) w)) /\
  noneOf isValidateEvent (trace (run env (patch rh (ctx rc)) w)) /\
  noneOf isWarningEvent (trace (run env (patch rh (ctx rc)) w)).
Proof.
  unfold patch, DecodePartialObjects. cbn [bind trigger]. rewrite run_call. cbn [trace].
  destruct (fst (env _ ReadAllBody w)) as [err | p]; [now repeat split|].
  rewrite run_call. cbn [trace].
  destruct (fst (env _ (DecodePartialFrames p) (snd (env _ ReadAllBody w))))
    as [err | [|po [|po' objs]]]; cbn [negb andb List.length Nat.eqb bind run trace];
    [now repeat split | now repeat split | | now repeat split].
  destruct (ObjectKeyFor _) as [err | key]; [now repeat split|].
  cbn [bind trigger]. rewrite run_call. cbn [trace].
  destruct (fst (env _ (StoragePatch key p) _)) as [err|]; [now repeat split|].
  destruct (returnFromStorage_no_validation env
              (snd (env _ (StoragePatch key p) (snd (env _ (DecodePartialFrames p)
                 (snd (env _ ReadAllBody w)))))) rc key) as (H1 & H2 & H3).
  unfold noneOf in *. cbn [List.filter isHookEvent isHookEff isValidateEvent isWarningEvent].
  now rewrite H1, H2, H3.
Qed.

(** X8: the storage calls of a [patch] are none, and the request ends with
    an error; or one patch that failed, whose error is returned as it is;
    or one patch that succeeded followed by one get of the same key, the
    re-read of the patched object. *)
Theorem patch_storage_calls {W : Type} (env : Env W) (w : W)
    (rh : resourceHandlerImpl) (rc : ResourceContext) :
  (storageEvents (trace (run env (patch rh (ctx rc)) w)) = [] /\
   exists e, outcome (run env (patch rh (ctx rc)) w) = Returned (Some e)) \/
  (exists key p err,
     storageEvents (trace (run env (patch rh (ctx rc)) w))
     = [Ev (StoragePatch key p) (Some err)] /\
     outcome (run env (patch rh (ctx rc)) w) = Returned (Some err)) \/
  (exists key p w',
     storageEvents (trace (run env (patch rh (ctx rc)) w))
     = [Ev (StoragePatch key p) None; Ev (StorageGet key) (fst (env _ (StorageGet key) w'))]).
Proof.
  unfold patch, DecodePartialObjects. cbn [bind trigger]. rewrite run_call.
  cbn [trace outcome].
  destruct (fst (env _ ReadAllBody w)) as [err | p].
  { left. split; [reflexivity | eexists; reflexivity]. }
  rewrite run_call. cbn [trace outcome].
  destruct (fst (env _ (DecodePartialFrames p) (snd (env _ ReadAllBody w))))
    as [err | [|po [|po' objs]]]; cbn [negb andb List.length Nat.eqb bind run trace outcome];
    try (left; split; [reflexivity | eexists; reflexivity]).
  destruct (ObjectKeyFor _) as [err | key].
  { left. split; [reflexivity | eexists; reflexivity]. }
  cbn [bind trigger]. rewrite run_call. cbn [trace outcome].
  destruct (fst (env _ (StoragePatch key p) _)) as [err|].
  { right. left. exists key, p, err. split; reflexivity. }
  right. right. exists key, p. eexists.
  unfold storageEvents. cbn [List.filter isStorageEvent isStorageEff]. do 1 f_equal.
  apply (returnFromStorage_storage env _ rc key).
Qed.

(** ** Listing *)

Lemma listCalls_app (tr1 tr2 : list Event) :
  listCalls (tr1 ++ tr2) = listCalls tr1 ++ listCalls tr2.
Proof.
  induction tr1 as [|[X e x] tr1 IH]; [reflexivity|].
  destruct e; simpl; now rewrite IH.
Qed.

Lemma listCalls_quiet (tr : list Event) : noneOf isStorageEvent tr -> listCalls tr = [].
Proof.
  unfold noneOf. induction tr as [|[X e x] tr IH]; [reflexivity|].
  destruct e; simpl; try discriminate; exact IH.
Qed.

Lemma list_routes (parent : echoGroup) (k : GroupVersionKindResource) (r : Route) :
  groupMiddleware parent = [] ->
  In r (snd (newResourceHandler parent k)) -> handler r = hList ->
  middleware r = [mwResourceContext k] \/
  (Namespaced k = true /\ middleware r = [mwResourceContext k; mwNamespacedResourceContext]).
Proof.
  intros Hmw Hin Hh. unfold newResourceHandler in Hin.
  destruct (Namespaced k), (Singleton k); simpl in Hin;
    repeat (destruct Hin as [<- | Hin];
            [try discriminate Hh; simpl; rewrite Hmw; auto|]);
    contradiction.
Qed.

Lemma list_run {W : Type} (env : Env W) (w : W) (rh : resourceHandlerImpl)
    (rc : ResourceContext) :
  noneOf isStorageWrite (trace (run env (list_ rh (ctx rc)) w)) /\
  noneOf isHookEvent (trace (run env (list_ rh (ctx rc)) w)) /\
  listCalls (trace (run env (list_ rh (ctx rc)) w))
  = [(ctxKindKey rc,
      match asNamespacedResourceContext rc with
      | Some ns => [mkNamespaceFilter ns]
      | None => []
      end)].
Proof.
  unfold list_. cbn [bind trigger]. rewrite run_call. cbn [trace listCalls].
  destruct (fst (env _ (StorageList _ _) w)) as [err | items]; [now repeat split|].
  destruct (JSONIndent_quiet env (snd (env _ (StorageList (ctxKindKey rc)
              match asNamespacedResourceContext rc with
              | Some ns => [mkNamespaceFilter ns]
              | None => []
              end) w)) rc StatusOK (bodyList items)) as [Hs Hh].
  unfold noneOf in *. cbn [List.filter isStorageWrite isStorageWriteEff isHookEvent isHookEff].
  rewrite Hh, (storage_quiet_no_write _ Hs), (listCalls_quiet _ Hs). now repeat split.
Qed.

(** X9: on the list routes that [newResourceHandler] registers, a request
    writes nothing to the storage and calls no hook.  The route on
    [/resource/] lists the kind without a filter -- for a namespaced kind,
    all namespaces.  The route under [/namespaces/:namespace/] refuses an
    empty namespace before the storage is asked, and otherwise lists the
    kind with the one filter for the namespace of the path.  No filter that
    reaches the storage has an empty namespace, so [Filter] returns no error
    on any of them. *)
Theorem list_on_routes {W : Type} (env : Env W) (w : W) (parent : echoGroup)
    (k : GroupVersionKindResource) (rh : resourceHandlerImpl) (r : Route)
    (ErrInvalidFilterParams : error) (obj : Object) :
  groupMiddleware parent = [] ->
  In r (snd (newResourceHandler parent k)) -> handler r = hList ->
  noneOf isStorageWrite (trace (run env (serve rh r storageContextImpl) w)) /\
  noneOf isHookEvent (trace (run env (serve rh r storageContextImpl) w)) /\
  (middleware r = [mwResourceContext k] ->
   listCalls (trace (run env (serve rh r storageContextImpl) w))
   = [(NewKindKey (GVK k), [])]) /\
  (middleware r = [mwResourceContext k; mwNamespacedResourceContext] ->
   listCalls (trace (run env (serve rh r storageContextImpl) w))
   = if isEmpty (fst (env _ (Param "namespace") w)) then []
     else [(NewKindKey (GVK k), [mkNamespaceFilter (fst (env _ (Param "namespace") w))])]) /\
  Forall (fun c => Forall (fun f => snd (Filter ErrInvalidFilterParams f obj) = None) (snd c))
         (listCalls (trace (run env (serve rh r storageContextImpl) w))).
Proof.
  intros Hmw Hin Hh.
  destruct (list_routes parent k r Hmw Hin Hh) as [Hm | [Hns Hm]];
    unfold serve; rewrite Hm, Hh; cbn [List.fold_right middlewareFunc handlerFunc].
  - unfold resourceContextMiddleware.
    destruct (list_run env w rh (resourceContextImpl k)) as (H1 & H2 & H3).
    rewrite H3. cbn [asNamespacedResourceContext].
    split; [exact H1|]. split; [exact H2|]. split; [reflexivity|].
    split; [discriminate|]. repeat constructor.
  - unfold resourceContextMiddleware, namespacedResourceContextMiddleware.
    cbn [bind trigger ctxResource]. rewrite run_call, Hns. cbn [negb trace listCalls].
    destruct (isEmpty (fst (env _ (Param "namespace") w))) eqn:He.
    + simpl. repeat split; try reflexivity; try discriminate. constructor.
    + destruct (list_run env (snd (env _ (Param "namespace") w)) rh
                  (namespacedResourceContextImpl (resourceContextImpl k)
                     (fst (env _ (Param "namespace") w)))) as (H1 & H2 & H3).
      rewrite H3. cbn [asNamespacedResourceContext].
      unfold noneOf in *. cbn [List.filter isStorageWrite isStorageWriteEff isHookEvent isHookEff].
      split; [exact H1|]. split; [exact H2|]. split; [discriminate|]. split; [reflexivity|].
      repeat constructor. unfold Filter. cbn [filterNamespace].
      destruct (fst (env _ (Param "namespace") w)); [discriminate He | reflexivity].
Qed.

Lemma list_on_routes_witness :
  listCalls (trace (run Ref.plain
    (serve Sample.widgetsHandler
       (mkRoute "GET" "/apis/g/v1/namespaces/:namespace/widgets/" hList
          [mwResourceContext Sample.widgets; mwNamespacedResourceContext])
       storageContextImpl)
    (Ref.request [("namespace", "ns1")] [] (inl ErrNotFound) (inl ErrNotFound)
       (inl ErrNotFound) Sample.oneWidget)))
  = [(Sample.widgetGVK, [mkNamespaceFilter "ns1"])] /\
  listCalls (trace (run Ref.plain
    (serve Sample.widgetsHandler
       (mkRoute "GET" "/apis/g/v1/widgets/" hList [mwResourceContext Sample.widgets])
       storageContextImpl)
    (Sample.asking Sample.oneWidget)))
  = [(Sample.widgetGVK, [])].
Proof.
  destruct (list_on_routes Ref.plain
    (Ref.request [("namespace", "ns1")] [] (inl ErrNotFound) (inl ErrNotFound)
       (inl ErrNotFound) Sample.oneWidget)
    Sample.apiGroup Sample.widgets Sample.widgetsHandler
    (mkRoute "GET" "/apis/g/v1/namespaces/:namespace/widgets/" hList
       [mwResourceContext Sample.widgets; mwNamespacedResourceContext])
    ErrNotFound (Sample.widget "ns1" "a")) as (_ & _ & _ & Hns & _).
  { reflexivity. }
  { simpl. do 4 right. left. reflexivity. }
  { reflexivity. }
  destruct (list_on_routes Ref.plain (Sample.asking Sample.oneWidget)
    Sample.apiGroup Sample.widgets Sample.widgetsHandler
    (mkRoute "GET" "/apis/g/v1/widgets/" hList [mwResourceContext Sample.widgets])
    ErrNotFound (Sample.widget "ns1" "a")) as (_ & _ & Hall & _).
  { reflexivity. }
  { simpl. left. reflexivity. }
  { reflexivity. }
  split; [exact (Hns eq_refl) | exact (Hall eq_refl)].
Defined.

(** ** No panic on the registered routes *)

Lemma returnFromStorage_returns {W : Type} (env : Env W) (w : W)
    (rc : ResourceContext) (key : ObjectKey) :
  returns (run env (returnFromStorage rc key) w).
Proof.
  unfold returnFromStorage. cbn [bind trigger]. apply returns_call. intros [err | obj] w'.
  - destruct (errors_Is err NotFound); apply returns_ret.
  - apply JSONIndent_returns.
Qed.

(** On a resource context every handler but [get] and [delete] returns. *)
Lemma handler_returns_on_resource {W : Type} (env : Env W) (w : W)
    (rh : resourceHandlerImpl) (h : HandlerName) (rc : ResourceContext) :
  h <> hGet -> h <> hDelete -> returns (run env (handlerFunc rh h (ctx rc)) w).
Proof.
  intros Hg Hd. destruct h; try contradiction; cbn [handlerFunc].
  - unfold list_. cbn [bind trigger]. apply returns_call. intros [err | items] w'.
    + apply returns_ret.
    + apply JSONIndent_returns.
  - unfold create. apply returns_bind; [apply decodeObject_returns|].
    intros [err | obj] w'; [apply returns_ret|].
    apply returns_bind; [apply runObjectHooks_returns|].
    intros [[e|] o] w''; [apply returns_ret|].
    cbn [bind trigger]. apply returns_call. intros [e|] w3.
    + destruct (errors_Is e AlreadyExists); apply returns_ret.
    + apply JSONIndent_returns.
  - unfold patch, DecodePartialObjects. cbn [bind trigger]. apply returns_call.
    intros [err | p] w'; [apply returns_ret|].
    cbn [bind trigger]. apply returns_call.
    intros [err | [|po [|po' objs]]] w''; cbn [negb andb List.length Nat.eqb bind];
      try apply returns_ret.
    destruct (ObjectKeyFor _) as [err | key]; [apply returns_ret|].
    cbn [bind trigger]. apply returns_call. intros [e|] w3; [apply returns_ret|].
    apply returnFromStorage_returns.
  - unfold update. apply returns_bind; [apply decodeObject_returns|].
    intros [err | obj] w'; [apply returns_ret|].
    apply returns_bind; [apply runObjectHooks_returns|].
    intros [[e|] o] w''; [apply returns_ret|].
    cbn [bind trigger]. apply returns_call. intros [e|] w3; [apply returns_ret|].
    apply JSONIndent_returns.
  - unfold getSingleton. apply returnFromStorage_returns.
Qed.

(** On a named context [get] and [delete] return. *)
Lemma handler_returns_on_named {W : Type} (env : Env W) (w : W)
    (rh : resourceHandlerImpl) (h : HandlerName) (rc : ResourceContext) (name : string) :
  h = hGet \/ h = hDelete ->
  returns (run env (handlerFunc rh h (ctx (namedResourceContextImpl rc name))) w).
Proof.
  intros [-> | ->]; cbn [handlerFunc].
  - unfold get. apply returnFromStorage_returns.
  - unfold delete_. apply returns_bind; [apply runNamedHooks_returns|].
    intros [e|] w'; [apply returns_ret|].
    cbn [bind trigger]. apply returns_call. intros [e|] w''; [apply returns_ret|].
    apply returns_call. intros ? ?. apply returns_ret.
Qed.

Lemma named_middleware_returns {W : Type} (env : Env W) (w : W) (next : HandlerFunc)
    (rc : ResourceContext) :
  (forall name w', returns (run env (next (ctx (namedResourceContextImpl rc name))) w')) ->
  returns (run env (namedResourceContextMiddleware next (ctx rc)) w).
Proof.
  intros Hn. unfold namedResourceContextMiddleware. cbn [bind trigger].
  apply returns_call. intros name w'. destruct (isEmpty name); [apply returns_ret | apply Hn].
Qed.

Lemma namespaced_middleware_returns {W : Type} (env : Env W) (w : W) (next : HandlerFunc)
    (rc : ResourceContext) :
  (forall ns w', returns (run env (next (ctx (namespacedResourceContextImpl rc ns))) w')) ->
  returns (run env (namespacedResourceContextMiddleware next (ctx rc)) w).
Proof.
  intros Hn. unfold namespacedResourceContextMiddleware. cbn [bind trigger].
  apply returns_call. intros ns w'. destruct (negb _); [apply returns_ret|].
  destruct (isEmpty ns); [apply returns_ret | apply Hn].
Qed.

(** X10: a request on any route that [newResourceHandler] registers (under a
    group without middlewares of its own, behind the storage middleware)
    never panics: every type assertion of the middlewares and handlers finds
    the context it asks for, whatever the request, the storage and the hooks
    do. *)
Theorem registered_routes_never_panic {W : Type} (env : Env W) (w : W)
    (parent : echoGroup) (k : GroupVersionKindResource) (rh : resourceHandlerImpl)
    (r : Route) :
  groupMiddleware parent = [] ->
  In r (snd (newResourceHandler parent k)) ->
  returns (run env (serve rh r storageContextImpl) w).
Proof.
  intros Hmw Hin. unfold newResourceHandler in Hin. unfold serve.
  destruct (Namespaced k), (Singleton k); simpl in Hin;
    repeat (destruct Hin as [<- | Hin];
      [unfold Add, Group; cbn [handler middleware groupMiddleware]; rewrite Hmw;
       cbn [List.app List.fold_right middlewareFunc];
       unfold resourceContextMiddleware;
       try (apply namespaced_middleware_returns; intros ns w');
       try (apply named_middleware_returns; intros name w'');
       first [ apply handler_returns_on_named; auto; fail
             | apply handler_returns_on_resource; discriminate ] |]);
    contradiction.
Qed.

Lemma registered_routes_never_panic_witness :
  returns (run Ref.plain
    (serve Sample.widgetsHandler
       (mkRoute "DELETE" "/apis/g/v1/namespaces/:namespace/widgets/:name/" hDelete
          [mwResourceContext Sample.widgets; mwNamespacedResourceContext; mwNamedResourceContext])
       storageContextImpl)
    (Ref.request [("namespace", "ns1"); ("name", "a")] [] (inl ErrNotFound) (inl ErrNotFound)
       (inl ErrNotFound) Sample.oneWidget)).
Proof.
  apply (registered_routes_never_panic Ref.plain _ Sample.apiGroup Sample.widgets).
  - reflexivity.
  - simpl. do 6 right. left. reflexivity.
Defined.

(** ** The named routes *)

Lemma named_routes (parent : echoGroup) (k : GroupVersionKindResource) (r : Route) :
  groupMiddleware parent = [] ->
  In r (snd (newResourceHandler parent k)) -> handler r = hGet \/ handler r = hDelete ->
  Singleton k = false /\
  ((Namespaced k = false /\
    middleware r = [mwResourceContext k; mwNamedResourceContext]) \/
   (Namespaced k = true /\
    middleware r = [mwResourceContext k; mwNamespacedResourceContext; mwNamedResourceContext])).
Proof.
  intros Hmw Hin Hh. unfold newResourceHandler in Hin.
  destruct (Namespaced k), (Singleton k); simpl in Hin;
    repeat (destruct Hin as [<- | Hin];
            [try (destruct Hh as [Hh | Hh]; discriminate Hh); simpl; rewrite Hmw; auto|]);
    contradiction.
Qed.

(** X11: on the routes to [get] and [delete], a request whose [name]
    parameter is empty is refused with a status error 400 by the
    middlewares; the handler is not run, so the storage is not asked and no
    delete hook is called. *)
Theorem nameless_request_refused {W : Type} (env : Env W) (w : W) (parent : echoGroup)
    (k : GroupVersionKindResource) (rh : resourceHandlerImpl) (r : Route) :
  groupMiddleware parent = [] ->
  In r (snd (newResourceHandler parent k)) -> handler r = hGet \/ handler r = hDelete ->
  (if Namespaced k
   then fst (env _ (Param "name") (snd (env _ (Param "namespace") w))) = ""
   else fst (env _ (Param "name") w) = "") ->
  (exists msg, outcome (run env (serve rh r storageContextImpl) w)
               = Returned (Some (statusErrorImpl 400 msg))) /\
  noneOf isStorageEvent (trace (run env (serve rh r storageContextImpl) w)) /\
  noneOf isHookEvent (trace (run env (serve rh r storageContextImpl) w)).
Proof.
  intros Hmw Hin Hh Hname.
  destruct (named_routes parent k r Hmw Hin Hh) as (_ & [[Hns Hm] | [Hns Hm]]);
    rewrite Hns in Hname;
    unfold serve; rewrite Hm; cbn [List.fold_right middlewareFunc];
    unfold resourceContextMiddleware, namespacedResourceContextMiddleware,
      namedResourceContextMiddleware; cbn [bind trigger ctxResource].
  - rewrite run_call, Hname. cbn [isEmpty run outcome trace].
    repeat split; try reflexivity. eexists; reflexivity.
  - rewrite run_call, Hns. cbn [negb outcome trace].
    destruct (isEmpty (fst (env _ (Param "namespace") w))).
    + cbn [run outcome trace]. repeat split; try reflexivity. eexists; reflexivity.
    + cbn [bind trigger]. rewrite run_call, Hname. cbn [isEmpty run outcome trace].
      repeat split; try reflexivity. eexists; reflexivity.
Qed.

Lemma nameless_request_refused_witness :
  exists msg,
    outcome (run Ref.plain
      (serve Sample.projectsHandler
         (mkRoute "DELETE" "/apis/g/v1/projects/:name/" hDelete
            [mwResourceContext Sample.projects; mwNamedResourceContext])
         storageContextImpl)
      (Sample.asking ∅))
    = Returned (Some (statusErrorImpl 400 msg)).
Proof.
  destruct (nameless_request_refused Ref.plain (Sample.asking ∅) Sample.apiGroup
    Sample.projects Sample.projectsHandler
    (mkRoute "DELETE" "/apis/g/v1/projects/:name/" hDelete
       [mwResourceContext Sample.projects; mwNamedResourceContext])) as (Hmsg & _).
  - reflexivity.
  - simpl. do 5 right. left. reflexivity.
  - right. reflexivity.
  - reflexivity.
  - exact Hmsg.
Defined.

(** X12: on the route to [get] of a namespaced kind, a request with
    non-empty [namespace] and [name] parameters asks the storage once, for
    the key of the kind with the identifier [namespace-name]; on the route
    of a cluster-scoped kind, for the key with the identifier [name]. *)
Theorem get_route_reads_the_key {W : Type} (env : Env W) (w : W) (parent : echoGroup)
    (k : GroupVersionKindResource) (rh : resourceHandlerImpl) (r : Route) :
  groupMiddleware parent = [] ->
  In r (snd (newResourceHandler parent k)) -> handler r = hGet ->
  (Namespaced k = false ->
   fst (env _ (Param "name") w) <> "" ->
   storageEvents (trace (run env (serve rh r storageContextImpl) w))
   = [Ev (StorageGet (NewObjectKey (GVK k) (fst (env _ (Param "name") w))))
         (fst (env _ (StorageGet (NewObjectKey (GVK k) (fst (env _ (Param "name") w))))
                 (snd (env _ (Param "name") w))))]) /\
  (Namespaced k = true ->
   fst (env _ (Param "namespace") w) <> "" ->
   fst (env _ (Param "name") (snd (env _ (Param "namespace") w))) <> "" ->
   storageEvents (trace (run env (serve rh r storageContextImpl) w))
   = [Ev (StorageGet
            (NewObjectKey (GVK k)
               (fst (env _ (Param "namespace") w) +:+ "-" +:+
                fst (env _ (Param "name") (snd (env _ (Param "namespace") w))))))
         (fst (env _ (StorageGet
            (NewObjectKey (GVK k)
               (fst (env _ (Param "namespace") w) +:+ "-" +:+
                fst (env _ (Param "name") (snd (env _ (Param "namespace") w))))))
            (snd (env _ (Param "name") (snd (env _ (Param "namespace") w))))))]).
Proof.
  intros Hmw Hin Hh.
  destruct (named_routes parent k r Hmw Hin (or_introl Hh)) as (_ & [[Hns Hm] | [Hns Hm]]);
    unfold serve; rewrite Hm, Hh; cbn [List.fold_right middlewareFunc handlerFunc];
    unfold resourceContextMiddleware, namespacedResourceContextMiddleware,
      namedResourceContextMiddleware; cbn [bind trigger ctxResource]; split;
    try (rewrite Hns; discriminate).
  - intros _ Hname. rewrite run_call. rewrite (isEmpty_false _ Hname).
    unfold storageEvents. cbn [trace List.filter isStorageEvent isStorageEff].
    apply (returnFromStorage_storage env _ _ _).
  - intros _ Hnamespace Hname. rewrite run_call, Hns. cbn [negb trace].
    rewrite (isEmpty_false _ Hnamespace). cbn [bind trigger]. rewrite run_call.
    rewrite (isEmpty_false _ Hname).
    unfold storageEvents. cbn [trace List.filter isStorageEvent isStorageEff].
    apply (returnFromStorage_storage env _ _ _).
Qed.

Lemma get_route_reads_the_key_witness :
  storageEvents (trace (run Ref.plain
    (serve Sample.widgetsHandler
       (mkRoute "GET" "/apis/g/v1/namespaces/:namespace/widgets/:name/" hGet
          [mwResourceContext Sample.widgets; mwNamespacedResourceContext; mwNamedResourceContext])
       storageContextImpl)
    (Ref.request [("namespace", "ns1"); ("name", "a")] [] (inl ErrNotFound) (inl ErrNotFound)
       (inl ErrNotFound) Sample.oneWidget)))
  = [Ev (StorageGet Sample.widgetKey) (inr (Sample.withContent (Sample.widget "ns1" "a") "old"))].
Proof.
  destruct (get_route_reads_the_key Ref.plain
    (Ref.request [("namespace", "ns1"); ("name", "a")] [] (inl ErrNotFound) (inl ErrNotFound)
       (inl ErrNotFound) Sample.oneWidget)
    Sample.apiGroup Sample.widgets Sample.widgetsHandler
    (mkRoute "GET" "/apis/g/v1/namespaces/:namespace/widgets/:name/" hGet
       [mwResourceContext Sample.widgets; mwNamespacedResourceContext; mwNamedResourceContext]))
    as [_ H].
  - reflexivity.
  - simpl. do 5 right. left. reflexivity.
  - reflexivity.
  - exact (H eq_refl ltac:(discriminate) ltac:(discriminate)).
Defined.

(** ** Writing a response *)

(** X13: [JSONIndent] defaults the response unless the request carries a
    [default] header that is neither empty nor [true].  With defaulting off
    the defaulter is not called and the object is encoded as given.  With
    defaulting on the defaulter is given the object, or the items of the
    list; if it fails, its error is returned and neither status nor body is
    written; otherwise the status is written once and the defaulted object
    is encoded, for the group and version of the resource. *)
Theorem JSONIndent_defaulting {W : Type} (env : Env W) (w : W) (rc : ResourceContext)
    (code : Z) (obj : Body) :
  let h := fst (env _ (RequestHeaderGet "default") w) in
  let w1 := snd (env _ (RequestHeaderGet "default") w) in
  let objs := match obj with bodyObject o => [o] | bodyList items => items end in
  let gv := GVK (ctxResource rc) in
  (h <> "" -> h <> "true" ->
   trace (run env (JSONIndent rc code obj) w)
   = [Ev (RequestHeaderGet "default") h; Ev (WriteHeader code) tt;
      Ev (EncodeForGroupVersion obj (gvkGroup gv) (gvkVersion gv))
         (fst (env _ (EncodeForGroupVersion obj (gvkGroup gv) (gvkVersion gv))
                 (snd (env _ (WriteHeader code) w1))))] /\
   outcome (run env (JSONIndent rc code obj) w)
   = Returned (fst (env _ (EncodeForGroupVersion obj (gvkGroup gv) (gvkVersion gv))
                      (snd (env _ (WriteHeader code) w1))))) /\
  (h = "" \/ h = "true" ->
   (forall e, fst (fst (env _ (Default objs) w1)) = Some e ->
      run env (JSONIndent rc code obj) w
      = mkRun (Returned (Some e)) (snd (env _ (Default objs) w1))
              [Ev (RequestHeaderGet "default") h;
               Ev (Default objs) (fst (env _ (Default objs) w1))]) /\
   (fst (fst (env _ (Default objs) w1)) = None ->
      let defaulted :=
        match obj with
        | bodyObject o => bodyObject (List.hd o (snd (fst (env _ (Default objs) w1))))
        | bodyList _ => bodyList (snd (fst (env _ (Default objs) w1)))
        end in
      List.filter isResponseWrite (trace (run env (JSONIndent rc code obj) w))
      = [Ev (WriteHeader code) tt;
         Ev (EncodeForGroupVersion defaulted (gvkGroup gv) (gvkVersion gv))
            (fst (env _ (EncodeForGroupVersion defaulted (gvkGroup gv) (gvkVersion gv))
                    (snd (env _ (WriteHeader code) (snd (env _ (Default objs) w1))))))] /\
      List.filter isDefaultEvent (trace (run env (JSONIndent rc code obj) w))
      = [Ev (Default objs) (fst (env _ (Default objs) w1))])).
Proof.
  cbv zeta. unfold JSONIndent, ShouldDefault. cbn [bind trigger]. rewrite !run_call.
  cbn [outcome trace world].
  split.
  - intros Hne Htrue.
    assert (Hoff : Nat.eqb (String.length (fst (env _ (RequestHeaderGet "default") w))) 0
                   || String.eqb (fst (env _ (RequestHeaderGet "default") w)) "true" = false).
    { apply orb_false_intro.
      - destruct (fst (env _ (RequestHeaderGet "default") w)); [congruence | reflexivity].
      - now apply String.eqb_neq. }
    rewrite Hoff. cbn [bind trigger]. rewrite !run_call. cbn [run outcome trace].
    destruct (fst (env _ (WriteHeader code) _)). split; reflexivity.
  - intros Hon.
    assert (Hon' : Nat.eqb (String.length (fst (env _ (RequestHeaderGet "default") w))) 0
                   || String.eqb (fst (env _ (RequestHeaderGet "default") w)) "true" = true).
    { destruct Hon as [-> | ->]; reflexivity. }
    rewrite Hon'. cbn [bind trigger]. split.
    + intros e He. rewrite run_call, He. reflexivity.
    + intros Hok. rewrite run_call, Hok. cbn [bind trigger]. rewrite !run_call.
      cbn [run outcome trace List.filter isResponseWrite isDefaultEvent].
      destruct (fst (env _ (WriteHeader code) _)). split; reflexivity.
Qed.

Lemma JSONIndent_defaulting_witness :
  Ref.written (world (run Ref.plain
    (JSONIndent (resourceContextImpl Sample.widgets) 200 (bodyObject (Sample.widget "ns1" "a")))
    (Ref.request [] [("default", "false")] (inl ErrNotFound) (inl ErrNotFound)
       (inl ErrNotFound) ∅)))
  = [bodyObject (Sample.widget "ns1" "a")] /\
  List.length (trace (run Ref.plain
    (JSONIndent (resourceContextImpl Sample.widgets) 200 (bodyObject (Sample.widget "ns1" "a")))
    (Ref.request [] [("default", "false")] (inl ErrNotFound) (inl ErrNotFound)
       (inl ErrNotFound) ∅))) = 3.
Proof.
  destruct (JSONIndent_defaulting Ref.plain
    (Ref.request [] [("default", "false")] (inl ErrNotFound) (inl ErrNotFound)
       (inl ErrNotFound) ∅)
    (resourceContextImpl Sample.widgets) 200 (bodyObject (Sample.widget "ns1" "a")))
    as [Hoff _].
  destruct Hoff as [Htr _]; [discriminate | discriminate |].
  split; [reflexivity | now rewrite Htr].
Defined.

(** ** Validated objects and their identifiers *)

(** X14: the identifier under which the storage files an object agrees with
    the path it was posted to.  On a handler of a non-singleton kind, an
    object that is not a singleton and that [decodeObject] lets through on
    a namespaced context (with a non-empty namespace) is namespaced, and
    [Identify] gives it the identifier of the key that a named context for
    the same namespace and the name of the object resolves; likewise on a
    cluster-scoped context for an object that declares itself not
    namespaced. *)
Theorem validated_object_is_addressable {W : Type} (env : Env W) (w : W)
    (rh : resourceHandlerImpl) (rc : ResourceContext) (k : GroupVersionKindResource)
    (ns : string) (o : Object) :
  Singleton (gvkr rh) = false -> IsSingleton o = false ->
  (ns <> "" ->
   outcome (run env (decodeObject rh (namespacedResourceContextImpl rc ns)) w)
   = Returned (inr o) ->
   IsNamespaced o = true /\
   Identify o
   = Some (okIdentifier (ctxObjectKey (namespacedResourceContextImpl rc ns) (GetName o)))) /\
  (objNamespaced o = Some false ->
   outcome (run env (decodeObject rh (resourceContextImpl k)) w) = Returned (inr o) ->
   GetName o <> "" /\ GetNamespace o = "" /\
   Identify o = Some (okIdentifier (ctxObjectKey (resourceContextImpl k) (GetName o)))).
Proof.
  intros Hsing Hnots. split.
  - intros Hns Hacc.
    destruct (decodeObject_inversion env w rh _ o Hacc) as (obj & _ & Hv).
    destruct (validateBody_accepts env _ rh _ obj o Hv) as (_ & Hpath & Hmeta).
    specialize (Hpath ns eq_refl). destruct (Hmeta Hsing) as (Hname & _ & Hcluster).
    assert (Hn : IsNamespaced o = true).
    { destruct (IsNamespaced o) eqn:E; [reflexivity|].
      specialize (Hcluster eq_refl). congruence. }
    split; [exact Hn|].
    unfold Identify. rewrite Hnots. unfold IsNamespaced in Hn.
    destruct (objNamespaced o) as [[|]|]; try discriminate.
    rewrite Hpath, (isEmpty_false _ Hns), (isEmpty_false _ Hname). reflexivity.
  - intros Hdecl Hacc.
    destruct (decodeObject_inversion env w rh _ o Hacc) as (obj & _ & Hv).
    destruct (validateBody_accepts env _ rh _ obj o Hv) as (_ & _ & Hmeta).
    destruct (Hmeta Hsing) as (Hname & _ & Hcluster).
    split; [exact Hname|]. split.
    + apply Hcluster. unfold IsNamespaced. now rewrite Hdecl.
    + unfold Identify. rewrite Hnots, Hdecl. reflexivity.
Qed.

Lemma validated_object_is_addressable_witness :
  Identify (Sample.widget "ns1" "a")
  = Some (okIdentifier (ctxObjectKey (Sample.widgetsIn "ns1") "a")) /\
  Identify (Sample.project "" "p")
  = Some (okIdentifier (ctxObjectKey (resourceContextImpl Sample.projects) "p")).
Proof.
  destruct (validated_object_is_addressable Ref.plain
              (Sample.posting (Sample.widget "ns1" "a") ∅) Sample.widgetsHandler
              (resourceContextImpl Sample.widgets) Sample.widgets "ns1" (Sample.widget "ns1" "a")
              eq_refl eq_refl) as [Hns _].
  destruct (validated_object_is_addressable Ref.plain
              (Sample.posting (Sample.project "foo" "p") ∅) Sample.projectsHandler
              (resourceContextImpl Sample.projects) Sample.projects "" (Sample.project "" "p")
              eq_refl eq_refl) as [_ Hcl].
  destruct Hns as [_ H1]; [discriminate | reflexivity |].
  destruct Hcl as (_ & _ & H2); [reflexivity | reflexivity |].
  split; [exact H1 | exact H2].
Defined.

(** X15: a Go type has to declare its namespacing to be storable through a
    non-singleton handler.  An object whose type does not implement
    [Namespaced] counts as not namespaced for [validateBody], which lets it
    through only with an empty namespace (emptying it if need be), and as
    namespaced for [Identify], which then finds no identifier for it --
    unless the object declares itself a singleton, which [Identify] asks
    first: then its identifier is [singleton]. *)
Theorem undeclared_namespacing_is_unidentifiable {W : Type} (env : Env W) (w : W)
    (rh : resourceHandlerImpl) (rc : ResourceContext) (o : Object) :
  Singleton (gvkr rh) = false -> objNamespaced o = None ->
  outcome (run env (decodeObject rh rc) w) = Returned (inr o) ->
  GetNamespace o = "" /\
  Identify o = (if IsSingleton o then Some SingletonIdentifier else None).
Proof.
  intros Hsing Hundecl Hacc.
  destruct (decodeObject_inversion env w rh _ o Hacc) as (obj & _ & Hv).
  destruct (validateBody_accepts env _ rh _ obj o Hv) as (_ & _ & Hmeta).
  destruct (Hmeta Hsing) as (_ & _ & Hcluster).
  assert (He : GetNamespace o = "").
  { apply Hcluster. unfold IsNamespaced. now rewrite Hundecl. }
  split; [exact He|]. unfold Identify. rewrite Hundecl, He. now destruct (IsSingleton o).
Qed.

Lemma undeclared_namespacing_is_unidentifiable_witness :
  outcome (run Ref.plain (decodeObject Sample.projectsHandler (resourceContextImpl Sample.projects))
             (Sample.posting (More.gadget "foo" "a") ∅))
  = Returned (inr (More.gadget "" "a")) /\
  Identify (More.gadget "" "a") = None.
Proof.
  destruct (undeclared_namespacing_is_unidentifiable Ref.plain
              (Sample.posting (More.gadget "foo" "a") ∅) Sample.projectsHandler
              (resourceContextImpl Sample.projects) (More.gadget "" "a")
              eq_refl eq_refl eq_refl) as (_ & Hid).
  split; [reflexivity | exact Hid].
Defined.

(** ** Names of cassettes and clips *)

Module V1alpha1Facts.
Import V1alpha1.

Lemma digit_bound (c : ascii) (d : N) : digit c = Some d -> (d <= 9)%N.
Proof.
  unfold digit. destruct (_ && _) eqn:E; [|discriminate].
  apply andb_prop in E as [H1 H2]. apply N.leb_le in H1, H2. intros [= <-]. lia.
Qed.

Lemma digit_not_dash (c : ascii) (d : N) : digit c = Some d -> Ascii.eqb c "-" = false.
Proof.
  intros H. apply Ascii.eqb_neq. intros ->. discriminate H.
Qed.

(** One step of the loop, when the value stays within bounds. *)
Lemma parseDigits_step (maxVal : N) (c : ascii) (s : string) (n d : N) :
  digit c = Some d -> (n * 10 + d <= maxVal)%N -> (maxVal < 2 ^ 64)%N ->
  parseDigits maxVal (String c s) n = parseDigits maxVal s (n * 10 + d)%N.
Proof.
  intros Hd Hle Hmax. cbn [parseDigits]. rewrite Hd.
  change (2 ^ 64 / 10 + 1)%N with 1844674407370955162%N.
  change (2 ^ 64)%N with 18446744073709551616%N in *.
  assert (H1 : (1844674407370955162 <=? n)%N = false) by (apply N.leb_gt; lia).
  rewrite H1. rewrite N.mod_small by lia.
  assert (H2 : (n * 10 + d <? n * 10)%N = false) by (apply N.ltb_ge; lia).
  assert (H3 : (maxVal <? n * 10 + d)%N = false) by (apply N.ltb_ge; lia).
  now rewrite H2, H3.
Qed.

Lemma parseDigits_head (maxVal : N) (c : ascii) (s : string) (n v : N) :
  parseDigits maxVal (String c s) n = Some v ->
  exists d n1, digit c = Some d /\ parseDigits maxVal s n1 = Some v.
Proof.
  cbn [parseDigits]. destruct (digit c) as [d|]; [|discriminate].
  destruct (_ <=? n)%N; [discriminate|]. destruct (_ || _); [discriminate|].
  intros H. eauto.
Qed.

Lemma cassette_name_iff (idx : string) :
  isValidCassetteName idx = true <->
  exists a b c : ascii,
    idx = String a (String b (String c EmptyString)) /\
    digit a <> None /\ digit b <> None /\ digit c <> None.
Proof.
  unfold isValidCassetteName. split.
  - destruct idx as [|a [|b [|c [|x idx]]]]; cbn [String.length Nat.eqb negb]; try discriminate.
    unfold ParseUint. destruct (parseDigits _ _ 0%N) as [v|] eqn:E; [|discriminate].
    intros _. exists a, b, c. split; [reflexivity|].
    apply parseDigits_head in E as (da & n1 & Ha & E).
    apply parseDigits_head in E as (db & n2 & Hb & E).
    apply parseDigits_head in E as (dc & n3 & Hc & E).
    rewrite Ha, Hb, Hc. repeat split; discriminate.
  - intros (a & b & c & -> & Ha & Hb & Hc). cbn [String.length Nat.eqb negb].
    destruct (digit a) as [da|] eqn:Ea; [|contradiction].
    destruct (digit b) as [db|] eqn:Eb; [|contradiction].
    destruct (digit c) as [dc|] eqn:Ec; [|contradiction].
    pose proof (digit_bound a da Ea). pose proof (digit_bound b db Eb).
    pose proof (digit_bound c dc Ec).
    unfold ParseUint. change (2 ^ 16 - 1)%N with 65535%N.
    rewrite (parseDigits_step 65535 a _ 0 da Ea) by (try reflexivity; lia).
    rewrite (parseDigits_step 65535 b _ _ db Eb) by (try reflexivity; lia).
    rewrite (parseDigits_step 65535 c _ _ dc Ec) by (try reflexivity; lia).
    reflexivity.
Qed.

(** X16: a cassette name is valid exactly when it is three decimal digits;
    [000] is one. *)
Theorem isValidCassetteName_three_digits (idx : string) :
  isValidCassetteName idx = true <->
  exists a b c : ascii,
    idx = String a (String b (String c EmptyString)) /\
    digit a <> None /\ digit b <> None /\ digit c <> None.
Proof. apply cassette_name_iff. Qed.

Lemma isValidCassetteName_three_digits_witness :
  isValidCassetteName "038" = true /\ isValidCassetteName "000" = true.
Proof.
  split; apply isValidCassetteName_three_digits.
  - exists "0"%char, "3"%char, "8"%char. repeat split; discriminate.
  - exists "0"%char, "0"%char, "0"%char. repeat split; discriminate.
Defined.

Lemma Split_nonempty (s : string) (sep : ascii) : Split s sep <> [].
Proof.
  destruct s as [|c s]; cbn [Split]; [discriminate|].
  destruct (Ascii.eqb c sep); [discriminate|]. destruct (Split s sep); discriminate.
Qed.

(** A string without the separator is its own single piece. *)
Lemma Split_without (s : string) (sep : ascii) :
  Str.contains sep s = false -> Split s sep = [s].
Proof.
  induction s as [|c s IH]; [reflexivity|]. cbn [Str.contains Split].
  destruct (Ascii.eqb c sep); [discriminate|]. intros H. now rewrite (IH H).
Qed.

Lemma Split_at_first (a b : string) (sep : ascii) :
  Str.contains sep a = false -> Split (a +:+ String sep b) sep = a :: Split b sep.
Proof.
  induction a as [|c a IH]; intros H.
  - change (EmptyString +:+ String sep b) with (String sep b). cbn [Split].
    now rewrite Ascii.eqb_refl.
  - cbn [Str.contains] in H. destruct (Ascii.eqb c sep) eqn:E; [discriminate|].
    change (String c a +:+ String sep b) with (String c (a +:+ String sep b)).
    cbn [Split]. now rewrite E, (IH H).
Qed.

Lemma Split_one (s b : string) (sep : ascii) :
  Split s sep = [b] -> s = b /\ Str.contains sep s = false.
Proof.
  revert b. induction s as [|c s IH]; intros b; cbn [Split Str.contains].
  - intros [= <-]. now split.
  - destruct (Ascii.eqb c sep).
    + intros [= _ H]. now apply Split_nonempty in H.
    + destruct (Split s sep) as [|p ps] eqn:E; [now apply Split_nonempty in E|].
      intros [= <- ->]. destruct (IH p eq_refl) as [-> Hc]. now split.
Qed.

Lemma Split_two (s a b : string) (sep : ascii) :
  Split s sep = [a; b] ->
  s = a +:+ String sep b /\ Str.contains sep a = false /\ Str.contains sep b = false.
Proof.
  revert a. induction s as [|c s IH]; intros a; cbn [Split].
  - discriminate.
  - destruct (Ascii.eqb c sep) eqn:E.
    + intros [= <- H]. apply Ascii.eqb_eq in E as ->.
      destruct (Split_one s b sep H) as [-> Hc]. now repeat split.
    + destruct (Split s sep) as [|p ps] eqn:Es; [discriminate|].
      intros [= <- ->]. destruct (IH p eq_refl) as (-> & Hp & Hb).
      repeat split; [|exact Hb]. cbn [Str.contains]. now rewrite E.
Qed.

Lemma valid_cassette_name_shape (idx : string) :
  isValidCassetteName idx = true ->
  String.length idx = 3 /\ Str.contains "-" idx = false.
Proof.
  intros H. apply cassette_name_iff in H as (a & b & c & -> & Ha & Hb & Hc).
  split; [reflexivity|]. cbn [Str.contains].
  destruct (digit a) as [da|] eqn:Ea; [|contradiction].
  destruct (digit b) as [db|] eqn:Eb; [|contradiction].
  destruct (digit c) as [dc|] eqn:Ec; [|contradiction].
  now rewrite (digit_not_dash a da Ea), (digit_not_dash b db Eb), (digit_not_dash c dc Ec).
Qed.

Lemma clip_name_facts (name : string) :
  (isValidClipName name = true <->
   exists cassette clip : string,
     name = cassette +:+ "-" +:+ clip /\
     isValidCassetteName cassette = true /\ isValidCassetteName clip = true) /\
  (isValidClipName name = true -> String.length name = 7) /\
  (Clip_Validate name = [] <-> isValidClipName name = true).
Proof.
  assert (Hiff : isValidClipName name = true <->
    exists cassette clip : string,
      name = cassette +:+ "-" +:+ clip /\
      isValidCassetteName cassette = true /\ isValidCassetteName clip = true).
  { unfold isValidClipName. split.
    - destruct (Split name "-") as [|a [|b [|x l]]] eqn:E; try discriminate.
      intros H. apply andb_prop in H as [Ha Hb].
      destruct (Split_two name a b "-" E) as (-> & _ & _). now exists a, b.
    - intros (a & b & -> & Ha & Hb).
      destruct (valid_cassette_name_shape a Ha) as [_ Hca].
      destruct (valid_cassette_name_shape b Hb) as [_ Hcb].
      change (a +:+ "-" +:+ b) with (a +:+ String "-" b).
      rewrite (Split_at_first a b "-" Hca), (Split_without b "-" Hcb). now rewrite Ha, Hb. }
  split; [exact Hiff|]. split.
  - intros H. apply Hiff in H as (a & b & -> & Ha & Hb).
    destruct (valid_cassette_name_shape a Ha) as [Hla _].
    destruct (valid_cassette_name_shape b Hb) as [Hlb _].
    rewrite StrFacts.length_app. change (String.length ("-" +:+ b)) with (S (String.length b)).
    now rewrite Hla, Hlb.
  - unfold Clip_Validate, report. destruct (isValidClipName name); cbn [negb]; split;
      congruence.
Qed.

(** X17: a clip name is valid exactly when it is a valid cassette name, a
    dash and a valid cassette name: seven bytes, [ddd-ddd].  [Clip.Validate]
    reports nothing for exactly these names. *)
Theorem isValidClipName_two_cassette_names (name : string) :
  (isValidClipName name = true <->
   exists cassette clip : string,
     name = cassette +:+ "-" +:+ clip /\
     isValidCassetteName cassette = true /\ isValidCassetteName clip = true) /\
  (isValidClipName name = true -> String.length name = 7) /\
  (Clip_Validate name = [] <-> isValidClipName name = true).
Proof. apply clip_name_facts. Qed.

Lemma isValidClipName_two_cassette_names_witness :
  isValidClipName "038-001" = true /\ String.length "038-001" = 7.
Proof.
  destruct (isValidClipName_two_cassette_names "038-001") as (Hiff & Hlen & _).
  assert (H : isValidClipName "038-001" = true).
  { apply Hiff. exists "038", "001". repeat split. }
  split; [exact H | exact (Hlen H)].
Defined.

Lemma to_list_length (s : string) : List.length (list_ascii_of_string s) = String.length s.
Proof. induction s; simpl; [reflexivity | now f_equal]. Qed.

(** Two concatenations with tails of one length agree part by part. *)
Lemma append_inj_tail (s1 s2 t1 t2 : string) :
  String.length t1 = String.length t2 -> s1 +:+ t1 = s2 +:+ t2 -> s1 = s2 /\ t1 = t2.
Proof.
  intros Hlen H. apply (f_equal list_ascii_of_string) in H.
  rewrite !StrFacts.to_list_app in H.
  apply app_inj_2 in H as [H1 H2]; [|now rewrite !to_list_length].
  split; now apply StrFacts.to_list_inj.
Qed.

(** X18: among valid cassette names, and among valid clip names, the
    identifier of namespace and name determines both: whatever the
    namespaces are, dashes in them included, two such objects of one kind
    with one identifier have the same namespace and the same name. *)
Theorem valid_names_do_not_collide (ns1 ns2 name1 name2 : string) :
  (isValidCassetteName name1 = true /\ isValidCassetteName name2 = true) \/
  (isValidClipName name1 = true /\ isValidClipName name2 = true) ->
  NameNamespaceIdentifier ns1 name1 = NameNamespaceIdentifier ns2 name2 ->
  ns1 = ns2 /\ name1 = name2.
Proof.
  intros Hvalid H.
  assert (Hlen : String.length name1 = String.length name2).
  { destruct Hvalid as [[H1 H2] | [H1 H2]].
    - destruct (valid_cassette_name_shape _ H1) as [-> _].
      now destruct (valid_cassette_name_shape _ H2) as [-> _].
    - destruct (clip_name_facts name1) as (_ & Hl1 & _).
      destruct (clip_name_facts name2) as (_ & Hl2 & _).
      now rewrite (Hl1 H1), (Hl2 H2). }
  unfold NameNamespaceIdentifier in H.
  apply append_inj_tail in H as [H1 H2].
  - split; [exact H1 | now injection H2].
  - change (String.length ("-" +:+ name1)) with (S (String.length name1)).
    change (String.length ("-" +:+ name2)) with (S (String.length name2)).
    now rewrite Hlen.
Qed.

Lemma valid_names_do_not_collide_witness :
  NameNamespaceIdentifier "a-b" "038" = "a-b-038" /\ "a-b" = "a-b" /\ "038" = "038".
Proof.
  split; [reflexivity|].
  apply (valid_names_do_not_collide "a-b" "a-b" "038" "038").
  - left. split; reflexivity.
  - reflexivity.
Defined.

Lemma report_nil (failed : bool) (e : FieldError) : report failed e = [] <-> failed = false.
Proof. unfold report. destruct failed; split; congruence. Qed.

Lemma recorder_valid_iff (spec : RecorderSpec) :
  Recorder_Validate spec = [] <->
  (Action spec = "None" /\
   (rsCassette spec = "" \/ isValidCassetteName (rsCassette spec) = true)) \/
  ((Action spec = "Preview" \/ Action spec = "Record") /\
   isValidCassetteName (rsCassette spec) = true).
Proof.
  unfold Recorder_Validate, isValidRecorderAction, RecorderActionNone,
    RecorderActionPreview, RecorderActionRecord.
  destruct (String.eqb_spec (Action spec) "None") as [Hn | Hn];
    destruct (String.eqb_spec (Action spec) "Preview") as [Hp | Hp];
    destruct (String.eqb_spec (Action spec) "Record") as [Hr | Hr];
    try congruence;
    destruct (String.eqb_spec (rsCassette spec) "") as [Hc | Hc];
    destruct (isValidCassetteName (rsCassette spec)) eqn:Hv;
    try (rewrite Hc in Hv; discriminate Hv);
    cbn [negb orb andb report List.app]; split;
    try discriminate; try tauto;
    intros [[? [? | ?]] | [[? | ?] ?]]; congruence.
Qed.

(** X19: [Recorder.Validate] reports nothing exactly for the action [None]
    with no cassette or a valid cassette name, and for the actions
    [Preview] and [Record] with a valid cassette name. *)
Theorem Recorder_Validate_accepts (spec : RecorderSpec) :
  Recorder_Validate spec = [] <->
  (Action spec = "None" /\
   (rsCassette spec = "" \/ isValidCassetteName (rsCassette spec) = true)) \/
  ((Action spec = "Preview" \/ Action spec = "Record") /\
   isValidCassetteName (rsCassette spec) = true).
Proof. apply recorder_valid_iff. Qed.

Lemma Recorder_Validate_accepts_witness :
  Recorder_Validate (mkRecorderSpec "Record" "038") = [] /\
  Recorder_Validate (mkRecorderSpec "Record" "") <> [].
Proof.
  split.
  - apply Recorder_Validate_accepts. right. split; [now right | reflexivity].
  - intros H. apply Recorder_Validate_accepts in H as [[H _] | [_ H]]; discriminate H.
Defined.

(** X20: [Cassette.Validate] reports nothing exactly when the name is a
    valid cassette name, the description is not empty, the maximal play
    time is not zero and the type is one of [Video8], [Hi8], [VHS] and
    [VHS-C]; and it reports every rule that is broken, one field error for
    each. *)
Theorem Cassette_Validate_accepts (c : Cassette) :
  (Cassette_Validate c = [] <->
   isValidCassetteName (cassetteName c) = true /\ Description c <> "" /\
   MaxPlayTime c <> 0%N /\
   (CassetteType c = "Video8" \/ CassetteType c = "Hi8" \/
    CassetteType c = "VHS" \/ CassetteType c = "VHS-C")) /\
  List.length (Cassette_Validate c)
  = Nat.b2n (negb (isValidCassetteName (cassetteName c)))
    + Nat.b2n (String.eqb (Description c) "")
    + Nat.b2n (N.eqb (MaxPlayTime c) 0)
    + Nat.b2n (negb (isValidCassetteType (CassetteType c))).
Proof.
  unfold Cassette_Validate, isValidCassetteType, CassetteTypeVideo8, CassetteTypeHi8,
    CassetteTypeVHS, CassetteTypeVHSC.
  split.
  - destruct (isValidCassetteName (cassetteName c));
      destruct (String.eqb_spec (Description c) "") as [Hd | Hd];
      destruct (N.eqb_spec (MaxPlayTime c) 0) as [Hm | Hm];
      destruct (String.eqb_spec (CassetteType c) "Video8") as [H1 | H1];
      destruct (String.eqb_spec (CassetteType c) "Hi8") as [H2 | H2];
      destruct (String.eqb_spec (CassetteType c) "VHS") as [H3 | H3];
      destruct (String.eqb_spec (CassetteType c) "VHS-C") as [H4 | H4];
      cbn [negb orb report List.app]; split; try discriminate; try tauto;
      intros (? & ? & ? & [? | [? | [? | ?]]]); congruence.
  - destruct (negb (isValidCassetteName (cassetteName c))),
      (String.eqb (Description c) ""), (N.eqb (MaxPlayTime c) 0), (negb _); reflexivity.
Qed.

Lemma Cassette_Validate_accepts_witness :
  Cassette_Validate (mkCassette "038" "Summer" "VHS-C" 90) = [] /\
  List.length (Cassette_Validate (mkCassette "38" "" "Betamax" 0)) = 4.
Proof.
  destruct (Cassette_Validate_accepts (mkCassette "038" "Summer" "VHS-C" 90)) as [Hiff _].
  destruct (Cassette_Validate_accepts (mkCassette "38" "" "Betamax" 0)) as [_ Hlen].
  split.
  - apply Hiff. repeat split; try discriminate. now right; right; right.
  - rewrite Hlen. reflexivity.
Defined.

(** X21: [SetDefaults_RecorderSpec] leaves a spec with an action as it is
    and gives a spec without one the action [None], so that it changes
    nothing when applied again.  A spec without an action is refused by
    [Recorder.Validate]; after defaulting it is accepted exactly when its
    cassette is empty or a valid cassette name.  Defaulting turns no
    accepted spec into a refused one. *)
Theorem SetDefaults_RecorderSpec_and_validation (spec : RecorderSpec) :
  SetDefaults_RecorderSpec (SetDefaults_RecorderSpec spec) = SetDefaults_RecorderSpec spec /\
  Action (SetDefaults_RecorderSpec spec) <> "" /\
  rsCassette (SetDefaults_RecorderSpec spec) = rsCassette spec /\
  (Action spec <> "" -> SetDefaults_RecorderSpec spec = spec) /\
  (Action spec = "" ->
   SetDefaults_RecorderSpec spec = mkRecorderSpec "None" (rsCassette spec) /\
   Recorder_Validate spec <> [] /\
   (Recorder_Validate (SetDefaults_RecorderSpec spec) = [] <->
    rsCassette spec = "" \/ isValidCassetteName (rsCassette spec) = true)) /\
  (Recorder_Validate spec = [] -> Recorder_Validate (SetDefaults_RecorderSpec spec) = []).
Proof.
  unfold SetDefaults_RecorderSpec.
  destruct (String.eqb_spec (Action spec) "") as [He | He].
  - cbn [Action rsCassette String.eqb RecorderActionNone].
    split; [reflexivity |]. split; [discriminate |]. split; [reflexivity |].
    split; [intros Hne; contradiction |]. split.
    + intros _. split; [reflexivity|]. split.
      * intros Hv. apply recorder_valid_iff in Hv.
        destruct Hv as [[Ha _] | [[Ha | Ha] _]]; congruence.
      * rewrite recorder_valid_iff. cbn [Action rsCassette]. split.
        -- intros [[_ Hc] | [[Ha | Ha] _]];
             [exact Hc | discriminate Ha | discriminate Ha].
        -- intros Hc. left. now split.
    + intros Hv. apply recorder_valid_iff in Hv.
      destruct Hv as [[Ha _] | [[Ha | Ha] _]]; congruence.
  - rewrite (proj2 (String.eqb_neq _ _) He).
    split; [reflexivity |]. split; [exact He |]. split; [reflexivity |].
    split; [reflexivity |]. split; [intros Ha; contradiction | intros Hv; exact Hv].
Qed.

Lemma SetDefaults_RecorderSpec_and_validation_witness :
  SetDefaults_RecorderSpec (mkRecorderSpec "" "") = mkRecorderSpec "None" "" /\
  Recorder_Validate (mkRecorderSpec "" "") <> [] /\
  Recorder_Validate (SetDefaults_RecorderSpec (mkRecorderSpec "" "")) = [].
Proof.
  destruct (SetDefaults_RecorderSpec_and_validation (mkRecorderSpec "" ""))
    as (_ & _ & _ & _ & H & _).
  destruct (H eq_refl) as (Hnone & Hbefore & Hafter).
  split; [exact Hnone|]. split; [exact Hbefore | apply Hafter; now left].
Defined.

End V1alpha1Facts.
